(** * The staged build-regeneration driver of Blueprint

    A shallow embedding of [bootstrap/command.go]: the argument builder
    [PrimaryBuilderExtraFlags], the driver [RunBlueprint], the fatal
    reporters [fatalf] and [fatalErrors], and [joinPath].

    The driver is effectful Go code.  It is embedded as a function on an
    explicit [World] (file tree, log of the calls made and of the text
    printed, stack of deferred calls) in a small monad whose results tell a
    normal completion from [os.Exit] and from a run-time panic.  The
    dependency-graph engine, the operating system and the other files of the
    package are collaborators: what they answer during one run is collected in
    an [Env] record. *)

From stdpp Require Import base strings gmap list.
From Stdlib Require Import Ascii ZArith Lia.

Local Open Scope Z_scope.

(** ** Data *)

(** Modelled from the spec: the struct [PrimaryBuilderInvocation] is declared
    outside [command.go]; its three fields are the ones the composite literal
    at lines 144-148 names (the Invocation Descriptor of the data model). *)
Module PrimaryBuilderInvocation.
Record t : Type := mk {
  Inputs : list string;
  Outputs : list string;
  Args : list string
}.
End PrimaryBuilderInvocation.

(** [type Args struct], lines 32-55.  A Go slice that may be [nil] and is
    compared with [nil] is an [option]: [None] is the nil slice, [Some []] an
    allocated slice without elements. *)
Record Args : Type := mkArgs {
  OutFile : string;
  Subninjas : list string;
  GlobFile : string;
  GlobListDir : string;
  DepFile : string;
  DocFile : string;
  Cpuprofile : string;
  Memprofile : string;
  DelveListen : string;
  DelvePath : string;
  TraceFile : string;
  RunGoTests : bool;
  UseValidations : bool;
  NoGC : bool;
  EmptyNinjaFile : bool;
  BuildDir : string;
  ModuleListFile : string;
  NinjaBuildDir : string;
  TopFile : string;
  GeneratingPrimaryBuilder : bool;
  PrimaryBuilderInvocations : option (list PrimaryBuilderInvocation.t)
}.

(** Modelled from the spec: the type [Stage] and its constants [StageMain]
    and [StagePrimary] are declared outside [command.go]; the data model has
    exactly these two stages. *)
Inductive Stage : Type := StageMain | StagePrimary.

(** Modelled from the spec: the type [StopBefore] and its two named constants
    are declared outside [command.go].  It is an integer type, so a
    configuration may answer a value that is neither constant:
    [StopBeforeOther]. *)
Inductive StopBefore : Type :=
| StopBeforePrepareBuildActions
| StopBeforeWriteNinja
| StopBeforeOther (n : Z).

(** Modelled from the spec: the struct [Config] is declared outside
    [command.go]; these are the fields the literal at lines 151-160 sets. *)
Record Config : Type := mkConfig {
  stage : Stage;
  topLevelBlueprintsFile : string;
  subninjas : list string;
  globListDir : string;
  runGoTests : bool;
  useValidations : bool;
  primaryBuilderInvocations : list PrimaryBuilderInvocation.t
}.

(** The [config interface{}] argument of [RunBlueprint], seen through the
    three type assertions the driver makes on it.  Each field is [None] when
    the dynamic type of [config] lacks the interface, and otherwise holds what
    the interface's single method answers. *)
Record CallerConfig : Type := mkCallerConfig {
  (** [config.(BootstrapConfig).BuildDir()] *)
  asBootstrapConfig : option string;
  (** [config.(ConfigStopBefore)] and its [StopBefore()] *)
  asConfigStopBefore : option StopBefore;
  (** [config.(ConfigRemoveAbandonedFilesUnder)] and its
      [RemoveAbandonedFilesUnder(buildDir)], answering [(under, except)] *)
  asConfigRemoveAbandonedFilesUnder :
    option (string -> list string * list string)
}.

(** Go [error] values as [fatalErrors] tells them apart: by dynamic type.
    Each carries the text of its [Error()] method. *)
Inductive error : Type :=
| BlueprintError (text : string)   (* *blueprint.BlueprintError *)
| ModuleError (text : string)      (* *blueprint.ModuleError *)
| PropertyError (text : string)    (* *blueprint.PropertyError *)
| OtherError (text : string).      (* any other dynamic type *)

Definition Error (e : error) : string :=
  match e with
  | BlueprintError t | ModuleError t | PropertyError t | OtherError t => t
  end.

(** ** The world the driver acts on *)

Inductive OpenFlag : Type := O_WRONLY | O_CREATE | O_TRUNC.

(** The [io.StringWriter] handed to [ctx.WriteBuildFile]: the
    [bufio.Writer] around the output file, or [ioutil.Discard]. *)
Inductive Sink : Type :=
| SinkBuffer (path : string) (size : Z)
| SinkDiscard.

(** What is registered with the engine: the factories are built by functions
    of the package that live outside [command.go]; the log keeps which one
    was called and on what. *)
Inductive Factory : Type :=
| pluginDeps
| newGoPackageModuleFactory (c : Config)
| newGoBinaryModuleFactory (c : Config) (tools : bool)
| newSingletonFactory (c : Config)
| globSingletonFactory (dir : string).

(** One entry of the log: a call the driver makes on a collaborator, a piece
    of text it prints, or the exit of the process. *)
Inductive Event : Type :=
| EvGOMAXPROCS (n : Z)
| EvSetGCPercent (percent : Z)
| EvCreate (path : string)
| EvStartCPUProfile (path : string)
| EvStopCPUProfile
| EvTraceStart (path : string)
| EvTraceStop
| EvClose (path : string)
| EvSetModuleListFile (path : string)
| EvListModulePaths (dir : string)
| EvRegisterBottomUpMutator (name : string) (f : Factory)
| EvRegisterModuleType (name : string) (f : Factory)
| EvRegisterSingletonType (name : string) (f : Factory)
| EvParseFileList (rootDir : string) (paths : list string)
| EvResolveDependencies
| EvPrepareBuildActions
| EvWriteFile (path : string) (data : string) (perm : Z)
| EvOpenFile (path : string) (flags : list OpenFlag) (perm : Z)
| EvNewWriterSize (path : string) (size : Z)
| EvWriteBuildGlobsNinjaFile (dir : string)
| EvWriteBuildFile (out : Sink)
| EvFlush (path : string)
| EvRemoveAbandonedFilesUnder (srcDir buildDir : string)
    (under except : list string)
| EvWriteHeapProfile (path : string)
| EvPrint (text : string)
| EvExit (code : Z).

(** A call postponed by [defer] until [RunBlueprint] returns.  The two stops
    take no argument in the source; the model keeps with each the file its
    profiler was started on (lines 97 and 107), into which the stop writes. *)
Inductive Deferred : Type :=
| DeferClose (path : string)
| DeferStopCPUProfile (path : string)
| DeferTraceStop (path : string).

(** [files] maps a path to its content; [events] is in chronological order;
    [deferred] has the most recent [defer] first.  The CPU profiler writes its
    file when it is stopped and the heap profile is written by its call; the
    tracer streams into its file from its start on, at times the model does
    not fix: the content of the trace path is given once the tracer has
    stopped, and no statement is made on it for a run that exits before. *)
Record World : Type := mkWorld {
  files : gmap string string;
  events : list Event;
  deferred : list Deferred
}.

(** What the collaborators answer during one run.  An I/O call answers
    [None] when it succeeds and [Some text] when it returns the error whose
    [%s] rendering is [text]; an engine phase answers the pair the Go method
    returns. *)
Record Env : Type := mkEnv {
  NumCPU : Z;                                   (* runtime.NumCPU() *)
  SrcDir : string;                              (* ctx.SrcDir() *)
  filepath_Dir : string -> string;
  filepath_IsAbs : string -> bool;
  filepath_Join : string -> string -> string;
  os_Create : string -> option string;
  ioutil_WriteFile : string -> option string;
  os_OpenFile : string -> option string;
  bufio_Flush : string -> option string;
  os_Close : string -> option string;
  ListModulePaths : string -> list string * option string;
  ParseFileList : string -> list string -> list string * list error;
  ResolveDependencies : list string * list error;
  PrepareBuildActions : list string * list error;
  (** the text the engine hands to the writer, and the error it returns *)
  WriteBuildFile : Sink -> string * option string;
  (** the two collaborators of the package that act on the file tree *)
  WriteBuildGlobsNinjaFile : gmap string string -> gmap string string;
  removeAbandonedFilesUnder :
    string -> string -> list string -> list string ->
    gmap string string -> gmap string string * option string;
  (** what the file handed to a profiler holds once the profiler has written
      into it, from what it held before; the driver looks at no result of
      [pprof.StartCPUProfile], [trace.Start] and [pprof.WriteHeapProfile] *)
  pprof_StopCPUProfile : string -> string;
  trace_Stop : string -> string;
  pprof_WriteHeapProfile : string -> string
}.

(** ** The monad of the driver *)

(** [Ok]: the statement completed.  [Exit]: [os.Exit] was called; the process
    is gone and no deferred call runs.  [Panic]: a run-time panic unwinds the
    function. *)
Inductive Result (A : Type) : Type :=
| Ok (a : A) (w : World)
| Exit (code : Z) (w : World)
| Panic (w : World).
Arguments Ok {A} a w.
Arguments Exit {A} code w.
Arguments Panic {A} w.

Definition M (A : Type) : Type := World -> Result A.

Definition ret {A : Type} (a : A) : M A := fun w => Ok a w.

Definition bind {A B : Type} (m : M A) (k : A -> M B) : M B :=
  fun w =>
    match m w with
    | Ok a w' => k a w'
    | Exit c w' => Exit c w'
    | Panic w' => Panic w'
    end.

Declare Scope driver_scope.
Delimit Scope driver_scope with driver.
Notation "x <- m ;; k" := (bind m (fun x => k))
  (at level 100, m at next level, right associativity) : driver_scope.
Notation "m ;; k" := (bind m (fun _ => k))
  (at level 100, right associativity) : driver_scope.
Local Open Scope driver_scope.

(** The world a result ends in. *)
Definition final {A : Type} (r : Result A) : World :=
  match r with Ok _ w | Exit _ w | Panic w => w end.

Definition log (es : list Event) (w : World) : World :=
  {| files := files w; events := events w ++ es; deferred := deferred w |}.

Definition setFiles (fs : gmap string string) (w : World) : World :=
  {| files := fs; events := events w; deferred := deferred w |}.

Definition call (e : Event) : M unit := fun w => Ok tt (log [e] w).

Definition defer (d : Deferred) : M unit :=
  fun w =>
    Ok tt {| files := files w; events := events w;
             deferred := d :: deferred w |}.

Definition panic {A : Type} : M A := fun w => Panic w.

Definition osExit {A : Type} (code : Z) : M A :=
  fun w => Exit code (log [EvExit code] w).

(** [if err != nil { ... }] *)
Definition ifErr (err : option string) (handler : string -> M unit) : M unit :=
  match err with
  | Some e => handler e
  | None => ret tt
  end.

(** [for _, x := range l { body }] *)
Fixpoint forRange {A : Type} (l : list A) (body : A -> M unit) : M unit :=
  match l with
  | [] => ret tt
  | x :: l' => body x ;; forRange l' body
  end.

(** ** Formatting and the fatal reporters *)

Definition nl : string := String "010"%char EmptyString.

(** [fmt.Sprintf] on the verbs the driver uses, [%s] and [%v], applied to
    arguments already rendered as text; an argument that is missing prints
    as Go prints it.  Other verbs do not occur in [command.go] and are left
    as they stand. *)
Fixpoint Sprintf (format : string) (args : list string) : string :=
  match format with
  | EmptyString => EmptyString
  | String c tl =>
      match tl with
      | String v rest =>
          if Ascii.eqb c "%"%char
             && (Ascii.eqb v "s"%char || Ascii.eqb v "v"%char)
          then
            match args with
            | a :: args' => a +:+ Sprintf rest args'
            | [] => "%!" +:+ String v ("(MISSING)" +:+ Sprintf rest [])
            end
          else String c (Sprintf tl args)
      | EmptyString => String c EmptyString
      end
  end.

Definition fmt_Printf (format : string) (args : list string) : M unit :=
  call (EvPrint (Sprintf format args)).

Definition fmt_Print (text : string) : M unit := call (EvPrint text).

(** [func fatalf], lines 267-271. *)
Definition fatalf {A : Type} (format : string) (args : list string) : M A :=
  fmt_Printf format args ;;
  fmt_Print nl ;;
  osExit 1.

Definition red : string := String "027"%char "[31m".
Definition unred : string := String "027"%char "[0m".

(** [func fatalErrors], lines 273-288. *)
Definition fatalErrors {A : Type} (errs : list error) : M A :=
  forRange errs (fun err =>
    match err with
    | BlueprintError _ | ModuleError _ | PropertyError _ =>
        fmt_Printf ("%serror:%s %s" +:+ nl) [red; unred; Error err]
    | OtherError _ =>
        fmt_Printf ("%sinternal error:%s %s" +:+ nl) [red; unred; Error err]
    end) ;;
  osExit 1.

(** ** Pure helpers *)

Definition nonEmpty (s : string) : bool := negb (String.eqb s "").

(** [func joinPath], lines 290-295. *)
Definition joinPath (env : Env) (base path : string) : string :=
  if filepath_IsAbs env path then path else filepath_Join env base path.

(** [func PrimaryBuilderExtraFlags], lines 57-80: each [append] extends the
    previous value of [result]. *)
Definition PrimaryBuilderExtraFlags (args : Args) (mainNinjaFile : string)
  : list string :=
  let result := [] in
  let result := if RunGoTests args then result ++ ["-t"] else result in
  let result := result ++ ["-l"; ModuleListFile args] in
  let result := result ++ ["-o"; mainNinjaFile] in
  let result :=
    if EmptyNinjaFile args then result ++ ["--empty-ninja-file"] else result in
  let result :=
    if nonEmpty (DelveListen args)
    then result ++ ["--delve_listen"; DelveListen args] else result in
  let result :=
    if nonEmpty (DelvePath args)
    then result ++ ["--delve_path"; DelvePath args] else result in
  result.

(** ** Calls on the collaborators *)

Definition modifyFiles (f : gmap string string -> gmap string string)
  : M unit :=
  fun w => Ok tt (setFiles (f (files w)) w).

(** A collaborator that rewrites the file tree and answers a value. *)
Definition actOnFiles {A : Type}
  (f : gmap string string -> gmap string string * A) : M A :=
  fun w => Ok (snd (f (files w))) (setFiles (fst (f (files w))) w).

(** [os.Create(path)]: on success the path holds an empty file. *)
Definition osCreate (env : Env) (path : string) : M (option string) :=
  call (EvCreate path) ;;
  match os_Create env path with
  | Some e => ret (Some e)
  | None => modifyFiles (insert path "") ;; ret None
  end.

(** [ioutil.WriteFile(path, data, perm)]: on success the path holds [data]. *)
Definition ioutilWriteFile (env : Env) (path data : string) (perm : Z)
  : M (option string) :=
  call (EvWriteFile path data perm) ;;
  match ioutil_WriteFile env path with
  | Some e => ret (Some e)
  | None => modifyFiles (insert path data) ;; ret None
  end.

(** [os.OpenFile(path, O_WRONLY|O_CREATE|O_TRUNC, perm)]: on success the path
    holds an empty file, created or truncated. *)
Definition osOpenFile (env : Env) (path : string) (flags : list OpenFlag)
  (perm : Z) : M (option string) :=
  call (EvOpenFile path flags perm) ;;
  match os_OpenFile env path with
  | Some e => ret (Some e)
  | None => modifyFiles (insert path "") ;; ret None
  end.

(** [buf.Flush()]: on success the buffered text reaches the file, after what
    the file holds; a file that was unlinked meanwhile stays out of the tree. *)
Definition bufFlush (env : Env) (path pending : string) : M (option string) :=
  call (EvFlush path) ;;
  match bufio_Flush env path with
  | Some e => ret (Some e)
  | None =>
      modifyFiles (fun fs =>
        match fs !! path with
        | Some old => <[path := old +:+ pending]> fs
        | None => fs
        end) ;;
      ret None
  end.

(** [f.Close()] on the output file. *)
Definition fileClose (env : Env) (path : string) : M (option string) :=
  call (EvClose path) ;;
  ret (os_Close env path).

Definition ctxListModulePaths (env : Env) (srcDir : string)
  : M (list string * option string) :=
  call (EvListModulePaths srcDir) ;;
  ret (ListModulePaths env srcDir).

Definition ctxParseFileList (env : Env) (rootDir : string)
  (filePaths : list string) : M (list string * list error) :=
  call (EvParseFileList rootDir filePaths) ;;
  ret (ParseFileList env rootDir filePaths).

Definition ctxResolveDependencies (env : Env) : M (list string * list error) :=
  call EvResolveDependencies ;;
  ret (ResolveDependencies env).

Definition ctxPrepareBuildActions (env : Env) : M (list string * list error) :=
  call EvPrepareBuildActions ;;
  ret (PrepareBuildActions env).

Definition ctxWriteBuildFile (env : Env) (out : Sink)
  : M (string * option string) :=
  call (EvWriteBuildFile out) ;;
  ret (WriteBuildFile env out).

Definition callWriteBuildGlobsNinjaFile (env : Env) (dir : string) : M unit :=
  call (EvWriteBuildGlobsNinjaFile dir) ;;
  modifyFiles (WriteBuildGlobsNinjaFile env).

Definition callRemoveAbandonedFilesUnder (env : Env) (srcDir buildDir : string)
  (under except : list string) : M (option string) :=
  call (EvRemoveAbandonedFilesUnder srcDir buildDir under except) ;;
  actOnFiles (removeAbandonedFilesUnder env srcDir buildDir under except).

(** [pprof.WriteHeapProfile(f)]: the profile goes into the file; the error
    the call returns is dropped by the driver. *)
Definition pprofWriteHeapProfile (env : Env) (path : string) : M unit :=
  call (EvWriteHeapProfile path) ;;
  modifyFiles (alter (pprof_WriteHeapProfile env) path).

(** [if len(errs) > 0 { fatalErrors(errs) }] *)
Definition ifErrs (errs : list error) : M unit :=
  if (0 <? length errs)%nat then fatalErrors errs else ret tt.

(** ** The driver, [func RunBlueprint], lines 85-265 *)

(** Lines 86-110: process-wide tuning and the two profiling sessions. *)
Definition startCPUProfile (env : Env) (args : Args) : M unit :=
  if nonEmpty (Cpuprofile args) then
    let path := joinPath env (SrcDir env) (Cpuprofile args) in
    err <- osCreate env path ;;
    ifErr err (fun e => fatalf "error opening cpuprofile: %s" [e]) ;;
    call (EvStartCPUProfile path) ;;
    defer (DeferClose path) ;;
    defer (DeferStopCPUProfile path)
  else ret tt.

Definition startTrace (env : Env) (args : Args) : M unit :=
  if nonEmpty (TraceFile args) then
    let path := joinPath env (SrcDir env) (TraceFile args) in
    err <- osCreate env path ;;
    ifErr err (fun e => fatalf "error opening trace: %s" [e]) ;;
    call (EvTraceStart path) ;;
    defer (DeferClose path) ;;
    defer (DeferTraceStop path)
  else ret tt.

Definition setup (env : Env) (args : Args) : M unit :=
  call (EvGOMAXPROCS (NumCPU env)) ;;
  (if NoGC args then call (EvSetGCPercent (-1)) else ret tt) ;;
  startCPUProfile env args ;;
  startTrace env args.

(** Lines 129-132. *)
Definition selectStage (args : Args) : Stage :=
  let stage := StageMain in
  if GeneratingPrimaryBuilder args then StagePrimary else stage.

(** Line 134. *)
Definition mainNinjaFile (env : Env) : string :=
  filepath_Join env "$buildDir" "build.ninja".

(** Lines 136-149. *)
Definition invocations (env : Env) (args : Args)
  : list PrimaryBuilderInvocation.t :=
  match PrimaryBuilderInvocations args with
  | Some given => given
  | None =>
      let primaryBuilderArgs :=
        PrimaryBuilderExtraFlags args (mainNinjaFile env) in
      let primaryBuilderArgs := primaryBuilderArgs ++ [TopFile args] in
      [ {| PrimaryBuilderInvocation.Inputs := [TopFile args];
           PrimaryBuilderInvocation.Outputs := [mainNinjaFile env];
           PrimaryBuilderInvocation.Args := primaryBuilderArgs |} ]
  end.

(** Lines 151-160. *)
Definition bootstrapConfig (env : Env) (args : Args) : Config :=
  {| stage := selectStage args;
     topLevelBlueprintsFile := TopFile args;
     subninjas := Subninjas args;
     globListDir := GlobListDir args;
     runGoTests := RunGoTests args;
     useValidations := UseValidations args;
     primaryBuilderInvocations := invocations env args |}.

(** Lines 162-168. *)
Definition register (c : Config) : M unit :=
  call (EvRegisterBottomUpMutator "bootstrap_plugin_deps" pluginDeps) ;;
  call (EvRegisterModuleType "bootstrap_go_package"
          (newGoPackageModuleFactory c)) ;;
  call (EvRegisterModuleType "bootstrap_go_binary"
          (newGoBinaryModuleFactory c false)) ;;
  call (EvRegisterModuleType "blueprint_go_binary"
          (newGoBinaryModuleFactory c true)) ;;
  call (EvRegisterSingletonType "bootstrap" (newSingletonFactory c)) ;;
  call (EvRegisterSingletonType "glob"
          (globSingletonFactory (globListDir c))).

#[global] Instance Stage_eq_dec : EqDecision Stage.
Proof. solve_decision. Defined.

#[global] Instance StopBefore_eq_dec : EqDecision StopBefore.
Proof. solve_decision. Defined.

(** Lines 112-182: the module list, the enumeration, the run configuration,
    the registrations, parsing and dependency resolution.  Answers the
    dependency set so far and [buildDir]. *)
Definition resolve (env : Env) (args : Args) (config : CallerConfig)
  : M (list string * string) :=
  let srcDir := filepath_Dir env (TopFile args) in
  let ninjaDeps := [] in
  ninjaDeps <-
    (if nonEmpty (ModuleListFile args) then
       call (EvSetModuleListFile (ModuleListFile args)) ;;
       ret (ninjaDeps ++ [ModuleListFile args])
     else
       fatalf "-l <moduleListFile> is required and must be nonempty" []) ;;
  r <- ctxListModulePaths env srcDir ;;
  let filesToParse := fst r in
  ifErr (snd r)
    (fun e => fatalf ("could not enumerate files: %v" +:+ nl) [e]) ;;
  buildDir <-
    match asBootstrapConfig config with
    | Some dir => ret dir
    | None => panic
    end ;;
  register (bootstrapConfig env args) ;;
  r <- ctxParseFileList env (filepath_Dir env (TopFile args)) filesToParse ;;
  let blueprintFiles := fst r in
  ifErrs (snd r) ;;
  let ninjaDeps := ninjaDeps ++ blueprintFiles in
  r <- ctxResolveDependencies env ;;
  let extraDeps := fst r in
  ifErrs (snd r) ;;
  let ninjaDeps := ninjaDeps ++ extraDeps in
  ret (ninjaDeps, buildDir).

(** Lines 184-188 and 196-200:
    [if c, ok := config.(ConfigStopBefore); ok {]
    [if c.StopBefore() == b { return ninjaDeps } }] *)
Definition stopsBefore (config : CallerConfig) (b : StopBefore) : bool :=
  match asConfigStopBefore config with
  | Some s => bool_decide (s = b)
  | None => false
  end.

(** Lines 190-194. *)
Definition prepare (env : Env) (ninjaDeps : list string) : M (list string) :=
  r <- ctxPrepareBuildActions env ;;
  let extraDeps := fst r in
  ifErrs (snd r) ;;
  let ninjaDeps := ninjaDeps ++ extraDeps in
  ret ninjaDeps.

(** Line 202: [0666]. *)
Definition outFilePermissions : Z := 6 * 64 + 6 * 8 + 6.

(** Lines 202-245: the output emitter.  [out], [f] and [buf] are the local
    variables of the source; [f] and [buf] stay [nil] ([None]) when full
    generation is skipped. *)
Definition emitOutput (env : Env) (args : Args) (stage : Stage) : M unit :=
  let outPath := joinPath env (SrcDir env) (OutFile args) in
  (if EmptyNinjaFile args then
     err <- ioutilWriteFile env outPath "" outFilePermissions ;;
     ifErr err (fun e => fatalf "error writing empty Ninja file: %s" [e])
   else ret tt) ;;
  opened <-
    (if bool_decide (stage <> StageMain) || negb (EmptyNinjaFile args) then
       err <- osOpenFile env outPath [O_WRONLY; O_CREATE; O_TRUNC]
                outFilePermissions ;;
       ifErr err (fun e => fatalf "error opening Ninja file: %s" [e]) ;;
       call (EvNewWriterSize outPath (16 * 1024 * 1024)) ;;
       ret (SinkBuffer outPath (16 * 1024 * 1024), Some outPath, Some outPath)
     else ret (SinkDiscard, None, None)) ;;
  let out := fst (fst opened) in
  let f : option string := snd (fst opened) in
  let buf : option string := snd opened in
  (if nonEmpty (GlobFile args)
   then callWriteBuildGlobsNinjaFile env (GlobListDir args)
   else ret tt) ;;
  r <- ctxWriteBuildFile env out ;;
  ifErr (snd r)
    (fun e => fatalf "error writing Ninja file contents: %s" [e]) ;;
  match buf with
  | Some path =>
      err <- bufFlush env path (fst r) ;;
      ifErr err
        (fun e => fatalf "error flushing Ninja file contents: %s" [e])
  | None => ret tt
  end ;;
  match f with
  | Some path =>
      err <- fileClose env path ;;
      ifErr err (fun e => fatalf "error closing Ninja file: %s" [e])
  | None => ret tt
  end.

(** Lines 247-253. *)
Definition reap (env : Env) (args : Args) (config : CallerConfig)
  (buildDir : string) : M unit :=
  let srcDir := filepath_Dir env (TopFile args) in
  match asConfigRemoveAbandonedFilesUnder config with
  | Some c =>
      let under := fst (c buildDir) in
      let except := snd (c buildDir) in
      err <- callRemoveAbandonedFilesUnder env srcDir buildDir under except ;;
      ifErr err (fun e => fatalf "error removing abandoned files: %s" [e])
  | None => ret tt
  end.

(** Lines 255-262. *)
Definition writeMemprofile (env : Env) (args : Args) : M unit :=
  if nonEmpty (Memprofile args) then
    let path := joinPath env (SrcDir env) (Memprofile args) in
    err <- osCreate env path ;;
    ifErr err (fun e => fatalf "error opening memprofile: %s" [e]) ;;
    defer (DeferClose path) ;;
    pprofWriteHeapProfile env path
  else ret tt.

(** The statements of [RunBlueprint] in order, with its two early returns:
    what follows Checkpoint B (lines 202-264), what follows Checkpoint A
    (lines 190-264), what follows the profiling set-up (lines 112-264), and
    the whole. *)
Definition afterCheckpointB (env : Env) (args : Args) (config : CallerConfig)
  (ninjaDeps : list string) (buildDir : string) : M (list string) :=
  emitOutput env args (selectStage args) ;;
  reap env args config buildDir ;;
  writeMemprofile env args ;;
  ret ninjaDeps.

Definition afterCheckpointA (env : Env) (args : Args) (config : CallerConfig)
  (ninjaDeps : list string) (buildDir : string) : M (list string) :=
  ninjaDeps <- prepare env ninjaDeps ;;
  if stopsBefore config StopBeforeWriteNinja then ret ninjaDeps
  else afterCheckpointB env args config ninjaDeps buildDir.

Definition afterSetup (env : Env) (args : Args) (config : CallerConfig)
  : M (list string) :=
  r <- resolve env args config ;;
  let ninjaDeps := fst r in
  let buildDir := snd r in
  if stopsBefore config StopBeforePrepareBuildActions then ret ninjaDeps
  else afterCheckpointA env args config ninjaDeps buildDir.

Definition body (env : Env) (args : Args) (config : CallerConfig)
  : M (list string) :=
  setup env args ;;
  afterSetup env args config.

(** How a call of [RunBlueprint] ends: it returns the dependency set, or the
    process exits inside it, or it panics. *)
Inductive Outcome : Type :=
| Returned (ninjaDeps : list string)
| Exited (code : Z)
| Panicked.

Definition deferredCall (d : Deferred) : Event :=
  match d with
  | DeferClose path => EvClose path
  | DeferStopCPUProfile _ => EvStopCPUProfile
  | DeferTraceStop _ => EvTraceStop
  end.

(** What a deferred call does to the file tree: a stop writes the profile
    into the file of its profiler, if the path still holds a file; closing a
    file changes no content. *)
Definition deferredWrite (env : Env) (d : Deferred)
  (fs : gmap string string) : gmap string string :=
  match d with
  | DeferClose _ => fs
  | DeferStopCPUProfile path => alter (pprof_StopCPUProfile env) path fs
  | DeferTraceStop path => alter (trace_Stop env) path fs
  end.

Fixpoint deferredWrites (env : Env) (ds : list Deferred)
  (fs : gmap string string) : gmap string string :=
  match ds with
  | [] => fs
  | d :: ds' => deferredWrites env ds' (deferredWrite env d fs)
  end.

(** Leaving the function runs the deferred calls, last deferred first. *)
Definition runDeferred (env : Env) (w : World) : World :=
  {| files := deferredWrites env (deferred w) (files w);
     events := events w ++ map deferredCall (deferred w);
     deferred := [] |}.

(** The process as the call finds it: a file tree, nothing logged, nothing
    deferred. *)
Definition start (fs : gmap string string) : World :=
  {| files := fs; events := []; deferred := [] |}.

(** [RunBlueprint(args, ctx, config)] on the file tree [fs].  A return and a
    panic both unwind the function and run its deferred calls; [os.Exit] does
    not. *)
Definition RunBlueprint (env : Env) (args : Args) (config : CallerConfig)
  (fs : gmap string string) : Outcome * World :=
  match body env args config (start fs) with
  | Ok ninjaDeps w => (Returned ninjaDeps, runDeferred env w)
  | Exit code w => (Exited code, w)
  | Panic w => (Panicked, runDeferred env w)
  end.

(** ** A concrete environment

    A Unix machine with four CPUs, a source tree at [/src] and collaborators
    that all succeed, but for [os.Create] and [Flush], which fail when an
    error text is given; the paths the examples use are relative, clean and
    without a directory part, for which [filepath.Dir] is ["."] and
    [filepath.Join] puts a slash between its arguments; each profiler adds a
    marker to what its file holds. *)
Definition sampleEnvWith (createErr flushErr : option string) : Env :=
  {| NumCPU := 4;
     SrcDir := "/src";
     filepath_Dir := fun _ => ".";
     filepath_IsAbs := fun p => String.prefix "/" p;
     filepath_Join := fun a b => a +:+ "/" +:+ b;
     os_Create := fun _ => createErr;
     ioutil_WriteFile := fun _ => None;
     os_OpenFile := fun _ => None;
     bufio_Flush := fun _ => flushErr;
     os_Close := fun _ => None;
     ListModulePaths := fun _ => (["Android.bp"; "lib/Android.bp"], None);
     ParseFileList := fun _ paths => (paths, []);
     ResolveDependencies := (["lib/sources.list"], []);
     PrepareBuildActions := (["lib/Android.bp"; "out/globs"], []);
     WriteBuildFile := fun _ => ("rule cp", None);
     WriteBuildGlobsNinjaFile := fun fs => fs;
     removeAbandonedFilesUnder := fun _ _ _ _ fs => (fs, None);
     pprof_StopCPUProfile := fun old => old +:+ "<cpu profile>";
     trace_Stop := fun old => old +:+ "<trace>";
     pprof_WriteHeapProfile := fun old => old +:+ "<heap profile>" |}.

Definition sampleEnv : Env := sampleEnvWith None None.

(** Arguments of a run of [sampleEnv], by the fields the examples vary. *)
Definition sampleArgs (cpuprofile moduleListFile delveListen : string)
  (runGoTests emptyNinjaFile primary : bool)
  (given : option (list PrimaryBuilderInvocation.t)) : Args :=
  {| OutFile := "build.ninja";
     Subninjas := [];
     GlobFile := "";
     GlobListDir := "";
     DepFile := "";
     DocFile := "";
     Cpuprofile := cpuprofile;
     Memprofile := "";
     DelveListen := delveListen;
     DelvePath := "";
     TraceFile := "";
     RunGoTests := runGoTests;
     UseValidations := false;
     NoGC := false;
     EmptyNinjaFile := emptyNinjaFile;
     BuildDir := "out";
     ModuleListFile := moduleListFile;
     NinjaBuildDir := "out";
     TopFile := "Android.bp";
     GeneratingPrimaryBuilder := primary;
     PrimaryBuilderInvocations := given |}.

(** A caller configuration that implements [BootstrapConfig] and, when
    [stop] is given, [ConfigStopBefore]. *)
Definition sampleConfig (stop : option StopBefore) : CallerConfig :=
  {| asBootstrapConfig := Some "out";
     asConfigStopBefore := stop;
     asConfigRemoveAbandonedFilesUnder := None |}.

(** ** Vocabulary of the statements below *)

(** The calls each part of the driver can make.  [EvCreate] is shared by the
    profiling set-up and the heap profile, [EvClose] by the emitter and the
    deferred closes. *)
Definition inSetup (e : Event) : bool :=
  match e with
  | EvGOMAXPROCS _ | EvSetGCPercent _ | EvCreate _ | EvStartCPUProfile _
  | EvTraceStart _ | EvPrint _ => true
  | _ => false
  end.

Definition inResolve (e : Event) : bool :=
  match e with
  | EvSetModuleListFile _ | EvListModulePaths _
  | EvRegisterBottomUpMutator _ _ | EvRegisterModuleType _ _
  | EvRegisterSingletonType _ _ | EvParseFileList _ _
  | EvResolveDependencies | EvPrint _ => true
  | _ => false
  end.

Definition inPrepare (e : Event) : bool :=
  match e with
  | EvPrepareBuildActions | EvPrint _ => true
  | _ => false
  end.

Definition inEmit (e : Event) : bool :=
  match e with
  | EvWriteFile _ _ _ | EvOpenFile _ _ _ | EvNewWriterSize _ _
  | EvWriteBuildGlobsNinjaFile _ | EvWriteBuildFile _ | EvFlush _
  | EvClose _ | EvPrint _ => true
  | _ => false
  end.

Definition inReap (e : Event) : bool :=
  match e with
  | EvRemoveAbandonedFilesUnder _ _ _ _ | EvPrint _ => true
  | _ => false
  end.

Definition inMemprofile (e : Event) : bool :=
  match e with
  | EvCreate _ | EvWriteHeapProfile _ | EvPrint _ => true
  | _ => false
  end.

(** The calls of the statements after Checkpoint B, after Checkpoint A,
    after the set-up, and of the whole body. *)
Definition inAfterB (e : Event) : bool :=
  inEmit e || inReap e || inMemprofile e.
Definition inAfterA (e : Event) : bool := inPrepare e || inAfterB e.
Definition inAfterSetup (e : Event) : bool := inResolve e || inAfterA e.
Definition inBody (e : Event) : bool := inSetup e || inAfterSetup e.

(** Calls that only a phase after Checkpoint B makes: the emitter's writes,
    the reaper and the heap profile. *)
Definition pastCheckpointB (e : Event) : bool :=
  match e with
  | EvWriteFile _ _ _ | EvOpenFile _ _ _ | EvNewWriterSize _ _
  | EvWriteBuildGlobsNinjaFile _ | EvWriteBuildFile _ | EvFlush _
  | EvRemoveAbandonedFilesUnder _ _ _ _ | EvWriteHeapProfile _ => true
  | _ => false
  end.

(** Calls that only a phase after Checkpoint A makes: build-action
    preparation and everything past Checkpoint B. *)
Definition pastCheckpointA (e : Event) : bool :=
  match e with
  | EvPrepareBuildActions => true
  | _ => pastCheckpointB e
  end.


(** Calls the driver makes only once the module list check at line 116 has
    passed: everything but the tuning and profiling set-up, the printing and
    the exit. *)
Definition pastModuleListCheck (e : Event) : bool :=
  match e with
  | EvGOMAXPROCS _ | EvSetGCPercent _ | EvCreate _ | EvStartCPUProfile _
  | EvTraceStart _ | EvPrint _ | EvExit _ => false
  | _ => true
  end.

Definition isExit (e : Event) : bool :=
  match e with
  | EvExit _ => true
  | _ => false
  end.

(** [w'] continues [w]: the log got longer by events in [P], the stack of
    deferred calls got higher. *)
Definition grows (P : Event -> Prop) (w w' : World) : Prop :=
  (exists es, events w' = events w ++ es /\ Forall P es) /\
  (exists ds, deferred w' = ds ++ deferred w).

(** The statement [m] only logs events in [P], never pops a deferred call,
    leaves the process, if it does, with status 1 right after logging the
    exit, and panics only if [mayPanic] holds. *)
Definition obeys {A : Type} (P : Event -> Prop) (mayPanic : Prop) (m : M A)
  : Prop :=
  forall w,
    match m w with
    | Ok _ w' => grows P w w'
    | Exit c w' => c = 1 /\ exists w'', grows P w w'' /\ w' = log [EvExit 1] w''
    | Panic w' => grows P w w' /\ mayPanic
    end.

(** The output path, [joinPath(ctx.SrcDir(), args.OutFile)]. *)
Definition outPath (env : Env) (args : Args) : string :=
  joinPath env (SrcDir env) (OutFile args).

(** Full generation proceeds: the stage is not [Main], or the
    empty-build-file toggle is not set. *)
Definition fullGeneration (args : Args) (st : Stage) : bool :=
  bool_decide (st <> StageMain) || negb (EmptyNinjaFile args).

(** The write of the placeholder and the call of the glob writer, when the
    arguments ask for them. *)
Definition placeholderLog (env : Env) (args : Args) : list Event :=
  if EmptyNinjaFile args
  then [EvWriteFile (outPath env args) "" outFilePermissions] else [].

Definition globLog (args : Args) : list Event :=
  if nonEmpty (GlobFile args)
  then [EvWriteBuildGlobsNinjaFile (GlobListDir args)] else [].

(** The writer full generation hands to the engine, and the log of a full
    generation up to the opening of the file, and up to the write of the
    build graph. *)
Definition outSink (env : Env) (args : Args) : Sink :=
  SinkBuffer (outPath env args) (16 * 1024 * 1024).

Definition openedLog (env : Env) (args : Args) : list Event :=
  placeholderLog env args ++
  [EvOpenFile (outPath env args) [O_WRONLY; O_CREATE; O_TRUNC]
     outFilePermissions].

Definition writtenLog (env : Env) (args : Args) : list Event :=
  openedLog env args ++
  [EvNewWriterSize (outPath env args) (16 * 1024 * 1024)] ++
  globLog args ++
  [EvWriteBuildFile (outSink env args)].

(** The dependency set, phase by phase: the description files the engine
    parsed, the set after dependency resolution, the set after build-action
    preparation. *)
Definition parsedFiles (env : Env) (args : Args) : list string :=
  fst (ParseFileList env (filepath_Dir env (TopFile args))
         (fst (ListModulePaths env (filepath_Dir env (TopFile args))))).

Definition resolvedDeps (env : Env) (args : Args) : list string :=
  [ModuleListFile args] ++ parsedFiles env args ++
  fst (ResolveDependencies env).

Definition preparedDeps (env : Env) (args : Args) : list string :=
  resolvedDeps env args ++ fst (PrepareBuildActions env).

(** The phases complete: no collaborator they call returns an error, the
    module list file is given and the caller's configuration implements
    [BootstrapConfig]. *)
Definition setupSucceeds (env : Env) (args : Args) : Prop :=
  (Cpuprofile args <> "" ->
   os_Create env (joinPath env (SrcDir env) (Cpuprofile args)) = None) /\
  (TraceFile args <> "" ->
   os_Create env (joinPath env (SrcDir env) (TraceFile args)) = None).

Definition resolveSucceeds (env : Env) (args : Args) (config : CallerConfig)
  : Prop :=
  ModuleListFile args <> "" /\
  snd (ListModulePaths env (filepath_Dir env (TopFile args))) = None /\
  is_Some (asBootstrapConfig config) /\
  snd (ParseFileList env (filepath_Dir env (TopFile args))
         (fst (ListModulePaths env (filepath_Dir env (TopFile args))))) = [] /\
  snd (ResolveDependencies env) = [].

Definition prepareSucceeds (env : Env) : Prop :=
  snd (PrepareBuildActions env) = [].

(** The calls that run when the function unwinds. *)
Definition unwinding (e : Event) : bool :=
  match e with
  | EvStopCPUProfile | EvTraceStop | EvClose _ => true
  | _ => false
  end.

(** The registrations of lines 162-168 and the whole log of lines 112-182
    when they complete. *)
Definition registerLog (c : Config) : list Event :=
  [EvRegisterBottomUpMutator "bootstrap_plugin_deps" pluginDeps;
   EvRegisterModuleType "bootstrap_go_package" (newGoPackageModuleFactory c);
   EvRegisterModuleType "bootstrap_go_binary"
     (newGoBinaryModuleFactory c false);
   EvRegisterModuleType "blueprint_go_binary"
     (newGoBinaryModuleFactory c true);
   EvRegisterSingletonType "bootstrap" (newSingletonFactory c);
   EvRegisterSingletonType "glob" (globSingletonFactory (globListDir c))].

Definition resolveLog (env : Env) (args : Args) : list Event :=
  [EvSetModuleListFile (ModuleListFile args);
   EvListModulePaths (filepath_Dir env (TopFile args))] ++
  registerLog (bootstrapConfig env args) ++
  [EvParseFileList (filepath_Dir env (TopFile args))
     (fst (ListModulePaths env (filepath_Dir env (TopFile args))));
   EvResolveDependencies].

(** The log and the deferred calls of lines 86-110 when they complete. *)
Definition setupLog (env : Env) (args : Args) : list Event :=
  [EvGOMAXPROCS (NumCPU env)] ++
  (if NoGC args then [EvSetGCPercent (-1)] else []) ++
  (if nonEmpty (Cpuprofile args)
   then [EvCreate (joinPath env (SrcDir env) (Cpuprofile args));
         EvStartCPUProfile (joinPath env (SrcDir env) (Cpuprofile args))]
   else []) ++
  (if nonEmpty (TraceFile args)
   then [EvCreate (joinPath env (SrcDir env) (TraceFile args));
         EvTraceStart (joinPath env (SrcDir env) (TraceFile args))]
   else []).

Definition setupDeferred (env : Env) (args : Args) : list Deferred :=
  (if nonEmpty (TraceFile args)
   then [DeferTraceStop (joinPath env (SrcDir env) (TraceFile args));
         DeferClose (joinPath env (SrcDir env) (TraceFile args))]
   else []) ++
  (if nonEmpty (Cpuprofile args)
   then [DeferStopCPUProfile (joinPath env (SrcDir env) (Cpuprofile args));
         DeferClose (joinPath env (SrcDir env) (Cpuprofile args))]
   else []).

(** A call that creates, reads or writes a file. *)
Definition fileCall (e : Event) : bool :=
  match e with
  | EvCreate _ | EvListModulePaths _ | EvParseFileList _ _
  | EvWriteFile _ _ _ | EvOpenFile _ _ _ | EvFlush _
  | EvWriteBuildGlobsNinjaFile _ | EvRemoveAbandonedFilesUnder _ _ _ _
  | EvWriteHeapProfile _ => true
  | _ => false
  end.

(** The run ends by a fatal report before any file was created, read or
    written: no such call is logged and the file tree is the initial one. *)
Definition failsBeforeAnyFile (env : Env) (args : Args)
  (config : CallerConfig) (fs : gmap string string) : Prop :=
  fst (RunBlueprint env args config fs) = Exited 1 /\
  Forall (fun e => fileCall e = false)
    (events (snd (RunBlueprint env args config fs))) /\
  files (snd (RunBlueprint env args config fs)) = fs.

(** In the log, the session started by [started] is released: [stopped] is
    logged later, and the session's file [path] is closed after that. *)
Definition released (started stopped : Event) (path : string)
  (log : list Event) : Prop :=
  exists before during after,
    log = before ++ started :: during ++ stopped :: after /\
    EvClose path ∈ after.

Definition isStopCPUProfile (e : Event) : bool :=
  match e with
  | EvStopCPUProfile => true
  | _ => false
  end.

(** The log of an emitter that completes, and what it leaves at the output
    path: the build graph after a full generation, nothing after a skipped
    one. *)
Definition emissionLog (env : Env) (args : Args) (st : Stage) : list Event :=
  if fullGeneration args st
  then writtenLog env args ++
       [EvFlush (outPath env args); EvClose (outPath env args)]
  else placeholderLog env args ++ globLog args ++
       [EvWriteBuildFile SinkDiscard].

Definition emittedContent (env : Env) (args : Args) (st : Stage) : string :=
  if fullGeneration args st
  then fst (WriteBuildFile env (outSink env args)) else "".


(** What [fatalf] and [fatalErrors] add to the log. *)
Definition fatalLog (text : string) : list Event :=
  [EvPrint text; EvPrint nl; EvExit 1].

(** The line [fatalErrors] prints for one error, in the words of the spec:
    the expected categories get the prefix "error:", the others
    "internal error:", between the colour escapes. *)
Definition expected (e : error) : Prop :=
  (exists t, e = BlueprintError t) \/ (exists t, e = ModuleError t) \/
  (exists t, e = PropertyError t).

#[global] Instance expected_dec (e : error) : Decision (expected e).
Proof.
  destruct e;
    [ left; left; eauto | left; right; left; eauto
    | left; right; right; eauto
    | right; intros [[? ?]|[[? ?]|[? ?]]]; discriminate ].
Defined.

Definition reportLine (e : error) : string :=
  red +:+ (if decide (expected e) then "error:" else "internal error:")
      +:+ unred +:+ " " +:+ Error e +:+ nl.

(** The argument sequence of the synthesized invocation, in the words of the
    spec: [[-t]? -l <moduleListFile> -o <mainNinjaFile> [--empty-ninja-file]?
    [--delve_listen <addr>]? [--delve_path <path>]? <topFile>]. *)
Definition optional (present : Prop) `{Decision present}
  (segment : list string) : list string :=
  if decide present then segment else [].

Definition specArguments (args : Args) (mainNinjaFile : string) : list string :=
  optional (RunGoTests args = true) ["-t"] ++
  ["-l"; ModuleListFile args] ++
  ["-o"; mainNinjaFile] ++
  optional (EmptyNinjaFile args = true) ["--empty-ninja-file"] ++
  optional (DelveListen args <> "") ["--delve_listen"; DelveListen args] ++
  optional (DelvePath args <> "") ["--delve_path"; DelvePath args] ++
  [TopFile args].

(** ** Vocabulary of the statements on the rest of the driver *)

(** The statement leaves [f w] as it found it, however it ends. *)
Definition preserves {A B : Type} (f : World -> B) (m : M A) : Prop :=
  forall w, f (final (m w)) = f w.

(** Whenever the statement ends the process, the last thing it logged
    before the exit is a printed text that ends its line. *)
Definition announced {A : Type} (m : M A) : Prop :=
  forall w code w',
    m w = Exit code w' ->
    exists es text, events w' = es ++ [EvPrint (text +:+ nl); EvExit code].



(** The file tree the reaper is called on: what the profiling set-up and
    the emitter make of the initial tree; the engine phases in between
    change no file. *)
Definition treeAtReaper (env : Env) (args : Args)
  (fs : gmap string string) : gmap string string :=
  files (final ((setup env args ;;
                 emitOutput env args (selectStage args)) (start fs))).


(** The log and the deferred call of lines 255-262 when they complete. *)
Definition heapProfileLog (env : Env) (args : Args) : list Event :=
  if nonEmpty (Memprofile args)
  then [EvCreate (joinPath env (SrcDir env) (Memprofile args));
        EvWriteHeapProfile (joinPath env (SrcDir env) (Memprofile args))]
  else [].

Definition heapProfileDeferred (env : Env) (args : Args) : list Deferred :=
  if nonEmpty (Memprofile args)
  then [DeferClose (joinPath env (SrcDir env) (Memprofile args))] else [].

(** No file operation of the emitter returns an error: the placeholder write
    when asked for; open, build-graph write, flush and close in a full
    generation; the build-graph write on the no-op sink otherwise. *)
Definition emitSucceeds (env : Env) (args : Args) (st : Stage) : Prop :=
  (EmptyNinjaFile args = true ->
   ioutil_WriteFile env (outPath env args) = None) /\
  (fullGeneration args st = true ->
   os_OpenFile env (outPath env args) = None /\
   snd (WriteBuildFile env (outSink env args)) = None /\
   bufio_Flush env (outPath env args) = None /\
   os_Close env (outPath env args) = None) /\
  (fullGeneration args st = false ->
   snd (WriteBuildFile env SinkDiscard) = None).

(** The reaper, when the caller's configuration asks for it, returns no
    error on the file tree [fs]. *)
Definition reapSucceedsOn (env : Env) (args : Args) (config : CallerConfig)
  (buildDir : string) (fs : gmap string string) : Prop :=
  match asConfigRemoveAbandonedFilesUnder config with
  | Some c =>
      snd (removeAbandonedFilesUnder env (filepath_Dir env (TopFile args))
             buildDir (fst (c buildDir)) (snd (c buildDir)) fs) = None
  | None => True
  end.

Definition memprofileSucceeds (env : Env) (args : Args) : Prop :=
  Memprofile args <> "" ->
  os_Create env (joinPath env (SrcDir env) (Memprofile args)) = None.

(** [sampleEnv] with an engine that reports the errors given: on the
    enumeration, on parsing, on dependency resolution, on build-action
    preparation. *)
Definition sampleEngine (enumErr : option string)
  (parseErrs resolveErrs prepareErrs : list error) : Env :=
  {| NumCPU := 4;
     SrcDir := "/src";
     filepath_Dir := fun _ => ".";
     filepath_IsAbs := fun p => String.prefix "/" p;
     filepath_Join := fun a b => a +:+ "/" +:+ b;
     os_Create := fun _ => None;
     ioutil_WriteFile := fun _ => None;
     os_OpenFile := fun _ => None;
     bufio_Flush := fun _ => None;
     os_Close := fun _ => None;
     ListModulePaths := fun _ => (["Android.bp"; "lib/Android.bp"], enumErr);
     ParseFileList := fun _ paths => (paths, parseErrs);
     ResolveDependencies := (["lib/sources.list"], resolveErrs);
     PrepareBuildActions := (["lib/Android.bp"; "out/globs"], prepareErrs);
     WriteBuildFile := fun _ => ("rule cp", None);
     WriteBuildGlobsNinjaFile := fun fs => fs;
     removeAbandonedFilesUnder := fun _ _ _ _ fs => (fs, None);
     pprof_StopCPUProfile := fun old => old +:+ "<cpu profile>";
     trace_Stop := fun old => old +:+ "<trace>";
     pprof_WriteHeapProfile := fun old => old +:+ "<heap profile>" |}.

(** A caller configuration that also asks for the reaper, under the build
    directory and with no exception. *)
Definition reapingConfig : CallerConfig :=
  {| asBootstrapConfig := Some "out";
     asConfigStopBefore := None;
     asConfigRemoveAbandonedFilesUnder := Some (fun dir => ([dir], [])) |}.

(** [sampleEnv] with a reaper that returns the error given and leaves the
    file tree alone. *)
Definition sampleReaperFails (e : string) : Env :=
  {| NumCPU := NumCPU sampleEnv;
     SrcDir := SrcDir sampleEnv;
     filepath_Dir := filepath_Dir sampleEnv;
     filepath_IsAbs := filepath_IsAbs sampleEnv;
     filepath_Join := filepath_Join sampleEnv;
     os_Create := os_Create sampleEnv;
     ioutil_WriteFile := ioutil_WriteFile sampleEnv;
     os_OpenFile := os_OpenFile sampleEnv;
     bufio_Flush := bufio_Flush sampleEnv;
     os_Close := os_Close sampleEnv;
     ListModulePaths := ListModulePaths sampleEnv;
     ParseFileList := ParseFileList sampleEnv;
     ResolveDependencies := ResolveDependencies sampleEnv;
     PrepareBuildActions := PrepareBuildActions sampleEnv;
     WriteBuildFile := WriteBuildFile sampleEnv;
     WriteBuildGlobsNinjaFile := WriteBuildGlobsNinjaFile sampleEnv;
     removeAbandonedFilesUnder := fun _ _ _ _ fs => (fs, Some e);
     pprof_StopCPUProfile := pprof_StopCPUProfile sampleEnv;
     trace_Stop := trace_Stop sampleEnv;
     pprof_WriteHeapProfile := pprof_WriteHeapProfile sampleEnv |}.

(** Classes of events the statements count or exclude. *)
Definition isStartCPUProfile (e : Event) : bool :=
  match e with
  | EvStartCPUProfile _ => true
  | _ => false
  end.

Definition isTraceStart (e : Event) : bool :=
  match e with
  | EvTraceStart _ => true
  | _ => false
  end.

Definition isTuning (e : Event) : bool :=
  match e with
  | EvGOMAXPROCS _ | EvSetGCPercent _ => true
  | _ => false
  end.

Definition isStop (e : Event) : bool :=
  match e with
  | EvStopCPUProfile | EvTraceStop => true
  | _ => false
  end.


(** How many events of a log are in the class [f]. *)
Definition countWhere (f : Event -> bool) (l : list Event) : nat :=
  length (List.filter f l).

(** The calls made after the emitter: the reaper and the heap profile. *)
Definition afterEmitter (e : Event) : bool :=
  match e with
  | EvRemoveAbandonedFilesUnder _ _ _ _ | EvWriteHeapProfile _ => true
  | _ => false
  end.

(** * Properties *)

(** ** The definitions on concrete inputs *)

Example outFilePermissions_value : outFilePermissions = 438.
Proof. reflexivity. Qed.

Example buffer_size_value : 16 * 1024 * 1024 = 16777216.
Proof. reflexivity. Qed.

Example Sprintf_enumerate :
  Sprintf ("could not enumerate files: %v" +:+ nl)
    ["open out/module_paths: no such file"]
  = "could not enumerate files: open out/module_paths: no such file" +:+ nl.
Proof. reflexivity. Qed.

Example PrimaryBuilderExtraFlags_sample :
  PrimaryBuilderExtraFlags
    (sampleArgs "" "out/module_paths" "" true false false None)
    "$buildDir/build.ninja"
  = ["-t"; "-l"; "out/module_paths"; "-o"; "$buildDir/build.ninja"].
Proof. reflexivity. Qed.

Example joinPath_relative :
  joinPath sampleEnv "/src" "build.ninja" = "/src/build.ninja".
Proof. reflexivity. Qed.

Example joinPath_absolute :
  joinPath sampleEnv "/src" "/tmp/build.ninja" = "/tmp/build.ninja".
Proof. reflexivity. Qed.

Example fatalErrors_sample :
  events
    (final (@fatalErrors unit
              [ModuleError "a.bp:3:1: unknown module type"; OtherError "boom"]
              (start ∅)))
  = [EvPrint (red +:+ "error:" +:+ unred +:+
              " a.bp:3:1: unknown module type" +:+ nl);
     EvPrint (red +:+ "internal error:" +:+ unred +:+ " boom" +:+ nl);
     EvExit 1].
Proof. reflexivity. Qed.

Example RunBlueprint_sample :
  fst (RunBlueprint sampleEnv
         (sampleArgs "" "out/module_paths" "" false false false None)
         (sampleConfig None) ∅)
  = Returned ["out/module_paths"; "Android.bp"; "lib/Android.bp";
              "lib/sources.list"; "lib/Android.bp"; "out/globs"].
Proof. reflexivity. Qed.

(** ** The monad *)

Lemma bind_Ok {A B : Type} (m : M A) (k : A -> M B) w b w' :
  bind m k w = Ok b w' ->
  exists a w1, m w = Ok a w1 /\ k a w1 = Ok b w'.
Proof.
  unfold bind. destruct (m w) as [a w1|c w1|w1]; intros H; try discriminate.
  exists a, w1. split; [reflexivity | exact H].
Qed.

Lemma bind_eq_Ok {A B : Type} (m : M A) (k : A -> M B) w a w1 :
  m w = Ok a w1 -> bind m k w = k a w1.
Proof. unfold bind. intros ->. reflexivity. Qed.

Lemma bind_eq_Exit {A B : Type} (m : M A) (k : A -> M B) w c w1 :
  m w = Exit c w1 -> bind m k w = Exit c w1.
Proof. unfold bind. intros ->. reflexivity. Qed.

Lemma grows_refl P w : grows P w w.
Proof.
  split; [exists [] | exists []]; simpl; rewrite ?app_nil_r; auto.
Qed.

Lemma grows_trans P w1 w2 w3 : grows P w1 w2 -> grows P w2 w3 -> grows P w1 w3.
Proof.
  intros [(es1 & E1 & F1) (ds1 & D1)] [(es2 & E2 & F2) (ds2 & D2)]. split.
  - exists (es1 ++ es2). rewrite E2, E1, <- app_assoc. split; [reflexivity|].
    apply Forall_app; auto.
  - exists (ds2 ++ ds1). rewrite D2, D1, <- app_assoc. reflexivity.
Qed.

Lemma grows_weaken (P Q : Event -> Prop) w w' :
  (forall e, P e -> Q e) -> grows P w w' -> grows Q w w'.
Proof.
  intros HPQ [(es & E & F) D]. split; [|exact D].
  exists es. split; [exact E|]. eapply Forall_impl; eauto.
Qed.

Lemma grows_log (P : Event -> Prop) es w : Forall P es -> grows P w (log es w).
Proof.
  intros F. split; [exists es | exists []]; simpl; auto.
Qed.

Section Obeys.
Context (P : Event -> Prop) (mayPanic : Prop).

Lemma obeys_ret {A : Type} (a : A) : obeys P mayPanic (ret a).
Proof. intros w. apply grows_refl. Qed.

Lemma obeys_panic {A : Type} : mayPanic -> obeys P mayPanic (@panic A).
Proof. intros H w. split; [apply grows_refl | exact H]. Qed.

Lemma obeys_bind {A B : Type} (m : M A) (k : A -> M B) :
  obeys P mayPanic m -> (forall a, obeys P mayPanic (k a)) ->
  obeys P mayPanic (bind m k).
Proof.
  intros Hm Hk w. unfold bind. specialize (Hm w).
  destruct (m w) as [a w1|c w1|w1]; [|exact Hm|exact Hm].
  specialize (Hk a w1).
  destruct (k a w1) as [b w2|c w2|w2].
  - eapply grows_trans; eauto.
  - destruct Hk as (-> & w'' & G & ->). split; [reflexivity|].
    exists w''. split; [|reflexivity]. eapply grows_trans; eauto.
  - destruct Hk as [G Hp]. split; [|exact Hp]. eapply grows_trans; eauto.
Qed.

Lemma obeys_call (e : Event) : P e -> obeys P mayPanic (call e).
Proof. intros He w. apply grows_log. auto. Qed.

Lemma obeys_defer (d : Deferred) : obeys P mayPanic (defer d).
Proof.
  intros w. split; [exists [] | exists [d]]; simpl;
    rewrite ?app_nil_r; auto.
Qed.

Lemma obeys_actOnFiles {A : Type}
  (f : gmap string string -> gmap string string * A) :
  obeys P mayPanic (actOnFiles f).
Proof.
  intros w. split; [exists [] | exists []]; simpl;
    rewrite ?app_nil_r; auto.
Qed.

Lemma obeys_modifyFiles f : obeys P mayPanic (modifyFiles f).
Proof.
  intros w. split; [exists [] | exists []]; simpl;
    rewrite ?app_nil_r; auto.
Qed.

Lemma obeys_osExit {A : Type} : obeys P mayPanic (@osExit A 1).
Proof.
  intros w. split; [reflexivity|]. exists w. split; [apply grows_refl|].
  reflexivity.
Qed.

Lemma obeys_ifErr err handler :
  (forall e, obeys P mayPanic (handler e)) ->
  obeys P mayPanic (ifErr err handler).
Proof. intros H. destruct err; simpl; [apply H | apply obeys_ret]. Qed.

Lemma obeys_forRange {A : Type} (l : list A) body :
  (forall x, obeys P mayPanic (body x)) ->
  obeys P mayPanic (forRange l body).
Proof.
  intros H. induction l as [|x l IH]; simpl.
  - apply obeys_ret.
  - apply obeys_bind; [apply H | intros _; exact IH].
Qed.
End Obeys.

Lemma obeys_weaken {A : Type} (P Q : Event -> Prop) (p q : Prop) (m : M A) :
  (forall e, P e -> Q e) -> (p -> q) -> obeys P p m -> obeys Q q m.
Proof.
  intros HPQ Hpq Hm w. specialize (Hm w). destruct (m w) as [a w'|c w'|w'].
  - eapply grows_weaken; eauto.
  - destruct Hm as (-> & w'' & G & ->). split; [reflexivity|].
    exists w''. split; [eapply grows_weaken; eauto | reflexivity].
  - destruct Hm as [G Hp]. split; [eapply grows_weaken; eauto | auto].
Qed.

(** One step of a proof that a statement obeys a class of events: follow the
    structure of the statement, unfolding the driver's own functions. *)
Ltac obey_step :=
  cbv zeta;
  match goal with
  | |- obeys _ _ (ret _) => apply obeys_ret
  | |- obeys _ _ panic => apply obeys_panic; first [assumption | reflexivity]
  | |- obeys _ _ (osExit 1) => apply obeys_osExit
  | |- obeys _ _ (defer _) => apply obeys_defer
  | |- obeys _ _ (modifyFiles _) => apply obeys_modifyFiles
  | |- obeys _ _ (actOnFiles _) => apply obeys_actOnFiles
  | |- obeys _ _ (call _) => apply obeys_call; reflexivity
  | |- obeys _ _ (bind _ _) => apply obeys_bind; [|intros ?]
  | |- obeys _ _ (ifErr _ _) => apply obeys_ifErr; intros ?
  | |- obeys _ _ (forRange _ _) => apply obeys_forRange; intros ?
  | |- obeys _ _ (if ?b then _ else _) => destruct b
  | |- obeys _ _ (match ?x with _ => _ end) => destruct x eqn:?
  | |- obeys _ _ (fatalf _ _) => unfold fatalf
  | |- obeys _ _ (fatalErrors _) => unfold fatalErrors
  | |- obeys _ _ (fmt_Printf _ _) => unfold fmt_Printf
  | |- obeys _ _ (fmt_Print _) => unfold fmt_Print
  | |- obeys _ _ (ifErrs _) => unfold ifErrs
  | |- obeys _ _ (osCreate _ _) => unfold osCreate
  | |- obeys _ _ (ioutilWriteFile _ _ _ _) => unfold ioutilWriteFile
  | |- obeys _ _ (osOpenFile _ _ _ _) => unfold osOpenFile
  | |- obeys _ _ (bufFlush _ _ _) => unfold bufFlush
  | |- obeys _ _ (fileClose _ _) => unfold fileClose
  | |- obeys _ _ (pprofWriteHeapProfile _ _) => unfold pprofWriteHeapProfile
  | |- obeys _ _ (ctxListModulePaths _ _) => unfold ctxListModulePaths
  | |- obeys _ _ (ctxParseFileList _ _ _) => unfold ctxParseFileList
  | |- obeys _ _ (ctxResolveDependencies _) => unfold ctxResolveDependencies
  | |- obeys _ _ (ctxPrepareBuildActions _) => unfold ctxPrepareBuildActions
  | |- obeys _ _ (ctxWriteBuildFile _ _) => unfold ctxWriteBuildFile
  | |- obeys _ _ (callWriteBuildGlobsNinjaFile _ _) =>
      unfold callWriteBuildGlobsNinjaFile
  | |- obeys _ _ (callRemoveAbandonedFilesUnder _ _ _ _ _) =>
      unfold callRemoveAbandonedFilesUnder
  | |- obeys _ _ (startCPUProfile _ _) => unfold startCPUProfile
  | |- obeys _ _ (startTrace _ _) => unfold startTrace
  | |- obeys _ _ (register _) => unfold register
  end.

Ltac obey := repeat obey_step.

(** ** The events of each part of the driver *)

Lemma setup_obeys env args :
  obeys (fun e => inSetup e = true) False (setup env args).
Proof. unfold setup. obey. Qed.

Lemma resolve_obeys env args config :
  obeys (fun e => inResolve e = true) (asBootstrapConfig config = None)
    (resolve env args config).
Proof. unfold resolve. obey. Qed.

Lemma prepare_obeys env deps :
  obeys (fun e => inPrepare e = true) False (prepare env deps).
Proof. unfold prepare. obey. Qed.

Lemma emitOutput_obeys env args st :
  obeys (fun e => inEmit e = true) False (emitOutput env args st).
Proof. unfold emitOutput. obey. Qed.

Lemma reap_obeys env args config buildDir :
  obeys (fun e => inReap e = true) False (reap env args config buildDir).
Proof. unfold reap. obey. Qed.

Lemma writeMemprofile_obeys env args :
  obeys (fun e => inMemprofile e = true) False (writeMemprofile env args).
Proof. unfold writeMemprofile. obey. Qed.

Lemma afterCheckpointB_obeys env args config deps buildDir :
  obeys (fun e => inAfterB e = true) False
    (afterCheckpointB env args config deps buildDir).
Proof.
  unfold afterCheckpointB.
  apply obeys_bind;
    [eapply obeys_weaken; [| |apply emitOutput_obeys]; [|tauto] | intros _].
  { intros e He. unfold inAfterB. rewrite He. reflexivity. }
  apply obeys_bind;
    [eapply obeys_weaken; [| |apply reap_obeys]; [|tauto] | intros _].
  { intros e He. unfold inAfterB. rewrite He, !orb_true_r. reflexivity. }
  apply obeys_bind;
    [eapply obeys_weaken; [| |apply writeMemprofile_obeys]; [|tauto]
    | intros _; apply obeys_ret].
  intros e He. unfold inAfterB. rewrite He, !orb_true_r. reflexivity.
Qed.

Lemma afterCheckpointA_obeys env args config deps buildDir :
  obeys (fun e => inAfterA e = true) False
    (afterCheckpointA env args config deps buildDir).
Proof.
  unfold afterCheckpointA.
  apply obeys_bind;
    [eapply obeys_weaken; [| |apply prepare_obeys]; [|tauto] | intros deps'].
  { intros e He. unfold inAfterA. rewrite He. reflexivity. }
  destruct (stopsBefore config StopBeforeWriteNinja); [apply obeys_ret|].
  eapply obeys_weaken; [| |apply afterCheckpointB_obeys]; [|tauto].
  intros e He. unfold inAfterA. rewrite He, orb_true_r. reflexivity.
Qed.

Lemma afterSetup_obeys env args config :
  obeys (fun e => inAfterSetup e = true) (asBootstrapConfig config = None)
    (afterSetup env args config).
Proof.
  unfold afterSetup.
  apply obeys_bind;
    [eapply obeys_weaken; [| |apply resolve_obeys]; [|tauto] | intros r].
  { intros e He. unfold inAfterSetup. rewrite He. reflexivity. }
  cbv zeta.
  destruct (stopsBefore config StopBeforePrepareBuildActions);
    [apply obeys_ret|].
  eapply obeys_weaken; [| |apply afterCheckpointA_obeys]; [|tauto].
  intros e He. unfold inAfterSetup. rewrite He, orb_true_r. reflexivity.
Qed.

Lemma body_obeys env args config :
  obeys (fun e => inBody e = true) (asBootstrapConfig config = None)
    (body env args config).
Proof.
  unfold body.
  apply obeys_bind;
    [eapply obeys_weaken; [| |apply setup_obeys]; [|tauto] | intros _].
  { intros e He. unfold inBody. rewrite He. reflexivity. }
  eapply obeys_weaken; [| |apply afterSetup_obeys]; [|tauto].
  intros e He. unfold inBody. rewrite He, orb_true_r. reflexivity.
Qed.

(** ** The invocation list of the run configuration *)

Lemma nonEmpty_true s : nonEmpty s = true <-> s <> "".
Proof.
  unfold nonEmpty. destruct (String.eqb_spec s ""); simpl; split;
    intros; congruence.
Qed.

Lemma nonEmpty_optional s (segment : list string) :
  (if nonEmpty s then segment else []) = optional (s <> "") segment.
Proof.
  unfold optional. destruct (nonEmpty s) eqn:E; case_decide; try reflexivity.
  - apply nonEmpty_true in E. contradiction.
  - apply nonEmpty_true in H. congruence.
Qed.

(** C2.  With no explicit invocation list the run configuration holds one
    descriptor whose arguments are, in this order: ["-t"] iff the
    run-embedded-tests toggle is set, ["-l"] and the module list file, ["-o"]
    and the main ninja file, ["--empty-ninja-file"] iff that toggle is set,
    ["--delve_listen"] and its value iff it is non-empty, ["--delve_path"] and
    its value iff it is non-empty, and last the top-level description file. *)
Theorem synthesized_arguments env args :
  PrimaryBuilderInvocations args = None ->
  map PrimaryBuilderInvocation.Args
      (primaryBuilderInvocations (bootstrapConfig env args))
  = [specArguments args (mainNinjaFile env)].
Proof.
  intros Hnil. simpl. unfold invocations. rewrite Hnil. simpl. f_equal.
  unfold PrimaryBuilderExtraFlags, specArguments.
  rewrite <- !nonEmpty_optional. unfold optional.
  destruct (RunGoTests args), (EmptyNinjaFile args),
    (nonEmpty (DelveListen args)), (nonEmpty (DelvePath args));
    reflexivity.
Qed.

Lemma synthesized_arguments_witness :
  map PrimaryBuilderInvocation.Args
      (primaryBuilderInvocations
         (bootstrapConfig sampleEnv
            (sampleArgs "" "out/module_paths" "localhost:2345" true true false
               None)))
  = [["-t"; "-l"; "out/module_paths"; "-o"; "$buildDir/build.ninja";
      "--empty-ninja-file"; "--delve_listen"; "localhost:2345";
      "Android.bp"]].
Proof.
  exact (synthesized_arguments sampleEnv
           (sampleArgs "" "out/module_paths" "localhost:2345" true true false
              None) eq_refl).
Defined.

(** C9.  An explicit list of Invocation Descriptors is the invocation list of
    the run configuration, unchanged; without one the list holds exactly one
    descriptor, whose inputs are the top-level description file alone and
    whose outputs are the single path [build.ninja] joined to the build
    directory. *)
Theorem invocation_list env args :
  (forall given,
     PrimaryBuilderInvocations args = Some given ->
     primaryBuilderInvocations (bootstrapConfig env args) = given) /\
  (PrimaryBuilderInvocations args = None ->
   exists inv,
     primaryBuilderInvocations (bootstrapConfig env args) = [inv] /\
     PrimaryBuilderInvocation.Inputs inv = [TopFile args] /\
     PrimaryBuilderInvocation.Outputs inv
     = [filepath_Join env "$buildDir" "build.ninja"]).
Proof.
  split.
  - intros given H. simpl. unfold invocations. rewrite H. reflexivity.
  - intros H. simpl. unfold invocations. rewrite H.
    eexists. split; [reflexivity|]. split; reflexivity.
Qed.

Lemma invocation_list_witness :
  let given :=
    [PrimaryBuilderInvocation.mk ["a.bp"] ["a.ninja"] ["-o"; "a.ninja"];
     PrimaryBuilderInvocation.mk ["b.bp"] ["b.ninja"] ["-o"; "b.ninja"]] in
  primaryBuilderInvocations
    (bootstrapConfig sampleEnv
       (sampleArgs "" "out/module_paths" "" false false false (Some given)))
  = given /\
  exists inv,
    primaryBuilderInvocations
      (bootstrapConfig sampleEnv
         (sampleArgs "" "out/module_paths" "" false false false None))
    = [inv] /\
    PrimaryBuilderInvocation.Inputs inv = ["Android.bp"] /\
    PrimaryBuilderInvocation.Outputs inv = ["$buildDir/build.ninja"].
Proof.
  intros given. split.
  - exact (proj1 (invocation_list sampleEnv
             (sampleArgs "" "out/module_paths" "" false false false
                (Some given))) given eq_refl).
  - exact (proj2 (invocation_list sampleEnv
             (sampleArgs "" "out/module_paths" "" false false false None))
             eq_refl).
Defined.

(** C10.  An allocated but empty invocation list counts as supplied: the run
    configuration then carries no descriptor at all, whereas a nil list makes
    it carry the single synthesized one. *)
Theorem empty_list_is_supplied env args :
  PrimaryBuilderInvocations args = Some [] ->
  primaryBuilderInvocations (bootstrapConfig env args) = [] /\
  forall args0,
    PrimaryBuilderInvocations args0 = None ->
    length (primaryBuilderInvocations (bootstrapConfig env args0)) = 1%nat.
Proof.
  intros H. split.
  - simpl. unfold invocations. rewrite H. reflexivity.
  - intros args0 H0. simpl. unfold invocations. rewrite H0. reflexivity.
Qed.

Lemma empty_list_is_supplied_witness :
  primaryBuilderInvocations
    (bootstrapConfig sampleEnv
       (sampleArgs "" "out/module_paths" "" false false false (Some [])))
  = [] /\
  length
    (primaryBuilderInvocations
       (bootstrapConfig sampleEnv
          (sampleArgs "" "out/module_paths" "" false false false None)))
  = 1%nat.
Proof.
  destruct (empty_list_is_supplied sampleEnv
              (sampleArgs "" "out/module_paths" "" false false false
                 (Some [])) eq_refl) as [Hempty Hnil].
  split; [exact Hempty|]. apply Hnil. reflexivity.
Defined.

(** ** The fatal reporters *)

Arguments fatalf : simpl never.
Arguments fatalErrors : simpl never.
Arguments Sprintf : simpl never.

Lemma log_log es1 es2 w : log es2 (log es1 w) = log (es1 ++ es2) w.
Proof. unfold log. simpl. rewrite app_assoc. reflexivity. Qed.

Lemma log_nil w : log [] w = w.
Proof. destruct w. unfold log. simpl. rewrite app_nil_r. reflexivity. Qed.

Lemma fatalf_eq {A : Type} format a w :
  @fatalf A format a w = Exit 1 (log (fatalLog (Sprintf format a)) w).
Proof.
  unfold fatalf, fmt_Printf, fmt_Print, osExit, call, bind, fatalLog.
  rewrite !log_log. reflexivity.
Qed.

(** What one round of the loop of [fatalErrors] prints is the line of the
    spec. *)
Lemma report_round err :
  match err with
  | BlueprintError _ | ModuleError _ | PropertyError _ =>
      Sprintf ("%serror:%s %s" +:+ nl) [red; unred; Error err]
  | OtherError _ =>
      Sprintf ("%sinternal error:%s %s" +:+ nl) [red; unred; Error err]
  end = reportLine err.
Proof.
  unfold reportLine. destruct err as [t|t|t|t]; reflexivity.
Qed.

Lemma fatalErrors_eq {A : Type} errs w :
  @fatalErrors A errs w
  = Exit 1 (log (map (fun e => EvPrint (reportLine e)) errs ++ [EvExit 1]) w).
Proof.
  unfold fatalErrors.
  assert (Hloop : forall w0,
    forRange errs (fun err =>
      match err with
      | BlueprintError _ | ModuleError _ | PropertyError _ =>
          fmt_Printf ("%serror:%s %s" +:+ nl) [red; unred; Error err]
      | OtherError _ =>
          fmt_Printf ("%sinternal error:%s %s" +:+ nl) [red; unred; Error err]
      end) w0
    = Ok tt (log (map (fun e => EvPrint (reportLine e)) errs) w0)).
  { induction errs as [|err errs IH]; intros w0; simpl.
    - rewrite log_nil. reflexivity.
    - unfold bind at 1.
      assert (Hone :
        match err with
        | BlueprintError _ | ModuleError _ | PropertyError _ =>
            fmt_Printf ("%serror:%s %s" +:+ nl) [red; unred; Error err]
        | OtherError _ =>
            fmt_Printf ("%sinternal error:%s %s" +:+ nl) [red; unred; Error err]
        end w0 = Ok tt (log [EvPrint (reportLine err)] w0)).
      { rewrite <- report_round. destruct err; reflexivity. }
      rewrite Hone, IH, log_log. reflexivity. }
  unfold bind. rewrite Hloop. unfold osExit. rewrite log_log. reflexivity.
Qed.

Lemma Forall_deferredCall (P : Event -> Prop) ds :
  (forall d, P (deferredCall d)) -> Forall P (map deferredCall ds).
Proof.
  intros H. induction ds as [|d ds IH]; simpl; constructor; auto.
Qed.

Lemma RunBlueprint_outcomes env args config fs :
  match fst (RunBlueprint env args config fs) with
  | Returned _ =>
      Forall (fun e => isExit e = false)
        (events (snd (RunBlueprint env args config fs)))
  | Exited code =>
      code = 1 /\
      exists es,
        events (snd (RunBlueprint env args config fs)) = es ++ [EvExit 1] /\
        Forall (fun e => isExit e = false) es
  | Panicked => asBootstrapConfig config = None
  end.
Proof.
  unfold RunBlueprint.
  pose proof (body_obeys env args config (start fs)) as H.
  assert (Hcls : forall es,
            Forall (fun e => inBody e = true) es ->
            Forall (fun e => isExit e = false) es).
  { intros es F. eapply Forall_impl; [exact F|].
    intros [] He; try reflexivity. discriminate He. }
  destruct (body env args config (start fs)) as [deps w|c w|w]; simpl.
  - destruct H as [(es & E & F) (ds & D)]. simpl in E, D.
    rewrite E. rewrite app_nil_r in D. rewrite D. apply Forall_app. split.
    + apply Hcls, F.
    + apply Forall_deferredCall. intros []; reflexivity.
  - destruct H as (-> & w'' & [(es & E & F) _] & ->). split; [reflexivity|].
    exists es. simpl in E. simpl. rewrite E. split; [reflexivity|].
    apply Hcls, F.
  - apply H.
Qed.

(** C7.  The fatal reporter prints, for each error of a batch and in the
    order of the batch, one line with the prefix "error:" when the error is
    of an expected category (malformed build description, module or
    property) and "internal error:" otherwise; only then does it exit, with
    status 1, the status of [fatalf] too.  A run of the driver either returns
    without any exit having been called, or exits with status 1 whatever the
    kind of error (the exit being the last thing logged); it panics only when
    the caller's configuration lacks the [BootstrapConfig] interface. *)
Theorem fatal_reporter :
  (forall errs w,
     @fatalErrors unit errs w
     = Exit 1
         (log (map (fun e => EvPrint (reportLine e)) errs ++ [EvExit 1]) w)) /\
  (forall format a w,
     @fatalf unit format a w
     = Exit 1 (log [EvPrint (Sprintf format a); EvPrint nl; EvExit 1] w)) /\
  (forall env args config fs,
     match fst (RunBlueprint env args config fs) with
     | Returned _ =>
         Forall (fun e => isExit e = false)
           (events (snd (RunBlueprint env args config fs)))
     | Exited code =>
         code = 1 /\
         exists es,
           events (snd (RunBlueprint env args config fs)) = es ++ [EvExit 1] /\
           Forall (fun e => isExit e = false) es
     | Panicked => asBootstrapConfig config = None
     end).
Proof.
  split; [|split].
  - intros errs w. apply fatalErrors_eq.
  - intros format a w. apply fatalf_eq.
  - apply RunBlueprint_outcomes.
Qed.

(** ** The output emitter *)

Lemma append_empty_r s : s +:+ "" = s.
Proof.
  induction s as [|a s IH]; [reflexivity|].
  change (String a (s +:+ "") = String a s). rewrite IH. reflexivity.
Qed.

(** The text of a message whose format ends in its only verb. *)
Ltac sprintf_text :=
  intros; cbv [Sprintf Ascii.eqb Bool.eqb andb orb];
  rewrite ?append_empty_r; reflexivity.

Lemma Sprintf_open e :
  Sprintf "error opening Ninja file: %s" [e]
  = "error opening Ninja file: " +:+ e.
Proof. sprintf_text. Qed.

Lemma Sprintf_write e :
  Sprintf "error writing Ninja file contents: %s" [e]
  = "error writing Ninja file contents: " +:+ e.
Proof. sprintf_text. Qed.

Lemma Sprintf_flush e :
  Sprintf "error flushing Ninja file contents: %s" [e]
  = "error flushing Ninja file contents: " +:+ e.
Proof. sprintf_text. Qed.

Lemma Sprintf_close e :
  Sprintf "error closing Ninja file: %s" [e]
  = "error closing Ninja file: " +:+ e.
Proof. sprintf_text. Qed.

Lemma emission_messages_distinct e1 e2 e3 e4 :
  NoDup ["error opening Ninja file: " +:+ e1;
         "error writing Ninja file contents: " +:+ e2;
         "error flushing Ninja file contents: " +:+ e3;
         "error closing Ninja file: " +:+ e4].
Proof.
  repeat (apply NoDup_cons; split); try apply NoDup_nil_2;
    rewrite ?not_elem_of_cons, ?elem_of_nil; repeat split; try tauto;
    cbv [String.append]; discriminate.
Qed.


Lemma fullGeneration_false args st :
  fullGeneration args st = false <->
  st = StageMain /\ EmptyNinjaFile args = true.
Proof.
  unfold fullGeneration. destruct st, (EmptyNinjaFile args); simpl;
    split; try discriminate; try tauto; intros [? ?]; discriminate.
Qed.

(** Unfold the emitter down to the transformations of the world. *)
Ltac run_emitter :=
  unfold emitOutput, ioutilWriteFile, osOpenFile, bufFlush, fileClose,
    ctxWriteBuildFile, callWriteBuildGlobsNinjaFile, ifErr,
    modifyFiles, call, bind, ret; simpl.

Section FullGeneration.
Context (env : Env) (args : Args) (st : Stage) (w : World).
Hypothesis Hplaceholder :
  EmptyNinjaFile args = true -> ioutil_WriteFile env (outPath env args) = None.
Hypothesis Hfull : fullGeneration args st = true.

Ltac emission_cases :=
  unfold writtenLog, openedLog, outSink, placeholderLog, globLog in *;
  unfold outPath in *; run_emitter;
  unfold fullGeneration in Hfull; rewrite Hfull;
  destruct (EmptyNinjaFile args);
    [rewrite Hplaceholder by reflexivity|];
  destruct (nonEmpty (GlobFile args)); simpl.

Ltac emission_done :=
  eexists; split; [reflexivity|]; simpl; rewrite <- ?app_assoc;
  rewrite ?Sprintf_open, ?Sprintf_write, ?Sprintf_flush, ?Sprintf_close;
  reflexivity.

Lemma emitOutput_open_fails e :
  os_OpenFile env (outPath env args) = Some e ->
  exists w', emitOutput env args st w = Exit 1 w' /\
    events w' = events w ++ openedLog env args ++
                fatalLog ("error opening Ninja file: " +:+ e).
Proof. intros HO. emission_cases; rewrite HO; simpl; emission_done. Qed.

Lemma emitOutput_write_fails e :
  os_OpenFile env (outPath env args) = None ->
  snd (WriteBuildFile env (outSink env args)) = Some e ->
  exists w', emitOutput env args st w = Exit 1 w' /\
    events w' = events w ++ writtenLog env args ++
                fatalLog ("error writing Ninja file contents: " +:+ e).
Proof.
  intros HO HW.
  emission_cases; rewrite HO; simpl; rewrite HW; simpl; emission_done.
Qed.

Lemma emitOutput_flush_fails e :
  os_OpenFile env (outPath env args) = None ->
  snd (WriteBuildFile env (outSink env args)) = None ->
  bufio_Flush env (outPath env args) = Some e ->
  exists w', emitOutput env args st w = Exit 1 w' /\
    events w' = events w ++ writtenLog env args ++
                [EvFlush (outPath env args)] ++
                fatalLog ("error flushing Ninja file contents: " +:+ e).
Proof.
  intros HO HW HF.
  emission_cases; rewrite HO; simpl; rewrite HW; simpl; rewrite HF; simpl;
    emission_done.
Qed.

Lemma emitOutput_close_fails e :
  os_OpenFile env (outPath env args) = None ->
  snd (WriteBuildFile env (outSink env args)) = None ->
  bufio_Flush env (outPath env args) = None ->
  os_Close env (outPath env args) = Some e ->
  exists w', emitOutput env args st w = Exit 1 w' /\
    events w' = events w ++ writtenLog env args ++
                [EvFlush (outPath env args); EvClose (outPath env args)] ++
                fatalLog ("error closing Ninja file: " +:+ e).
Proof.
  intros HO HW HF HC.
  emission_cases; rewrite HO; simpl; rewrite HW; simpl; rewrite HF; simpl;
    rewrite HC; simpl; emission_done.
Qed.

Lemma emitOutput_succeeds :
  os_OpenFile env (outPath env args) = None ->
  snd (WriteBuildFile env (outSink env args)) = None ->
  bufio_Flush env (outPath env args) = None ->
  os_Close env (outPath env args) = None ->
  exists w', emitOutput env args st w = Ok tt w' /\
    events w' = events w ++ writtenLog env args ++
                [EvFlush (outPath env args); EvClose (outPath env args)].
Proof.
  intros HO HW HF HC.
  emission_cases; rewrite HO; simpl; rewrite HW; simpl; rewrite HF; simpl;
    rewrite HC; simpl; emission_done.
Qed.
End FullGeneration.

(** What a skipped generation adds to the log; its last part is the fatal
    report, if the engine returns an error even to the no-op sink. *)
Lemma emitOutput_skipped env args st w :
  (EmptyNinjaFile args = true ->
   ioutil_WriteFile env (outPath env args) = None) ->
  fullGeneration args st = false ->
  events (final (emitOutput env args st w))
  = events w ++ placeholderLog env args ++ globLog args ++
    EvWriteBuildFile SinkDiscard ::
    match snd (WriteBuildFile env SinkDiscard) with
    | Some e => fatalLog ("error writing Ninja file contents: " +:+ e)
    | None => []
    end.
Proof.
  intros Hplaceholder Hskip.
  pose proof Hskip as [-> Hempty]%fullGeneration_false.
  specialize (Hplaceholder Hempty).
  unfold placeholderLog, globLog, outPath in *. run_emitter.
  rewrite Hempty, Hplaceholder. simpl.
  destruct (nonEmpty (GlobFile args)); simpl;
    destruct (snd (WriteBuildFile env SinkDiscard)); simpl;
    rewrite <- ?app_assoc, ?Sprintf_write; reflexivity.
Qed.

(** C8.  When full generation proceeds the emitter opens the output path
    with create-or-truncate, wraps it in a buffer of 16 MiB, hands the buffer
    to the build-graph writer, flushes the buffer and closes the file, in this
    order; the first of open, write, flush and close to fail ends the run by
    a fatal report whose text names that step, the four texts being pairwise
    different whatever the errors.  When full generation is skipped the
    build-graph writer is still called, on the no-op sink, and the emitter
    neither opens, wraps, flushes nor closes anything. *)
Theorem output_emission env args st w :
  (EmptyNinjaFile args = true ->
   ioutil_WriteFile env (outPath env args) = None) ->
  let out := outPath env args in
  (fullGeneration args st = true ->
   (forall e,
      os_OpenFile env out = Some e ->
      exists w', emitOutput env args st w = Exit 1 w' /\
        events w' = events w ++ openedLog env args ++
                    fatalLog ("error opening Ninja file: " +:+ e)) /\
   (forall e,
      os_OpenFile env out = None ->
      snd (WriteBuildFile env (outSink env args)) = Some e ->
      exists w', emitOutput env args st w = Exit 1 w' /\
        events w' = events w ++ writtenLog env args ++
                    fatalLog ("error writing Ninja file contents: " +:+ e)) /\
   (forall e,
      os_OpenFile env out = None ->
      snd (WriteBuildFile env (outSink env args)) = None ->
      bufio_Flush env out = Some e ->
      exists w', emitOutput env args st w = Exit 1 w' /\
        events w' = events w ++ writtenLog env args ++ [EvFlush out] ++
                    fatalLog ("error flushing Ninja file contents: " +:+ e)) /\
   (forall e,
      os_OpenFile env out = None ->
      snd (WriteBuildFile env (outSink env args)) = None ->
      bufio_Flush env out = None ->
      os_Close env out = Some e ->
      exists w', emitOutput env args st w = Exit 1 w' /\
        events w' = events w ++ writtenLog env args ++
                    [EvFlush out; EvClose out] ++
                    fatalLog ("error closing Ninja file: " +:+ e)) /\
   (os_OpenFile env out = None ->
    snd (WriteBuildFile env (outSink env args)) = None ->
    bufio_Flush env out = None ->
    os_Close env out = None ->
    exists w', emitOutput env args st w = Ok tt w' /\
      events w' = events w ++ placeholderLog env args ++
        [EvOpenFile out [O_WRONLY; O_CREATE; O_TRUNC] outFilePermissions;
         EvNewWriterSize out 16777216] ++
        globLog args ++
        [EvWriteBuildFile (SinkBuffer out 16777216);
         EvFlush out; EvClose out])) /\
  (fullGeneration args st = false ->
   exists added,
     events (final (emitOutput env args st w)) = events w ++ added /\
     EvWriteBuildFile SinkDiscard ∈ added /\
     forall e, e ∈ added ->
       match e with
       | EvOpenFile _ _ _ | EvNewWriterSize _ _ | EvFlush _ | EvClose _
       | EvWriteBuildFile (SinkBuffer _ _) => False
       | _ => True
       end) /\
  (forall e1 e2 e3 e4,
     NoDup ["error opening Ninja file: " +:+ e1;
            "error writing Ninja file contents: " +:+ e2;
            "error flushing Ninja file contents: " +:+ e3;
            "error closing Ninja file: " +:+ e4]).
Proof.
  intros Hplaceholder out. split; [|split].
  - intros Hfull. repeat split.
    + intros e. apply emitOutput_open_fails; assumption.
    + intros e. apply emitOutput_write_fails; assumption.
    + intros e. apply emitOutput_flush_fails; assumption.
    + intros e. apply emitOutput_close_fails; assumption.
    + intros HO HW HF HC.
      destruct (emitOutput_succeeds env args st w Hplaceholder Hfull
                  HO HW HF HC) as (w' & Hrun & Hlog).
      exists w'. split; [exact Hrun|]. rewrite Hlog.
      unfold writtenLog, openedLog, outSink. fold out.
      rewrite <- !app_assoc. reflexivity.
  - intros Hskip. eexists. split; [|split].
    + apply emitOutput_skipped; assumption.
    + rewrite !elem_of_app. right. right. apply elem_of_cons. left.
      reflexivity.
    + intros e He. unfold placeholderLog, globLog, fatalLog in He.
      destruct (EmptyNinjaFile args), (nonEmpty (GlobFile args)),
        (snd (WriteBuildFile env SinkDiscard));
        repeat (rewrite ?elem_of_app, ?elem_of_cons, ?elem_of_nil in He;
                simpl in He);
        intuition (subst; exact I).
  - apply emission_messages_distinct.
Qed.

Lemma output_emission_witness :
  (exists w',
     emitOutput sampleEnv
       (sampleArgs "" "out/module_paths" "" false true true None)
       StagePrimary (start ∅) = Ok tt w' /\
     events w'
     = [EvWriteFile "/src/build.ninja" "" 438;
        EvOpenFile "/src/build.ninja" [O_WRONLY; O_CREATE; O_TRUNC] 438;
        EvNewWriterSize "/src/build.ninja" 16777216;
        EvWriteBuildFile (SinkBuffer "/src/build.ninja" 16777216);
        EvFlush "/src/build.ninja"; EvClose "/src/build.ninja"]) /\
  (exists w',
     emitOutput (sampleEnvWith None (Some "no space left on device"))
       (sampleArgs "" "out/module_paths" "" false false false None)
       StageMain (start ∅) = Exit 1 w' /\
     events w'
     = [EvOpenFile "/src/build.ninja" [O_WRONLY; O_CREATE; O_TRUNC] 438;
        EvNewWriterSize "/src/build.ninja" 16777216;
        EvWriteBuildFile (SinkBuffer "/src/build.ninja" 16777216);
        EvFlush "/src/build.ninja";
        EvPrint "error flushing Ninja file contents: no space left on device";
        EvPrint nl; EvExit 1]).
Proof.
  split.
  - destruct (output_emission sampleEnv
                (sampleArgs "" "out/module_paths" "" false true true None)
                StagePrimary (start ∅) (fun _ => eq_refl))
      as (Hfull & _ & _).
    destruct (Hfull eq_refl) as (_ & _ & _ & _ & Hok).
    exact (Hok eq_refl eq_refl eq_refl eq_refl).
  - destruct (output_emission
                (sampleEnvWith None (Some "no space left on device"))
                (sampleArgs "" "out/module_paths" "" false false false None)
                StageMain (start ∅) (fun _ => eq_refl))
      as (Hfull & _ & _).
    destruct (Hfull eq_refl) as (_ & _ & Hflush & _ & _).
    exact (Hflush "no space left on device" eq_refl eq_refl eq_refl).
Defined.

(** ** The phases of a run that completes *)

Lemma body_Ok env args config w deps w' :
  body env args config w = Ok deps w' ->
  exists w1 r w2,
    setup env args w = Ok tt w1 /\
    resolve env args config w1 = Ok r w2 /\
    ((stopsBefore config StopBeforePrepareBuildActions = true /\
      deps = fst r /\ w' = w2) \/
     (stopsBefore config StopBeforePrepareBuildActions = false /\
      exists w3,
        prepare env (fst r) w2 = Ok deps w3 /\
        ((stopsBefore config StopBeforeWriteNinja = true /\ w' = w3) \/
         (stopsBefore config StopBeforeWriteNinja = false /\
          exists w4 w5,
            emitOutput env args (selectStage args) w3 = Ok tt w4 /\
            reap env args config (snd r) w4 = Ok tt w5 /\
            writeMemprofile env args w5 = Ok tt w')))).
Proof.
  unfold body. intros H.
  apply bind_Ok in H as ([] & w1 & Hsetup & H).
  unfold afterSetup in H. apply bind_Ok in H as (r & w2 & Hresolve & H).
  cbv zeta in H. exists w1, r, w2. split; [exact Hsetup|].
  split; [exact Hresolve|].
  destruct (stopsBefore config StopBeforePrepareBuildActions).
  - left. injection H as <- <-. auto.
  - right. split; [reflexivity|]. unfold afterCheckpointA in H.
    apply bind_Ok in H as (deps' & w3 & Hprepare & H).
    destruct (stopsBefore config StopBeforeWriteNinja).
    + injection H as <- <-. exists w3. split; [exact Hprepare|]. left. auto.
    + unfold afterCheckpointB in H.
      apply bind_Ok in H as ([] & w4 & Hemit & H).
      apply bind_Ok in H as ([] & w5 & Hreap & H).
      apply bind_Ok in H as ([] & w6 & Hmem & H).
      injection H as <- <-. exists w3. split; [exact Hprepare|]. right.
      split; [reflexivity|]. exists w4, w5. auto.
Qed.

Ltac run_setup :=
  unfold setup, startCPUProfile, startTrace, osCreate, ifErr, modifyFiles,
    defer, call, bind, ret; simpl.

Lemma setup_Ok env args w w1 :
  setup env args w = Ok tt w1 ->
  setupSucceeds env args /\
  events w1 = events w ++ setupLog env args /\
  deferred w1 = setupDeferred env args ++ deferred w.
Proof.
  unfold setupSucceeds, setupLog, setupDeferred. run_setup.
  destruct (NoGC args); simpl;
    (destruct (nonEmpty (Cpuprofile args)) eqn:Hc; simpl;
     [destruct (os_Create env (joinPath env (SrcDir env) (Cpuprofile args)))
        eqn:Hcc; simpl; [discriminate|] |]);
    (destruct (nonEmpty (TraceFile args)) eqn:Ht; simpl;
     [destruct (os_Create env (joinPath env (SrcDir env) (TraceFile args)))
        eqn:Htc; simpl; [discriminate|] |]);
    intros [= <-]; simpl; rewrite <- ?app_assoc; simpl;
    (split; [split; intros Hne; try assumption;
             apply nonEmpty_true in Hne; congruence
            | split; reflexivity]).
Qed.

Lemma setup_succeeds env args w :
  setupSucceeds env args -> exists w1, setup env args w = Ok tt w1.
Proof.
  intros [Hcpu Htrace]. run_setup.
  destruct (NoGC args); simpl;
    (destruct (nonEmpty (Cpuprofile args)) eqn:Hc; simpl;
     [rewrite Hcpu by (apply nonEmpty_true; exact Hc); simpl |]);
    (destruct (nonEmpty (TraceFile args)) eqn:Ht; simpl;
     [rewrite Htrace by (apply nonEmpty_true; exact Ht); simpl |]);
    eexists; reflexivity.
Qed.

Ltac run_resolve :=
  unfold resolve, register, ctxListModulePaths, ctxParseFileList,
    ctxResolveDependencies, ifErrs, ifErr, panic, call, bind, ret; simpl.

Lemma resolve_Ok env args config w r w' :
  resolve env args config w = Ok r w' ->
  resolveSucceeds env args config /\
  asBootstrapConfig config = Some (snd r) /\
  fst r = resolvedDeps env args /\
  w' = log (resolveLog env args) w.
Proof.
  unfold resolveSucceeds, resolvedDeps, parsedFiles, resolveLog, registerLog.
  run_resolve.
  destruct (nonEmpty (ModuleListFile args)) eqn:Hm; [|discriminate].
  simpl.
  destruct (snd (ListModulePaths env (filepath_Dir env (TopFile args))))
    eqn:Hl; simpl; [discriminate|].
  destruct (asBootstrapConfig config) eqn:Hb; simpl; [|discriminate].
  destruct (snd (ParseFileList env (filepath_Dir env (TopFile args))
                   (fst (ListModulePaths env
                           (filepath_Dir env (TopFile args))))))
    eqn:Hp; simpl; [|rewrite fatalErrors_eq; discriminate].
  destruct (snd (ResolveDependencies env)) eqn:Hr; simpl;
    [|rewrite fatalErrors_eq; discriminate].
  intros [= <- <-]. simpl. apply nonEmpty_true in Hm.
  repeat split; eauto. rewrite !log_log. reflexivity.
Qed.

Lemma resolve_succeeds env args config w :
  resolveSucceeds env args config ->
  exists buildDir,
    resolve env args config w
    = Ok (resolvedDeps env args, buildDir) (log (resolveLog env args) w).
Proof.
  intros (Hm & Hl & [d Hb] & Hp & Hr). exists d.
  unfold resolvedDeps, parsedFiles, resolveLog, registerLog. run_resolve.
  apply nonEmpty_true in Hm. rewrite Hm. simpl. rewrite Hl. simpl.
  rewrite Hb. simpl. rewrite Hp. simpl. rewrite Hr. simpl.
  rewrite !log_log. reflexivity.
Qed.

Ltac run_prepare :=
  unfold prepare, ctxPrepareBuildActions, ifErrs, call, bind, ret; simpl.

Lemma prepare_Ok env deps w deps' w' :
  prepare env deps w = Ok deps' w' ->
  prepareSucceeds env /\
  deps' = deps ++ fst (PrepareBuildActions env) /\
  w' = log [EvPrepareBuildActions] w.
Proof.
  unfold prepareSucceeds. run_prepare.
  destruct (snd (PrepareBuildActions env)) eqn:Hp; simpl;
    [|rewrite fatalErrors_eq; discriminate].
  intros [= <- <-]. auto.
Qed.

Lemma prepare_succeeds env deps w :
  prepareSucceeds env ->
  prepare env deps w
  = Ok (deps ++ fst (PrepareBuildActions env)) (log [EvPrepareBuildActions] w).
Proof.
  unfold prepareSucceeds. intros Hp. run_prepare. rewrite Hp. reflexivity.
Qed.

(** ** The dependency set *)

Lemma RunBlueprint_Returned env args config fs deps :
  fst (RunBlueprint env args config fs) = Returned deps ->
  exists w,
    body env args config (start fs) = Ok deps w /\
    snd (RunBlueprint env args config fs) = runDeferred env w.
Proof.
  unfold RunBlueprint.
  destruct (body env args config (start fs)) as [d w|c w|w]; simpl;
    intros H; try discriminate.
  injection H as ->. eauto.
Qed.

Lemma body_Ok_deps env args config w deps w' :
  body env args config w = Ok deps w' ->
  deps = resolvedDeps env args ++
         (if stopsBefore config StopBeforePrepareBuildActions then []
          else fst (PrepareBuildActions env)).
Proof.
  intros H. apply body_Ok in H as (w1 & r & w2 & _ & Hresolve & H).
  apply resolve_Ok in Hresolve as (_ & _ & Hdeps & _).
  destruct H as [(-> & -> & _) | (-> & w3 & Hprepare & _)].
  - rewrite app_nil_r. exact Hdeps.
  - apply prepare_Ok in Hprepare as (_ & -> & _). rewrite Hdeps. reflexivity.
Qed.

(** C4.  The set a run returns is the module list file, then the parsed
    description files in the order the engine lists them, then the extra
    paths of dependency resolution, then those of build-action preparation
    (none when the run returns at the checkpoint before that phase).  Each
    append keeps what the set held as a prefix, and every path occurs in the
    set as often as in the four parts together: nothing is dropped, moved or
    de-duplicated. *)
Theorem dependency_set env args config fs deps :
  fst (RunBlueprint env args config fs) = Returned deps ->
  let parsed := parsedFiles env args in
  let resolved := fst (ResolveDependencies env) in
  let prepared :=
    if stopsBefore config StopBeforePrepareBuildActions then []
    else fst (PrepareBuildActions env) in
  deps = [ModuleListFile args] ++ parsed ++ resolved ++ prepared /\
  [ModuleListFile args] `prefix_of` deps /\
  ([ModuleListFile args] ++ parsed) `prefix_of` deps /\
  ([ModuleListFile args] ++ parsed ++ resolved) `prefix_of` deps /\
  forall p,
    count_occ String.string_dec deps p
    = (count_occ String.string_dec [ModuleListFile args] p +
       count_occ String.string_dec parsed p +
       count_occ String.string_dec resolved p +
       count_occ String.string_dec prepared p)%nat.
Proof.
  intros H parsed resolved prepared.
  apply RunBlueprint_Returned in H as (w & Hbody & _).
  apply body_Ok_deps in Hbody. fold prepared in Hbody.
  unfold resolvedDeps in Hbody. fold parsed resolved in Hbody.
  assert (Hdeps :
    deps = [ModuleListFile args] ++ parsed ++ resolved ++ prepared).
  { rewrite Hbody, <- !app_assoc. reflexivity. }
  split; [exact Hdeps|]. rewrite Hdeps. repeat split.
  - exists (parsed ++ resolved ++ prepared). reflexivity.
  - exists (resolved ++ prepared). rewrite <- !app_assoc. reflexivity.
  - exists prepared. rewrite <- !app_assoc. reflexivity.
  - intros p. rewrite !count_occ_app. lia.
Qed.

Lemma dependency_set_witness :
  let deps :=
    ["out/module_paths"; "Android.bp"; "lib/Android.bp"; "lib/sources.list";
     "lib/Android.bp"; "out/globs"] in
  deps = ["out/module_paths"] ++ ["Android.bp"; "lib/Android.bp"] ++
         ["lib/sources.list"] ++ ["lib/Android.bp"; "out/globs"] /\
  count_occ String.string_dec deps "lib/Android.bp" = 2%nat.
Proof.
  intros deps.
  destruct (dependency_set sampleEnv
              (sampleArgs "" "out/module_paths" "" false false false None)
              (sampleConfig None) ∅ deps eq_refl)
    as (Hdeps & _ & _ & _ & Hcount).
  split; [exact Hdeps|]. rewrite (Hcount "lib/Android.bp"). reflexivity.
Defined.

(** ** The checkpoints *)

Lemma stopsBefore_Some config b :
  asConfigStopBefore config = Some b -> stopsBefore config b = true.
Proof.
  intros H. unfold stopsBefore. rewrite H. apply bool_decide_eq_true_2.
  reflexivity.
Qed.

Lemma stopsBefore_other config b b' :
  asConfigStopBefore config = Some b -> b <> b' ->
  stopsBefore config b' = false.
Proof.
  intros H Hne. unfold stopsBefore. rewrite H. apply bool_decide_eq_false_2.
  exact Hne.
Qed.

Lemma body_stopA_obeys env args config :
  stopsBefore config StopBeforePrepareBuildActions = true ->
  obeys (fun e => inSetup e || inResolve e = true)
    (asBootstrapConfig config = None) (body env args config).
Proof.
  intros Hstop. unfold body, afterSetup.
  apply obeys_bind;
    [eapply obeys_weaken; [| |apply setup_obeys]; [|tauto] | intros _].
  { intros e He. rewrite He. reflexivity. }
  apply obeys_bind;
    [eapply obeys_weaken; [| |apply resolve_obeys]; [|tauto] | intros r].
  { intros e He. rewrite He, orb_true_r. reflexivity. }
  cbv zeta. rewrite Hstop. apply obeys_ret.
Qed.

Lemma body_stopB_obeys env args config :
  stopsBefore config StopBeforeWriteNinja = true ->
  obeys (fun e => inSetup e || inResolve e || inPrepare e = true)
    (asBootstrapConfig config = None) (body env args config).
Proof.
  intros Hstop. unfold body, afterSetup.
  apply obeys_bind;
    [eapply obeys_weaken; [| |apply setup_obeys]; [|tauto] | intros _].
  { intros e He. rewrite He. reflexivity. }
  apply obeys_bind;
    [eapply obeys_weaken; [| |apply resolve_obeys]; [|tauto] | intros r].
  { intros e He. rewrite He, orb_true_r. reflexivity. }
  cbv zeta.
  destruct (stopsBefore config StopBeforePrepareBuildActions);
    [apply obeys_ret|].
  unfold afterCheckpointA.
  apply obeys_bind;
    [eapply obeys_weaken; [| |apply prepare_obeys]; [|tauto] | intros deps].
  { intros e He. rewrite He, orb_true_r. reflexivity. }
  rewrite Hstop. apply obeys_ret.
Qed.

(** From the events of the body to those of the whole call. *)
Lemma RunBlueprint_Forall (P Q : Event -> Prop) (mayPanic : Prop)
  env args config fs :
  obeys P mayPanic (body env args config) ->
  (forall e, P e -> Q e) -> Q (EvExit 1) -> (forall d, Q (deferredCall d)) ->
  Forall Q (events (snd (RunBlueprint env args config fs))).
Proof.
  intros Hobeys HPQ Hexit Hdefer. unfold RunBlueprint.
  specialize (Hobeys (start fs)).
  destruct (body env args config (start fs)) as [deps w|c w|w]; simpl.
  - destruct Hobeys as [(es & -> & F) _]. simpl. apply Forall_app. split.
    + eapply Forall_impl; eauto.
    + apply Forall_deferredCall, Hdefer.
  - destruct Hobeys as (_ & w'' & [(es & E & F) _] & ->). simpl.
    rewrite E. simpl. apply Forall_app. split.
    + eapply Forall_impl; eauto.
    + repeat constructor. exact Hexit.
  - destruct Hobeys as [[(es & -> & F) _] _]. simpl. apply Forall_app. split.
    + eapply Forall_impl; eauto.
    + apply Forall_deferredCall, Hdefer.
Qed.

Lemma resolveLog_last env args :
  exists calls, resolveLog env args = calls ++ [EvResolveDependencies].
Proof.
  unfold resolveLog, registerLog.
  eexists (_ :: _ :: _ :: _ :: _ :: _ :: _ :: _ :: _ :: []).
  reflexivity.
Qed.

Lemma checkpointA_returns env args config fs :
  stopsBefore config StopBeforePrepareBuildActions = true ->
  setupSucceeds env args -> resolveSucceeds env args config ->
  fst (RunBlueprint env args config fs) = Returned (resolvedDeps env args) /\
  exists before closing,
    events (snd (RunBlueprint env args config fs))
    = before ++ EvResolveDependencies :: closing /\
    Forall (fun e => unwinding e = true) closing.
Proof.
  intros Hstop Hsetup Hresolve.
  destruct (setup_succeeds env args (start fs) Hsetup) as (w1 & Hs).
  destruct (resolve_succeeds env args config w1 Hresolve) as (d & Hr).
  unfold RunBlueprint, body. rewrite (bind_eq_Ok _ _ _ _ _ Hs).
  unfold afterSetup. rewrite (bind_eq_Ok _ _ _ _ _ Hr). cbv zeta.
  rewrite Hstop. simpl. split; [reflexivity|].
  destruct (resolveLog_last env args) as (calls & ->).
  exists (events w1 ++ calls), (map deferredCall (deferred w1)). split.
  - rewrite <- !app_assoc. reflexivity.
  - apply Forall_deferredCall. intros []; reflexivity.
Qed.

Lemma checkpointB_returns env args config fs :
  stopsBefore config StopBeforePrepareBuildActions = false ->
  stopsBefore config StopBeforeWriteNinja = true ->
  setupSucceeds env args -> resolveSucceeds env args config ->
  prepareSucceeds env ->
  fst (RunBlueprint env args config fs) = Returned (preparedDeps env args) /\
  exists before closing,
    events (snd (RunBlueprint env args config fs))
    = before ++ EvPrepareBuildActions :: closing /\
    Forall (fun e => unwinding e = true) closing.
Proof.
  intros HstopA HstopB Hsetup Hresolve Hprepare.
  destruct (setup_succeeds env args (start fs) Hsetup) as (w1 & Hs).
  destruct (resolve_succeeds env args config w1 Hresolve) as (d & Hr).
  unfold RunBlueprint, body. rewrite (bind_eq_Ok _ _ _ _ _ Hs).
  unfold afterSetup. rewrite (bind_eq_Ok _ _ _ _ _ Hr). cbv zeta.
  rewrite HstopA. unfold afterCheckpointA.
  rewrite (bind_eq_Ok _ _ _ _ _ (prepare_succeeds env _ _ Hprepare)).
  rewrite HstopB. simpl. split; [reflexivity|].
  exists (events w1 ++ resolveLog env args),
    (map deferredCall (deferred w1)). split.
  - rewrite <- !app_assoc. reflexivity.
  - apply Forall_deferredCall. intros []; reflexivity.
Qed.

(** C3.  With the selector "before preparing build actions" no run makes a
    call of build-action preparation, of the output emitter, of the reaper or
    of the heap profile; whatever it returns is the module list file, the
    parsed files and the extra paths of dependency resolution, in this order;
    and when the phases up to dependency resolution complete, it does return
    that set, dependency resolution being the last call before the deferred
    ones.  With the selector "before writing the build file" the same holds
    one phase later: no call of the emitter, the reaper or the heap profile,
    the returned set also ends with the extra paths of build-action
    preparation, and that phase is the last call before the deferred ones. *)
Theorem checkpoints env args config fs :
  (asConfigStopBefore config = Some StopBeforePrepareBuildActions ->
   Forall (fun e => pastCheckpointA e = false)
     (events (snd (RunBlueprint env args config fs))) /\
   (forall deps,
      fst (RunBlueprint env args config fs) = Returned deps ->
      deps = [ModuleListFile args] ++ parsedFiles env args ++
             fst (ResolveDependencies env)) /\
   (setupSucceeds env args -> resolveSucceeds env args config ->
    fst (RunBlueprint env args config fs) = Returned (resolvedDeps env args) /\
    exists before closing,
      events (snd (RunBlueprint env args config fs))
      = before ++ EvResolveDependencies :: closing /\
      Forall (fun e => unwinding e = true) closing)) /\
  (asConfigStopBefore config = Some StopBeforeWriteNinja ->
   Forall (fun e => pastCheckpointB e = false)
     (events (snd (RunBlueprint env args config fs))) /\
   (forall deps,
      fst (RunBlueprint env args config fs) = Returned deps ->
      deps = [ModuleListFile args] ++ parsedFiles env args ++
             fst (ResolveDependencies env) ++ fst (PrepareBuildActions env)) /\
   (setupSucceeds env args -> resolveSucceeds env args config ->
    prepareSucceeds env ->
    fst (RunBlueprint env args config fs) = Returned (preparedDeps env args) /\
    exists before closing,
      events (snd (RunBlueprint env args config fs))
      = before ++ EvPrepareBuildActions :: closing /\
      Forall (fun e => unwinding e = true) closing)).
Proof.
  split.
  - intros Hsel. pose proof (stopsBefore_Some _ _ Hsel) as Hstop.
    split; [|split].
    + eapply RunBlueprint_Forall; [apply body_stopA_obeys, Hstop | | |].
      * intros [] He; try reflexivity; discriminate He.
      * reflexivity.
      * intros []; reflexivity.
    + intros deps Hret.
      apply RunBlueprint_Returned in Hret as (w & Hbody & _).
      apply body_Ok_deps in Hbody. rewrite Hstop, app_nil_r in Hbody.
      exact Hbody.
    + apply checkpointA_returns, Hstop.
  - intros Hsel. pose proof (stopsBefore_Some _ _ Hsel) as HstopB.
    assert (HstopA : stopsBefore config StopBeforePrepareBuildActions = false).
    { eapply stopsBefore_other; [exact Hsel | discriminate]. }
    split; [|split].
    + eapply RunBlueprint_Forall; [apply body_stopB_obeys, HstopB | | |].
      * intros [] He; try reflexivity; discriminate He.
      * reflexivity.
      * intros []; reflexivity.
    + intros deps Hret.
      apply RunBlueprint_Returned in Hret as (w & Hbody & _).
      apply body_Ok_deps in Hbody. rewrite HstopA in Hbody.
      rewrite Hbody. unfold resolvedDeps. rewrite <- !app_assoc. reflexivity.
    + apply checkpointB_returns; assumption.
Qed.

Lemma checkpoints_witness :
  (fst (RunBlueprint sampleEnv
          (sampleArgs "cpu.prof" "out/module_paths" "" false false false None)
          (sampleConfig (Some StopBeforePrepareBuildActions)) ∅)
   = Returned ["out/module_paths"; "Android.bp"; "lib/Android.bp";
               "lib/sources.list"] /\
   Forall (fun e => pastCheckpointA e = false)
     (events
        (snd (RunBlueprint sampleEnv
                (sampleArgs "cpu.prof" "out/module_paths" "" false false false
                   None)
                (sampleConfig (Some StopBeforePrepareBuildActions)) ∅)))) /\
  (fst (RunBlueprint sampleEnv
          (sampleArgs "cpu.prof" "out/module_paths" "" false false false None)
          (sampleConfig (Some StopBeforeWriteNinja)) ∅)
   = Returned ["out/module_paths"; "Android.bp"; "lib/Android.bp";
               "lib/sources.list"; "lib/Android.bp"; "out/globs"] /\
   Forall (fun e => pastCheckpointB e = false)
     (events
        (snd (RunBlueprint sampleEnv
                (sampleArgs "cpu.prof" "out/module_paths" "" false false false
                   None)
                (sampleConfig (Some StopBeforeWriteNinja)) ∅)))).
Proof.
  assert (Hsetup : setupSucceeds sampleEnv
            (sampleArgs "cpu.prof" "out/module_paths" "" false false false
               None)).
  { split; intros _; reflexivity. }
  assert (Hresolve : forall stop, resolveSucceeds sampleEnv
            (sampleArgs "cpu.prof" "out/module_paths" "" false false false
               None) (sampleConfig stop)).
  { intros stop. repeat split; try reflexivity;
      [discriminate | eexists; reflexivity]. }
  split.
  - destruct (checkpoints sampleEnv
                (sampleArgs "cpu.prof" "out/module_paths" "" false false false
                   None)
                (sampleConfig (Some StopBeforePrepareBuildActions)) ∅)
      as [HA _].
    destruct (HA eq_refl) as (Hnone & _ & Hret).
    split; [exact (proj1 (Hret Hsetup (Hresolve _))) | exact Hnone].
  - destruct (checkpoints sampleEnv
                (sampleArgs "cpu.prof" "out/module_paths" "" false false false
                   None)
                (sampleConfig (Some StopBeforeWriteNinja)) ∅)
      as [_ HB].
    destruct (HB eq_refl) as (Hnone & _ & Hret).
    split; [exact (proj1 (Hret Hsetup (Hresolve _) eq_refl)) | exact Hnone].
Defined.

(** ** The module list check *)

Lemma afterSetup_no_module_list env args config w :
  ModuleListFile args = "" ->
  afterSetup env args config w
  = Exit 1
      (log (fatalLog "-l <moduleListFile> is required and must be nonempty")
         w).
Proof.
  intros Hmlf. unfold afterSetup, resolve. cbv zeta. rewrite Hmlf.
  change (nonEmpty "") with false. cbv iota.
  erewrite bind_eq_Exit; [reflexivity|].
  erewrite bind_eq_Exit; [reflexivity|].
  rewrite fatalf_eq. reflexivity.
Qed.

Lemma setup_files env args w p :
  p <> joinPath env (SrcDir env) (Cpuprofile args) ->
  p <> joinPath env (SrcDir env) (TraceFile args) ->
  files (final (setup env args w)) !! p = files w !! p.
Proof.
  intros Hcpu Htrace. run_setup.
  destruct (NoGC args); simpl;
    (destruct (nonEmpty (Cpuprofile args)); simpl;
     [destruct (os_Create env (joinPath env (SrcDir env) (Cpuprofile args)));
        simpl; [reflexivity|] |]);
    (destruct (nonEmpty (TraceFile args)); simpl;
     [destruct (os_Create env (joinPath env (SrcDir env) (TraceFile args)));
        simpl |]);
    rewrite ?lookup_insert_ne by congruence; reflexivity.
Qed.

Lemma setup_no_profiles env args w :
  Cpuprofile args = "" -> TraceFile args = "" ->
  setup env args w
  = Ok tt (log (EvGOMAXPROCS (NumCPU env) ::
                if NoGC args then [EvSetGCPercent (-1)] else []) w).
Proof.
  intros Hcpu Htrace. run_setup. rewrite Hcpu, Htrace.
  change (nonEmpty "") with false. destruct (NoGC args); simpl;
    rewrite ?log_log; reflexivity.
Qed.

Lemma body_no_module_list env args config w :
  ModuleListFile args = "" ->
  exists w' es,
    body env args config w = Exit 1 w' /\
    events w' = events w ++ es ++ [EvExit 1] /\
    Forall (fun e => inSetup e = true) es /\
    forall p, files w' !! p = files (final (setup env args w)) !! p.
Proof.
  intros Hmlf. unfold body. pose proof (setup_obeys env args w) as Hobeys.
  destruct (setup env args w) as [[] w1|c w1|w1] eqn:Hsetup.
  - rewrite (bind_eq_Ok _ _ _ _ _ Hsetup).
    rewrite afterSetup_no_module_list by exact Hmlf.
    destruct Hobeys as [(es & E & F) _].
    eexists.
    exists (es ++ [EvPrint
                     "-l <moduleListFile> is required and must be nonempty";
                   EvPrint nl]).
    split; [reflexivity|]. simpl. rewrite E, <- !app_assoc. simpl.
    split; [reflexivity|]. split; [|reflexivity].
    apply Forall_app. split; [exact F|]. repeat constructor.
  - rewrite (bind_eq_Exit _ _ _ _ _ Hsetup).
    destruct Hobeys as (-> & w'' & [(es & E & F) _] & ->).
    eexists. exists es. split; [reflexivity|]. simpl. rewrite E, <- app_assoc.
    auto.
  - destruct Hobeys as [_ []].
Qed.

(** C5, as the driver has it.  A run without a module list file ends by the
    fatal report (exit status 1) before the module list reaches the engine,
    before the enumeration of the description files and before every later
    phase: its log holds only the process tuning, the creation and start of
    the profiles asked for, the printing and the exit.  The file tree differs
    from the initial one at most at the paths of the CPU profile and of the
    trace; when neither is asked for, the run fails before any file is
    created, read or written. *)
Theorem module_list_required env args config fs :
  ModuleListFile args = "" ->
  fst (RunBlueprint env args config fs) = Exited 1 /\
  Forall (fun e => pastModuleListCheck e = false)
    (events (snd (RunBlueprint env args config fs))) /\
  (forall p,
     p <> joinPath env (SrcDir env) (Cpuprofile args) ->
     p <> joinPath env (SrcDir env) (TraceFile args) ->
     files (snd (RunBlueprint env args config fs)) !! p = fs !! p) /\
  (Cpuprofile args = "" -> TraceFile args = "" ->
   failsBeforeAnyFile env args config fs).
Proof.
  intros Hmlf. split; [|split; [|split]].
  - destruct (body_no_module_list env args config (start fs) Hmlf)
      as (w' & es & Hbody & _).
    unfold RunBlueprint. rewrite Hbody. reflexivity.
  - destruct (body_no_module_list env args config (start fs) Hmlf)
      as (w' & es & Hbody & Hlog & Hes & _).
    unfold RunBlueprint. rewrite Hbody. simpl. rewrite Hlog. simpl.
    apply Forall_app. split; [|repeat constructor].
    eapply Forall_impl; [exact Hes|].
    intros [] He; try reflexivity; discriminate He.
  - intros p Hcpu Htrace.
    destruct (body_no_module_list env args config (start fs) Hmlf)
      as (w' & es & Hbody & _ & _ & Hfiles).
    unfold RunBlueprint. rewrite Hbody. simpl.
    rewrite Hfiles, setup_files by assumption. reflexivity.
  - intros Hcpu Htrace. unfold failsBeforeAnyFile, RunBlueprint, body.
    rewrite (bind_eq_Ok _ _ _ _ _
               (setup_no_profiles env args (start fs) Hcpu Htrace)).
    rewrite afterSetup_no_module_list by exact Hmlf. simpl.
    split; [reflexivity|]. split; [|reflexivity].
    destruct (NoGC args); repeat constructor.
Qed.

Lemma module_list_required_witness :
  failsBeforeAnyFile sampleEnv (sampleArgs "" "" "" false false false None)
    (sampleConfig None) ∅.
Proof.
  exact (proj2 (proj2 (proj2
           (module_list_required sampleEnv
              (sampleArgs "" "" "" false false false None)
              (sampleConfig None) ∅ eq_refl))) eq_refl eq_refl).
Defined.

(** C5, as stated, fails when a CPU profile is asked for: the profile file
    is created, and the session started, before the module list check. *)
Lemma module_list_required_counterexample :
  ModuleListFile (sampleArgs "cpu.prof" "" "" false false false None) = "" /\
  events
    (snd (RunBlueprint sampleEnv
            (sampleArgs "cpu.prof" "" "" false false false None)
            (sampleConfig None) ∅))
  = [EvGOMAXPROCS 4; EvCreate "/src/cpu.prof";
     EvStartCPUProfile "/src/cpu.prof";
     EvPrint "-l <moduleListFile> is required and must be nonempty";
     EvPrint nl; EvExit 1] /\
  (∅ : gmap string string) !! "/src/cpu.prof" = None /\
  files
    (snd (RunBlueprint sampleEnv
            (sampleArgs "cpu.prof" "" "" false false false None)
            (sampleConfig None) ∅)) !! "/src/cpu.prof" = Some "" /\
  ~ failsBeforeAnyFile sampleEnv
      (sampleArgs "cpu.prof" "" "" false false false None)
      (sampleConfig None) ∅.
Proof.
  assert (Hlog :
    events
      (snd (RunBlueprint sampleEnv
              (sampleArgs "cpu.prof" "" "" false false false None)
              (sampleConfig None) ∅))
    = [EvGOMAXPROCS 4; EvCreate "/src/cpu.prof";
       EvStartCPUProfile "/src/cpu.prof";
       EvPrint "-l <moduleListFile> is required and must be nonempty";
       EvPrint nl; EvExit 1]) by (vm_compute; reflexivity).
  split; [reflexivity|]. split; [exact Hlog|]. split; [reflexivity|].
  split; [vm_compute; reflexivity|].
  intros (_ & Hnone & _). rewrite Hlog in Hnone.
  apply Forall_cons in Hnone as [_ Hnone].
  apply Forall_cons in Hnone as [Hcreate _]. discriminate Hcreate.
Qed.

(** ** The profiling sessions *)

Lemma body_unwinds env args config w0 :
  (forall code w, body env args config w0 <> Exit code w) ->
  exists w1,
    setup env args w0 = Ok tt w1 /\
    grows (fun _ => True) w1 (final (body env args config w0)).
Proof.
  unfold body. intros Hno.
  pose proof (setup_obeys env args w0) as Hsetup.
  destruct (setup env args w0) as [[] w1|c w1|w1] eqn:Hs.
  - exists w1. split; [reflexivity|].
    rewrite (bind_eq_Ok _ _ _ _ _ Hs) in Hno |- *.
    pose proof (afterSetup_obeys env args config w1) as Hafter.
    destruct (afterSetup env args config w1) as [deps w|c w|w]; simpl.
    + eapply grows_weaken; [|exact Hafter]. auto.
    + exfalso. eapply Hno. reflexivity.
    + eapply grows_weaken; [|exact (proj1 Hafter)]. auto.
  - exfalso. apply (Hno c w1). apply bind_eq_Exit. exact Hs.
  - destruct Hsetup as [_ []].
Qed.

Lemma released_cpuprofile env args es ds :
  nonEmpty (Cpuprofile args) = true ->
  released
    (EvStartCPUProfile (joinPath env (SrcDir env) (Cpuprofile args)))
    EvStopCPUProfile (joinPath env (SrcDir env) (Cpuprofile args))
    (setupLog env args ++ es ++
     map deferredCall (ds ++ setupDeferred env args)).
Proof.
  intros Hc. unfold released, setupLog, setupDeferred. rewrite Hc.
  exists ([EvGOMAXPROCS (NumCPU env)] ++
          (if NoGC args then [EvSetGCPercent (-1)] else []) ++
          [EvCreate (joinPath env (SrcDir env) (Cpuprofile args))]),
    ((if nonEmpty (TraceFile args)
      then [EvCreate (joinPath env (SrcDir env) (TraceFile args));
            EvTraceStart (joinPath env (SrcDir env) (TraceFile args))]
      else []) ++ es ++ map deferredCall ds ++
     map deferredCall
       (if nonEmpty (TraceFile args)
        then [DeferTraceStop (joinPath env (SrcDir env) (TraceFile args));
              DeferClose (joinPath env (SrcDir env) (TraceFile args))]
        else [])),
    [EvClose (joinPath env (SrcDir env) (Cpuprofile args))].
  split; [|apply elem_of_cons; left; reflexivity].
  destruct (NoGC args), (nonEmpty (TraceFile args)); simpl;
    rewrite ?map_app; simpl; rewrite <- ?app_assoc; reflexivity.
Qed.

Lemma released_trace env args es ds :
  nonEmpty (TraceFile args) = true ->
  released
    (EvTraceStart (joinPath env (SrcDir env) (TraceFile args)))
    EvTraceStop (joinPath env (SrcDir env) (TraceFile args))
    (setupLog env args ++ es ++
     map deferredCall (ds ++ setupDeferred env args)).
Proof.
  intros Ht. unfold released, setupLog, setupDeferred. rewrite Ht.
  exists ([EvGOMAXPROCS (NumCPU env)] ++
          (if NoGC args then [EvSetGCPercent (-1)] else []) ++
          (if nonEmpty (Cpuprofile args)
           then [EvCreate (joinPath env (SrcDir env) (Cpuprofile args));
                 EvStartCPUProfile
                   (joinPath env (SrcDir env) (Cpuprofile args))]
           else []) ++
          [EvCreate (joinPath env (SrcDir env) (TraceFile args))]),
    (es ++ map deferredCall ds),
    (EvClose (joinPath env (SrcDir env) (TraceFile args)) ::
     map deferredCall
       (if nonEmpty (Cpuprofile args)
        then [DeferStopCPUProfile
                (joinPath env (SrcDir env) (Cpuprofile args));
              DeferClose (joinPath env (SrcDir env) (Cpuprofile args))]
        else [])).
  split; [|apply elem_of_cons; left; reflexivity].
  destruct (NoGC args), (nonEmpty (Cpuprofile args)); simpl;
    rewrite ?map_app; simpl; rewrite <- ?app_assoc; reflexivity.
Qed.

(** The log of a call that returns or unwinds. *)
Lemma RunBlueprint_unwinds env args config fs :
  (forall code, fst (RunBlueprint env args config fs) <> Exited code) ->
  deferred (snd (RunBlueprint env args config fs)) = [] /\
  exists es ds,
    events (snd (RunBlueprint env args config fs))
    = setupLog env args ++ es ++
      map deferredCall (ds ++ setupDeferred env args).
Proof.
  intros Hno.
  assert (Hbody : forall code w,
            body env args config (start fs) <> Exit code w).
  { intros code w Hexit. apply (Hno code). unfold RunBlueprint.
    rewrite Hexit. reflexivity. }
  destruct (body_unwinds env args config (start fs) Hbody)
    as (w1 & Hsetup & [(es & E & _) (ds & D)]).
  apply setup_Ok in Hsetup as (_ & Hlog & Hdef). simpl in Hlog, Hdef.
  rewrite app_nil_r in Hdef.
  unfold RunBlueprint in *.
  destruct (body env args config (start fs)) as [deps w|c w|w]; simpl in *.
  - split; [reflexivity|]. exists es, ds.
    rewrite E, D, Hlog, Hdef, <- app_assoc. reflexivity.
  - exfalso. eapply Hbody. reflexivity.
  - split; [reflexivity|]. exists es, ds.
    rewrite E, D, Hlog, Hdef, <- app_assoc. reflexivity.
Qed.

(** C6, as the driver has it.  In every call that returns (at the end or at
    a checkpoint) or unwinds, a CPU-profiling session that was asked for is
    started, stopped later, and its file closed after that; the same holds for
    a tracing session; no deferred call is left.  A fatal report ends the
    process by [os.Exit], where no deferred call runs. *)
Theorem sessions_released env args config fs :
  (forall code, fst (RunBlueprint env args config fs) <> Exited code) ->
  (Cpuprofile args <> "" ->
   released
     (EvStartCPUProfile (joinPath env (SrcDir env) (Cpuprofile args)))
     EvStopCPUProfile (joinPath env (SrcDir env) (Cpuprofile args))
     (events (snd (RunBlueprint env args config fs)))) /\
  (TraceFile args <> "" ->
   released
     (EvTraceStart (joinPath env (SrcDir env) (TraceFile args)))
     EvTraceStop (joinPath env (SrcDir env) (TraceFile args))
     (events (snd (RunBlueprint env args config fs)))) /\
  deferred (snd (RunBlueprint env args config fs)) = [].
Proof.
  intros Hno.
  destruct (RunBlueprint_unwinds env args config fs Hno)
    as (Hdone & es & ds & Hlog).
  split; [|split; [|exact Hdone]].
  - intros Hcpu. rewrite Hlog. apply released_cpuprofile.
    apply nonEmpty_true, Hcpu.
  - intros Htrace. rewrite Hlog. apply released_trace.
    apply nonEmpty_true, Htrace.
Qed.

Lemma sessions_released_witness :
  released (EvStartCPUProfile "/src/cpu.prof") EvStopCPUProfile
    "/src/cpu.prof"
    (events
       (snd (RunBlueprint sampleEnv
               (sampleArgs "cpu.prof" "out/module_paths" "" false false false
                  None)
               (sampleConfig (Some StopBeforePrepareBuildActions)) ∅))).
Proof.
  refine
    (proj1 (sessions_released sampleEnv
              (sampleArgs "cpu.prof" "out/module_paths" "" false false false
                 None)
              (sampleConfig (Some StopBeforePrepareBuildActions)) ∅ _) _).
  - intros code H. vm_compute in H. discriminate H.
  - discriminate.
Defined.

(** C6, as stated, fails on a fatal path after the session was acquired: when
    the flush of the build file fails, the process exits with the CPU profile
    started and never stopped. *)
Lemma sessions_released_counterexample :
  fst (RunBlueprint (sampleEnvWith None (Some "no space left on device"))
         (sampleArgs "cpu.prof" "out/module_paths" "" false false false None)
         (sampleConfig None) ∅)
  = Exited 1 /\
  EvStartCPUProfile "/src/cpu.prof"
  ∈ events
      (snd (RunBlueprint (sampleEnvWith None (Some "no space left on device"))
              (sampleArgs "cpu.prof" "out/module_paths" "" false false false
                 None)
              (sampleConfig None) ∅)) /\
  Forall (fun e => isStopCPUProfile e = false)
    (events
       (snd (RunBlueprint (sampleEnvWith None (Some "no space left on device"))
               (sampleArgs "cpu.prof" "out/module_paths" "" false false false
                  None)
               (sampleConfig None) ∅))) /\
  ~ released (EvStartCPUProfile "/src/cpu.prof") EvStopCPUProfile
      "/src/cpu.prof"
      (events
         (snd (RunBlueprint
                 (sampleEnvWith None (Some "no space left on device"))
                 (sampleArgs "cpu.prof" "out/module_paths" "" false false
                    false None)
                 (sampleConfig None) ∅))).
Proof.
  assert (Hnone :
    Forall (fun e => isStopCPUProfile e = false)
      (events
         (snd (RunBlueprint
                 (sampleEnvWith None (Some "no space left on device"))
                 (sampleArgs "cpu.prof" "out/module_paths" "" false false
                    false None)
                 (sampleConfig None) ∅)))).
  { vm_compute. repeat constructor. }
  split; [vm_compute; reflexivity|]. split; [|split; [exact Hnone|]].
  - vm_compute. apply elem_of_cons. right. apply elem_of_cons. right.
    apply elem_of_cons. left. reflexivity.
  - intros (before & during & after & Hlog & _). rewrite Hlog in Hnone.
    apply Forall_app in Hnone as [_ Hnone].
    apply Forall_cons in Hnone as [_ Hnone].
    apply Forall_app in Hnone as [_ Hnone].
    apply Forall_cons in Hnone as [Hstop _]. discriminate Hstop.
Qed.

(** ** The decision of the emitter and the content of the output path *)

Lemma emitOutput_Ok env args st w w' :
  emitOutput env args st w = Ok tt w' ->
  events w' = events w ++ emissionLog env args st /\
  ((forall fs, WriteBuildGlobsNinjaFile env fs !! outPath env args
               = fs !! outPath env args) ->
   files w' !! outPath env args = Some (emittedContent env args st)).
Proof.
  unfold emissionLog, emittedContent, writtenLog, openedLog, outSink,
    placeholderLog, globLog, fullGeneration, outPath.
  run_emitter.
  destruct (EmptyNinjaFile args); simpl;
    [destruct (ioutil_WriteFile env
                 (joinPath env (SrcDir env) (OutFile args)));
       simpl; [discriminate|] |];
    (destruct (bool_decide (st <> StageMain)); simpl;
     try (destruct (os_OpenFile env
                      (joinPath env (SrcDir env) (OutFile args)));
          simpl; [discriminate|]));
    destruct (nonEmpty (GlobFile args)); simpl;
    match goal with
    | |- context [WriteBuildFile env ?sink] =>
        destruct (snd (WriteBuildFile env sink)); simpl; [discriminate|]
    end;
    try (destruct (bufio_Flush env
                     (joinPath env (SrcDir env) (OutFile args)));
         simpl; [discriminate|];
         destruct (os_Close env (joinPath env (SrcDir env) (OutFile args)));
         simpl; [discriminate|]);
    intros [= <-]; simpl;
    (split; [rewrite <- ?app_assoc; reflexivity|]); intros Hglob;
    rewrite ?Hglob, ?lookup_insert_eq; simpl;
    rewrite ?Hglob, ?lookup_insert_eq; reflexivity.
Qed.




(** ** The configuration handed to the engine *)

(** Every run that returns has registered its factories on the run
    configuration [bootstrapConfig], whose invocation list the statements
    above describe. *)
Lemma RunBlueprint_registers env args config fs deps :
  fst (RunBlueprint env args config fs) = Returned deps ->
  exists before after,
    events (snd (RunBlueprint env args config fs))
    = before ++ registerLog (bootstrapConfig env args) ++ after.
Proof.
  intros Hret. apply RunBlueprint_Returned in Hret as (w & Hbody & ->).
  apply body_Ok in Hbody as (w1 & r & w2 & Hsetup & Hresolve & Hrest).
  apply resolve_Ok in Hresolve as (_ & _ & _ & ->).
  assert (Hgrows : grows (fun _ => True) (log (resolveLog env args) w1) w).
  { destruct Hrest as [(_ & _ & ->) | (_ & w3 & Hprepare & Hrest)];
      [apply grows_refl|].
    apply prepare_Ok in Hprepare as (_ & _ & ->).
    eapply grows_trans;
      [apply (grows_log _ [EvPrepareBuildActions]); repeat constructor|].
    destruct Hrest as [(_ & ->) | (_ & w4 & w5 & Hemit & Hreap & Hmem)];
      [apply grows_refl|].
    pose proof (emitOutput_obeys env args (selectStage args)
                  (log [EvPrepareBuildActions]
                     (log (resolveLog env args) w1))) as Oemit.
    rewrite Hemit in Oemit.
    pose proof (reap_obeys env args config (snd r) w4) as Oreap.
    rewrite Hreap in Oreap.
    pose proof (writeMemprofile_obeys env args w5) as Omem.
    rewrite Hmem in Omem.
    eapply grows_trans; [eapply grows_weaken; [|exact Oemit]; auto|].
    eapply grows_trans; [eapply grows_weaken; [|exact Oreap]; auto|].
    eapply grows_weaken; [|exact Omem]. auto. }
  destruct Hgrows as [(es & E & _) _]. simpl in E.
  exists (events w1 ++ [EvSetModuleListFile (ModuleListFile args);
                        EvListModulePaths (filepath_Dir env (TopFile args))]).
  eexists. simpl. rewrite E. unfold resolveLog.
  rewrite <- !app_assoc. reflexivity.
Qed.

(** * Further properties of the driver *)

(** ** What a statement preserves *)

Section Preserves.
Context {B : Type} (f : World -> B).
Hypothesis Hlog : forall es w, f (log es w) = f w.

Lemma preserves_ret {A : Type} (a : A) : preserves f (ret a).
Proof. intros w. reflexivity. Qed.

Lemma preserves_panic {A : Type} : preserves f (@panic A).
Proof. intros w. reflexivity. Qed.

Lemma preserves_bind {A C : Type} (m : M A) (k : A -> M C) :
  preserves f m -> (forall a, preserves f (k a)) -> preserves f (bind m k).
Proof.
  intros Hm Hk w. unfold bind. specialize (Hm w).
  destruct (m w) as [a w1|c w1|w1]; simpl in *; try exact Hm.
  rewrite Hk. exact Hm.
Qed.

Lemma preserves_call (e : Event) : preserves f (call e).
Proof. intros w. apply Hlog. Qed.

Lemma preserves_osExit {A : Type} code : preserves f (@osExit A code).
Proof. intros w. apply Hlog. Qed.

Lemma preserves_ifErr err handler :
  (forall e, preserves f (handler e)) -> preserves f (ifErr err handler).
Proof. intros H. destruct err; simpl; [apply H | apply preserves_ret]. Qed.

Lemma preserves_forRange {A : Type} (l : list A) body :
  (forall x, preserves f (body x)) -> preserves f (forRange l body).
Proof.
  intros H. induction l as [|x l IH]; simpl.
  - apply preserves_ret.
  - apply preserves_bind; [apply H | intros _; exact IH].
Qed.

Lemma preserves_fatalf {A : Type} format a : preserves f (@fatalf A format a).
Proof.
  unfold fatalf, fmt_Printf, fmt_Print.
  repeat (apply preserves_bind; [apply preserves_call | intros _]).
  apply preserves_osExit.
Qed.

Lemma preserves_fatalErrors {A : Type} errs : preserves f (@fatalErrors A errs).
Proof.
  unfold fatalErrors. apply preserves_bind; [|intros _; apply preserves_osExit].
  apply preserves_forRange. intros []; apply preserves_call.
Qed.

Lemma preserves_ifErrs errs : preserves f (ifErrs errs).
Proof.
  unfold ifErrs. destruct (0 <? length errs)%nat;
    [apply preserves_fatalErrors | apply preserves_ret].
Qed.
End Preserves.

(** One step of a proof that a statement preserves something; what is left
    are the statements that write files or defer calls. *)
Ltac preserve_log := first [assumption | intros; reflexivity].

Ltac preserve_step :=
  cbv zeta;
  match goal with
  | |- preserves _ (ret _) => apply preserves_ret
  | |- preserves _ panic => apply preserves_panic
  | |- preserves _ (call _) => apply preserves_call; preserve_log
  | |- preserves _ (osExit _) => apply preserves_osExit; preserve_log
  | |- preserves _ (fatalf _ _) => apply preserves_fatalf; preserve_log
  | |- preserves _ (fatalErrors _) => apply preserves_fatalErrors; preserve_log
  | |- preserves _ (ifErrs _) => apply preserves_ifErrs; preserve_log
  | |- preserves _ (bind _ _) => apply preserves_bind; [|intros ?]
  | |- preserves _ (ifErr _ _) => apply preserves_ifErr; intros ?
  | |- preserves _ (if ?b then _ else _) => destruct b eqn:?
  | |- preserves _ (match ?x with _ => _ end) => destruct x eqn:?
  | |- preserves _ (osCreate _ _) => unfold osCreate
  | |- preserves _ (ioutilWriteFile _ _ _ _) => unfold ioutilWriteFile
  | |- preserves _ (osOpenFile _ _ _ _) => unfold osOpenFile
  | |- preserves _ (bufFlush _ _ _) => unfold bufFlush
  | |- preserves _ (fileClose _ _) => unfold fileClose
  | |- preserves _ (pprofWriteHeapProfile _ _) =>
      unfold pprofWriteHeapProfile
  | |- preserves _ (ctxListModulePaths _ _) => unfold ctxListModulePaths
  | |- preserves _ (ctxParseFileList _ _ _) => unfold ctxParseFileList
  | |- preserves _ (ctxResolveDependencies _) =>
      unfold ctxResolveDependencies
  | |- preserves _ (ctxPrepareBuildActions _) =>
      unfold ctxPrepareBuildActions
  | |- preserves _ (ctxWriteBuildFile _ _) => unfold ctxWriteBuildFile
  | |- preserves _ (callWriteBuildGlobsNinjaFile _ _) =>
      unfold callWriteBuildGlobsNinjaFile
  | |- preserves _ (callRemoveAbandonedFilesUnder _ _ _ _ _) =>
      unfold callRemoveAbandonedFilesUnder
  | |- preserves _ (startCPUProfile _ _) => unfold startCPUProfile
  | |- preserves _ (startTrace _ _) => unfold startTrace
  | |- preserves _ (register _) => unfold register
  end.




Lemma preserves_modifyFiles {B : Type} (f : World -> B) g :
  (forall w, f (setFiles (g (files w)) w) = f w) ->
  preserves f (modifyFiles g).
Proof. intros H w. apply H. Qed.

Lemma preserves_actOnFiles {A B : Type} (f : World -> B)
  (g : gmap string string -> gmap string string * A) :
  (forall w, f (setFiles (fst (g (files w))) w) = f w) ->
  preserves f (actOnFiles g).
Proof. intros H w. apply H. Qed.

Lemma preserves_defer {B : Type} (f : World -> B) d :
  (forall w, f {| files := files w; events := events w;
                  deferred := d :: deferred w |} = f w) ->
  preserves f (defer d).
Proof. intros H w. apply H. Qed.

Ltac preserve_files :=
  repeat first
    [ preserve_step
    | match goal with
      | |- preserves _ (modifyFiles _) =>
          apply preserves_modifyFiles; intros ?; simpl
      | |- preserves _ (actOnFiles _) =>
          apply preserves_actOnFiles; intros ?; simpl
      | |- preserves _ (defer _) =>
          apply preserves_defer; intros ?; simpl
      end ].

(** Follow every branch of a statement that was unfolded down to the
    transformations of the world. *)
Ltac all_branches :=
  repeat (simpl;
          match goal with
          | |- context [match ?x with _ => _ end] =>
              lazymatch x with
              | context [match _ with _ => _ end] => fail
              | _ => destruct x eqn:?
              end
          end);
  simpl.


Lemma emitOutput_defers_nothing env args st :
  preserves deferred (emitOutput env args st).
Proof. intros w. run_emitter. all_branches; reflexivity. Qed.


Lemma reap_defers_nothing env args config buildDir :
  preserves deferred (reap env args config buildDir).
Proof. unfold reap. preserve_files; reflexivity. Qed.

(** ** The phases after Checkpoint B, when they complete *)

Lemma emitOutput_Ok_succeeds env args st w w' :
  emitOutput env args st w = Ok tt w' -> emitSucceeds env args st.
Proof.
  unfold emitSucceeds, outSink, fullGeneration, outPath. run_emitter.
  destruct (EmptyNinjaFile args); simpl;
    [destruct (ioutil_WriteFile env
                 (joinPath env (SrcDir env) (OutFile args)));
       simpl; [discriminate|] |];
    (destruct (bool_decide (st <> StageMain)); simpl;
     try (destruct (os_OpenFile env
                      (joinPath env (SrcDir env) (OutFile args)));
          simpl; [discriminate|]));
    destruct (nonEmpty (GlobFile args)); simpl;
    match goal with
    | |- context [WriteBuildFile env ?sink] =>
        destruct (snd (WriteBuildFile env sink)); simpl; [discriminate|]
    end;
    try (destruct (bufio_Flush env
                     (joinPath env (SrcDir env) (OutFile args)));
         simpl; [discriminate|];
         destruct (os_Close env (joinPath env (SrcDir env) (OutFile args)));
         simpl; [discriminate|]);
    intros _; repeat split; intros; congruence.
Qed.

Lemma emitOutput_completes env args st w :
  emitSucceeds env args st -> exists w', emitOutput env args st w = Ok tt w'.
Proof.
  intros (Hplaceholder & Hfull & Hskip).
  destruct (fullGeneration args st) eqn:Hgen.
  - destruct (Hfull eq_refl) as (HO & HW & HF & HC).
    destruct (emitOutput_succeeds env args st w Hplaceholder Hgen HO HW HF HC)
      as (w' & Hrun & _).
    eauto.
  - specialize (Hskip eq_refl).
    pose proof Hgen as [-> Hempty]%fullGeneration_false.
    specialize (Hplaceholder Hempty). unfold outPath in *. run_emitter.
    rewrite Hempty, Hplaceholder. simpl.
    destruct (nonEmpty (GlobFile args)); simpl; rewrite Hskip; simpl; eauto.
Qed.

Lemma reap_Ok env args config buildDir w w' :
  reap env args config buildDir w = Ok tt w' ->
  reapSucceedsOn env args config buildDir (files w).
Proof.
  unfold reap, reapSucceedsOn, callRemoveAbandonedFilesUnder, actOnFiles,
    ifErr, call, bind, ret.
  destruct (asConfigRemoveAbandonedFilesUnder config) as [c|]; simpl;
    [|auto].
  match goal with
  | |- context [snd ?r] => destruct (snd r) eqn:Herr
  end; simpl; [discriminate | reflexivity].
Qed.

Lemma reap_completes env args config buildDir w :
  reapSucceedsOn env args config buildDir (files w) ->
  exists w', reap env args config buildDir w = Ok tt w'.
Proof.
  unfold reap, reapSucceedsOn, callRemoveAbandonedFilesUnder, actOnFiles,
    ifErr, call, bind, ret.
  destruct (asConfigRemoveAbandonedFilesUnder config) as [c|]; simpl;
    [|eauto].
  intros ->. eauto.
Qed.

Ltac run_memprofile :=
  unfold writeMemprofile, pprofWriteHeapProfile, osCreate, ifErr, modifyFiles,
    defer, call, bind, ret; simpl.

Lemma writeMemprofile_Ok env args w w' :
  writeMemprofile env args w = Ok tt w' ->
  memprofileSucceeds env args /\
  events w' = events w ++ heapProfileLog env args /\
  deferred w' = heapProfileDeferred env args ++ deferred w.
Proof.
  unfold memprofileSucceeds, heapProfileLog, heapProfileDeferred.
  run_memprofile.
  destruct (nonEmpty (Memprofile args)) eqn:Hm; simpl.
  - destruct (os_Create env (joinPath env (SrcDir env) (Memprofile args)));
      simpl; [discriminate|].
    intros [= <-]. simpl. rewrite <- app_assoc. auto.
  - intros [= <-]. rewrite app_nil_r. repeat split.
    intros Hne. apply nonEmpty_true in Hne. congruence.
Qed.

Lemma writeMemprofile_completes env args w :
  memprofileSucceeds env args ->
  exists w', writeMemprofile env args w = Ok tt w'.
Proof.
  unfold memprofileSucceeds. intros Hmem. run_memprofile.
  destruct (nonEmpty (Memprofile args)) eqn:Hm; simpl; [|eauto].
  rewrite Hmem by (apply nonEmpty_true; exact Hm). simpl. eauto.
Qed.

Lemma ifErrs_fatal errs w :
  errs <> [] ->
  ifErrs errs w
  = Exit 1 (log (map (fun e => EvPrint (reportLine e)) errs ++ [EvExit 1]) w).
Proof.
  intros Hne. unfold ifErrs. destruct errs as [|e errs]; [congruence|].
  simpl. apply fatalErrors_eq.
Qed.

(** ** Returning and failing *)

(** X1.  The set a run returns is never empty: its first entry is the module
    list file, and that path is not the empty string. *)
Theorem returned_set_nonempty env args config fs deps :
  fst (RunBlueprint env args config fs) = Returned deps ->
  ModuleListFile args <> "" /\
  exists others, deps = ModuleListFile args :: others.
Proof.
  intros Hret. apply RunBlueprint_Returned in Hret as (w & Hbody & _).
  pose proof (body_Ok_deps _ _ _ _ _ _ Hbody) as Hdeps.
  apply body_Ok in Hbody as (w1 & r & w2 & _ & Hresolve & _).
  apply resolve_Ok in Hresolve as ((Hmlf & _) & _).
  split; [exact Hmlf|]. rewrite Hdeps. unfold resolvedDeps. simpl.
  eexists. reflexivity.
Qed.

Lemma returned_set_nonempty_witness :
  "out/module_paths" <> "" /\
  exists others,
    ["out/module_paths"; "Android.bp"; "lib/Android.bp"; "lib/sources.list"]
    = "out/module_paths" :: others.
Proof.
  exact (returned_set_nonempty sampleEnv
           (sampleArgs "" "out/module_paths" "" false false false None)
           (sampleConfig (Some StopBeforePrepareBuildActions)) ∅ _ eq_refl).
Defined.

Lemma emitOutput_files_ext env args st w w' :
  files w = files w' ->
  files (final (emitOutput env args st w))
  = files (final (emitOutput env args st w')).
Proof.
  destruct w as [fs es ds], w' as [fs' es' ds']. simpl. intros <-.
  run_emitter. all_branches; rewrite ?fatalf_eq; reflexivity.
Qed.

(** The reaper of a run that returns was called on [treeAtReaper]. *)
Lemma reaper_tree env args fs w1 w3 w4 :
  setup env args (start fs) = Ok tt w1 ->
  files w3 = files w1 ->
  emitOutput env args (selectStage args) w3 = Ok tt w4 ->
  files w4 = treeAtReaper env args fs.
Proof.
  intros Hs Hfiles Hemit. unfold treeAtReaper.
  rewrite (bind_eq_Ok _ _ _ _ _ Hs).
  rewrite <- (emitOutput_files_ext env args _ w3 w1 Hfiles), Hemit.
  reflexivity.
Qed.

(** X2.  A run returns only if every error result the driver checks was
    nil, the module list file is given and the caller's configuration
    implements [BootstrapConfig]: the creation of the profile files, the
    enumeration, parsing and dependency resolution; past Checkpoint A also
    build-action preparation; past Checkpoint B also the file operations of
    the emitter, the reaper on the file tree the emitter left, and the
    creation of the heap-profile file.  The results of
    [pprof.StartCPUProfile], [trace.Start], [pprof.WriteHeapProfile] and of
    the deferred [Close] calls are dropped by the driver and are no part of
    this. *)
Theorem returned_run_passed_checks env args config fs deps :
  fst (RunBlueprint env args config fs) = Returned deps ->
  setupSucceeds env args /\
  resolveSucceeds env args config /\
  (stopsBefore config StopBeforePrepareBuildActions = false ->
   prepareSucceeds env /\
   (stopsBefore config StopBeforeWriteNinja = false ->
    emitSucceeds env args (selectStage args) /\
    (exists buildDir,
       asBootstrapConfig config = Some buildDir /\
       reapSucceedsOn env args config buildDir (treeAtReaper env args fs)) /\
    memprofileSucceeds env args)).
Proof.
  intros Hret. apply RunBlueprint_Returned in Hret as (w & Hbody & _).
  apply body_Ok in Hbody as (w1 & r & w2 & Hsetup & Hresolve & Hrest).
  pose proof Hsetup as Hs. apply setup_Ok in Hsetup as (Hsetup & _).
  apply resolve_Ok in Hresolve as (Hresolve & Hdir & _ & ->).
  split; [exact Hsetup|]. split; [exact Hresolve|]. intros HstopA.
  destruct Hrest as [(Habs & _) | (_ & w3 & Hprepare & Hrest)];
    [congruence|].
  apply prepare_Ok in Hprepare as (Hprepare & _ & ->).
  split; [exact Hprepare|]. intros HstopB.
  destruct Hrest as [(Habs & _) | (_ & w4 & w5 & Hemit & Hreap & Hmem)];
    [congruence|].
  split; [eapply emitOutput_Ok_succeeds; exact Hemit|]. split.
  - exists (snd r). split; [exact Hdir|].
    rewrite <- (reaper_tree env args fs w1
                  (log [EvPrepareBuildActions]
                     (log (resolveLog env args) w1))
                  w4 Hs eq_refl Hemit).
    eapply reap_Ok. exact Hreap.
  - apply writeMemprofile_Ok in Hmem as (Hmem & _). exact Hmem.
Qed.

Lemma returned_run_passed_checks_witness :
  setupSucceeds sampleEnv
    (sampleArgs "cpu.prof" "out/module_paths" "" false true true None) /\
  resolveSucceeds sampleEnv
    (sampleArgs "cpu.prof" "out/module_paths" "" false true true None)
    (sampleConfig None).
Proof.
  destruct (returned_run_passed_checks sampleEnv
              (sampleArgs "cpu.prof" "out/module_paths" "" false true true
                 None)
              (sampleConfig None) ∅ _ eq_refl) as (Hsetup & Hresolve & _).
  split; assumption.
Defined.

(** X3.  Conversely, when no collaborator returns an error and no checkpoint
    is selected, the run does not exit: it returns the module list file, the
    parsed files and the extra paths of resolution and preparation. *)
Theorem full_run_returns env args config fs :
  setupSucceeds env args ->
  resolveSucceeds env args config ->
  prepareSucceeds env ->
  emitSucceeds env args (selectStage args) ->
  (forall buildDir fs', reapSucceedsOn env args config buildDir fs') ->
  memprofileSucceeds env args ->
  stopsBefore config StopBeforePrepareBuildActions = false ->
  stopsBefore config StopBeforeWriteNinja = false ->
  fst (RunBlueprint env args config fs) = Returned (preparedDeps env args).
Proof.
  intros Hsetup Hresolve Hprepare Hemit Hreap Hmem HstopA HstopB.
  destruct (setup_succeeds env args (start fs) Hsetup) as (w1 & Hs).
  destruct (resolve_succeeds env args config w1 Hresolve) as (d & Hr).
  destruct (emitOutput_completes env args (selectStage args)
              (log [EvPrepareBuildActions] (log (resolveLog env args) w1))
              Hemit) as (w4 & He).
  destruct (reap_completes env args config d w4 (Hreap d (files w4)))
    as (w5 & Hp).
  destruct (writeMemprofile_completes env args w5 Hmem) as (w6 & Hm).
  unfold RunBlueprint, body. rewrite (bind_eq_Ok _ _ _ _ _ Hs).
  unfold afterSetup. rewrite (bind_eq_Ok _ _ _ _ _ Hr). cbv zeta.
  rewrite HstopA. unfold afterCheckpointA.
  rewrite (bind_eq_Ok _ _ _ _ _ (prepare_succeeds env _ _ Hprepare)).
  rewrite HstopB. unfold afterCheckpointB. simpl fst. simpl snd.
  rewrite (bind_eq_Ok _ _ _ _ _ He).
  rewrite (bind_eq_Ok _ _ _ _ _ Hp).
  rewrite (bind_eq_Ok _ _ _ _ _ Hm). reflexivity.
Qed.

Lemma full_run_returns_witness :
  fst (RunBlueprint sampleEnv
         (sampleArgs "cpu.prof" "out/module_paths" "" false true false None)
         (sampleConfig None) ∅)
  = Returned ["out/module_paths"; "Android.bp"; "lib/Android.bp";
              "lib/sources.list"; "lib/Android.bp"; "out/globs"].
Proof.
  apply (full_run_returns sampleEnv
           (sampleArgs "cpu.prof" "out/module_paths" "" false true false None)
           (sampleConfig None) ∅).
  - split; intros _; reflexivity.
  - repeat split; try reflexivity; [discriminate | eexists; reflexivity].
  - reflexivity.
  - repeat split; try reflexivity; intros H; discriminate H.
  - intros buildDir fs'. exact I.
  - intros _. reflexivity.
  - reflexivity.
  - reflexivity.
Defined.

Lemma bind_eq_Panic {A B : Type} (m : M A) (k : A -> M B) w w1 :
  m w = Panic w1 -> bind m k w = Panic w1.
Proof. unfold bind. intros ->. reflexivity. Qed.

Lemma setup_completes env args fs :
  setupSucceeds env args ->
  exists w1,
    setup env args (start fs) = Ok tt w1 /\
    events w1 = setupLog env args /\
    deferred w1 = setupDeferred env args.
Proof.
  intros Hsetup.
  destruct (setup_succeeds env args (start fs) Hsetup) as (w1 & Hs).
  exists w1. split; [exact Hs|].
  apply setup_Ok in Hs as (_ & Hlog & Hdef). simpl in Hlog, Hdef.
  rewrite app_nil_r in Hdef. auto.
Qed.

Lemma Sprintf_enumerate_text e :
  Sprintf ("could not enumerate files: %v" +:+ nl) [e]
  = "could not enumerate files: " +:+ e +:+ nl.
Proof. reflexivity. Qed.

Lemma resolve_enumeration_fails env args config w e :
  ModuleListFile args <> "" ->
  snd (ListModulePaths env (filepath_Dir env (TopFile args))) = Some e ->
  resolve env args config w
  = Exit 1
      (log ([EvSetModuleListFile (ModuleListFile args);
             EvListModulePaths (filepath_Dir env (TopFile args))] ++
            fatalLog ("could not enumerate files: " +:+ e +:+ nl)) w).
Proof.
  intros Hm Hl. apply nonEmpty_true in Hm. run_resolve.
  rewrite Hm. simpl. rewrite Hl. simpl.
  rewrite ?fatalf_eq, ?Sprintf_enumerate_text, !log_log. reflexivity.
Qed.

Lemma resolve_panics env args config w :
  ModuleListFile args <> "" ->
  snd (ListModulePaths env (filepath_Dir env (TopFile args))) = None ->
  asBootstrapConfig config = None ->
  resolve env args config w
  = Panic
      (log [EvSetModuleListFile (ModuleListFile args);
            EvListModulePaths (filepath_Dir env (TopFile args))] w).
Proof.
  intros Hm Hl Hb. apply nonEmpty_true in Hm. run_resolve.
  rewrite Hm. simpl. rewrite Hl. simpl. rewrite Hb. simpl.
  rewrite !log_log. reflexivity.
Qed.

Lemma resolve_parse_errors env args config w :
  ModuleListFile args <> "" ->
  snd (ListModulePaths env (filepath_Dir env (TopFile args))) = None ->
  is_Some (asBootstrapConfig config) ->
  snd (ParseFileList env (filepath_Dir env (TopFile args))
         (fst (ListModulePaths env (filepath_Dir env (TopFile args)))))
  <> [] ->
  resolve env args config w
  = Exit 1
      (log ([EvSetModuleListFile (ModuleListFile args);
             EvListModulePaths (filepath_Dir env (TopFile args))] ++
            registerLog (bootstrapConfig env args) ++
            [EvParseFileList (filepath_Dir env (TopFile args))
               (fst (ListModulePaths env
                       (filepath_Dir env (TopFile args))))] ++
            map (fun e => EvPrint (reportLine e))
              (snd (ParseFileList env (filepath_Dir env (TopFile args))
                      (fst (ListModulePaths env
                              (filepath_Dir env (TopFile args)))))) ++
            [EvExit 1]) w).
Proof.
  intros Hm Hl [d Hb] Hp. apply nonEmpty_true in Hm.
  unfold resolve, register, ctxListModulePaths, ctxParseFileList,
    ctxResolveDependencies, ifErr, panic, call, bind, ret. simpl.
  rewrite Hm. simpl. rewrite Hl. simpl. rewrite Hb. simpl.
  rewrite (ifErrs_fatal _ _ Hp). unfold registerLog.
  rewrite !log_log. reflexivity.
Qed.

Lemma resolve_resolution_errors env args config w :
  ModuleListFile args <> "" ->
  snd (ListModulePaths env (filepath_Dir env (TopFile args))) = None ->
  is_Some (asBootstrapConfig config) ->
  snd (ParseFileList env (filepath_Dir env (TopFile args))
         (fst (ListModulePaths env (filepath_Dir env (TopFile args)))))
  = [] ->
  snd (ResolveDependencies env) <> [] ->
  resolve env args config w
  = Exit 1
      (log (resolveLog env args ++
            map (fun e => EvPrint (reportLine e))
              (snd (ResolveDependencies env)) ++
            [EvExit 1]) w).
Proof.
  intros Hm Hl [d Hb] Hp Hr. apply nonEmpty_true in Hm.
  unfold resolve, register, ctxListModulePaths, ctxParseFileList,
    ctxResolveDependencies, ifErr, panic, call, bind, ret. simpl.
  rewrite Hm. simpl. rewrite Hl. simpl. rewrite Hb. simpl.
  rewrite Hp. simpl. rewrite (ifErrs_fatal _ _ Hr).
  unfold resolveLog, registerLog. rewrite !log_log. reflexivity.
Qed.

Lemma RunBlueprint_exits env args config fs w1 w' code :
  setup env args (start fs) = Ok tt w1 ->
  afterSetup env args config w1 = Exit code w' ->
  RunBlueprint env args config fs = (Exited code, w').
Proof.
  intros Hs Ha. unfold RunBlueprint, body.
  rewrite (bind_eq_Ok _ _ _ _ _ Hs), Ha. reflexivity.
Qed.

Lemma afterSetup_resolve_exits env args config w code w' :
  resolve env args config w = Exit code w' ->
  afterSetup env args config w = Exit code w'.
Proof. intros H. unfold afterSetup. apply bind_eq_Exit. exact H. Qed.

(** X4.  When the enumeration of the description files fails, the run ends
    by a fatal report right after that call: it prints the error after
    "could not enumerate files: " (the message ends in two newlines, one from
    the format and one from [fatalf]) and exits with status 1; nothing is
    registered, parsed or written. *)
Theorem enumeration_failure env args config fs e :
  setupSucceeds env args ->
  ModuleListFile args <> "" ->
  snd (ListModulePaths env (filepath_Dir env (TopFile args))) = Some e ->
  fst (RunBlueprint env args config fs) = Exited 1 /\
  events (snd (RunBlueprint env args config fs))
  = setupLog env args ++
    [EvSetModuleListFile (ModuleListFile args);
     EvListModulePaths (filepath_Dir env (TopFile args));
     EvPrint ("could not enumerate files: " +:+ e +:+ nl);
     EvPrint nl; EvExit 1].
Proof.
  intros Hsetup Hm Hl.
  destruct (setup_completes env args fs Hsetup) as (w1 & Hs & Hlog & _).
  erewrite RunBlueprint_exits;
    [|exact Hs
     |apply afterSetup_resolve_exits, resolve_enumeration_fails; eassumption].
  simpl. rewrite Hlog. auto.
Qed.

Lemma enumeration_failure_witness :
  fst (RunBlueprint
         (sampleEngine (Some "open out/module_paths: no such file") [] [] [])
         (sampleArgs "" "out/module_paths" "" false false false None)
         (sampleConfig None) ∅)
  = Exited 1 /\
  events
    (snd (RunBlueprint
            (sampleEngine (Some "open out/module_paths: no such file")
               [] [] [])
            (sampleArgs "" "out/module_paths" "" false false false None)
            (sampleConfig None) ∅))
  = [EvGOMAXPROCS 4; EvSetModuleListFile "out/module_paths";
     EvListModulePaths ".";
     EvPrint ("could not enumerate files: " +:+
              "open out/module_paths: no such file" +:+ nl);
     EvPrint nl; EvExit 1].
Proof.
  refine (enumeration_failure
            (sampleEngine (Some "open out/module_paths: no such file")
               [] [] [])
            (sampleArgs "" "out/module_paths" "" false false false None)
            (sampleConfig None) ∅
            "open out/module_paths: no such file" _ _ _).
  - split; intros _; reflexivity.
  - discriminate.
  - reflexivity.
Defined.

(** X5.  When parsing returns errors, the run prints one line per error, in
    the order of the batch, right after the parse call and exits with status
    1: dependency resolution is not called and the files the parse did
    return are dropped. *)
Theorem parse_errors_fatal env args config fs :
  setupSucceeds env args ->
  ModuleListFile args <> "" ->
  snd (ListModulePaths env (filepath_Dir env (TopFile args))) = None ->
  is_Some (asBootstrapConfig config) ->
  snd (ParseFileList env (filepath_Dir env (TopFile args))
         (fst (ListModulePaths env (filepath_Dir env (TopFile args)))))
  <> [] ->
  fst (RunBlueprint env args config fs) = Exited 1 /\
  events (snd (RunBlueprint env args config fs))
  = setupLog env args ++
    [EvSetModuleListFile (ModuleListFile args);
     EvListModulePaths (filepath_Dir env (TopFile args))] ++
    registerLog (bootstrapConfig env args) ++
    [EvParseFileList (filepath_Dir env (TopFile args))
       (fst (ListModulePaths env (filepath_Dir env (TopFile args))))] ++
    map (fun e => EvPrint (reportLine e))
      (snd (ParseFileList env (filepath_Dir env (TopFile args))
              (fst (ListModulePaths env
                      (filepath_Dir env (TopFile args)))))) ++
    [EvExit 1].
Proof.
  intros Hsetup Hm Hl Hb Hp.
  destruct (setup_completes env args fs Hsetup) as (w1 & Hs & Hlog & _).
  erewrite RunBlueprint_exits;
    [|exact Hs
     |apply afterSetup_resolve_exits, resolve_parse_errors; eassumption].
  simpl. rewrite Hlog. auto.
Qed.

Lemma parse_errors_fatal_witness :
  fst (RunBlueprint
         (sampleEngine None
            [ModuleError "a.bp:3:1: unknown module type"; OtherError "boom"]
            [] [])
         (sampleArgs "" "out/module_paths" "" false false false None)
         (sampleConfig None) ∅)
  = Exited 1.
Proof.
  refine (proj1 (parse_errors_fatal
                   (sampleEngine None
                      [ModuleError "a.bp:3:1: unknown module type";
                       OtherError "boom"] [] [])
                   (sampleArgs "" "out/module_paths" "" false false false
                      None)
                   (sampleConfig None) ∅ _ _ _ _ _)).
  - split; intros _; reflexivity.
  - discriminate.
  - reflexivity.
  - eexists. reflexivity.
  - discriminate.
Defined.

(** X6.  When dependency resolution returns errors, the run prints one line
    per error right after that call and exits with status 1, before either
    checkpoint is consulted: a run configured to stop before preparing build
    actions exits too instead of returning. *)
Theorem resolution_errors_fatal env args config fs :
  setupSucceeds env args ->
  ModuleListFile args <> "" ->
  snd (ListModulePaths env (filepath_Dir env (TopFile args))) = None ->
  is_Some (asBootstrapConfig config) ->
  snd (ParseFileList env (filepath_Dir env (TopFile args))
         (fst (ListModulePaths env (filepath_Dir env (TopFile args)))))
  = [] ->
  snd (ResolveDependencies env) <> [] ->
  fst (RunBlueprint env args config fs) = Exited 1 /\
  events (snd (RunBlueprint env args config fs))
  = setupLog env args ++ resolveLog env args ++
    map (fun e => EvPrint (reportLine e)) (snd (ResolveDependencies env)) ++
    [EvExit 1].
Proof.
  intros Hsetup Hm Hl Hb Hp Hr.
  destruct (setup_completes env args fs Hsetup) as (w1 & Hs & Hlog & _).
  erewrite RunBlueprint_exits;
    [|exact Hs
     |apply afterSetup_resolve_exits, resolve_resolution_errors; eassumption].
  simpl. rewrite Hlog. auto.
Qed.

Lemma resolution_errors_fatal_witness :
  fst (RunBlueprint
         (sampleEngine None [] [PropertyError "lib/Android.bp:7:9: bad deps"]
            [])
         (sampleArgs "" "out/module_paths" "" false false false None)
         (sampleConfig (Some StopBeforePrepareBuildActions)) ∅)
  = Exited 1.
Proof.
  refine (proj1 (resolution_errors_fatal
                   (sampleEngine None []
                      [PropertyError "lib/Android.bp:7:9: bad deps"] [])
                   (sampleArgs "" "out/module_paths" "" false false false
                      None)
                   (sampleConfig (Some StopBeforePrepareBuildActions)) ∅
                   _ _ _ _ _ _)).
  - split; intros _; reflexivity.
  - discriminate.
  - reflexivity.
  - eexists. reflexivity.
  - reflexivity.
  - discriminate.
Defined.

(** X7.  When build-action preparation returns errors, the run prints one
    line per error right after that call and exits with status 1; the
    emitter is not entered, so not even the empty placeholder is written. *)
Theorem preparation_errors_fatal env args config fs :
  setupSucceeds env args ->
  resolveSucceeds env args config ->
  stopsBefore config StopBeforePrepareBuildActions = false ->
  snd (PrepareBuildActions env) <> [] ->
  fst (RunBlueprint env args config fs) = Exited 1 /\
  events (snd (RunBlueprint env args config fs))
  = setupLog env args ++ resolveLog env args ++ [EvPrepareBuildActions] ++
    map (fun e => EvPrint (reportLine e)) (snd (PrepareBuildActions env)) ++
    [EvExit 1].
Proof.
  intros Hsetup Hresolve HstopA Hp.
  destruct (setup_completes env args fs Hsetup) as (w1 & Hs & Hlog & _).
  destruct (resolve_succeeds env args config w1 Hresolve) as (d & Hr).
  erewrite RunBlueprint_exits; [|exact Hs|].
  2: { unfold afterSetup. rewrite (bind_eq_Ok _ _ _ _ _ Hr). cbv zeta.
       rewrite HstopA. unfold afterCheckpointA. apply bind_eq_Exit.
       unfold prepare, ctxPrepareBuildActions, call, bind, ret. simpl.
       rewrite (ifErrs_fatal _ _ Hp). reflexivity. }
  split; [reflexivity|]. cbn -[setupLog resolveLog app].
  rewrite Hlog, <- !app_assoc. reflexivity.
Qed.

Lemma preparation_errors_fatal_witness :
  fst (RunBlueprint
         (sampleEngine None [] [] [OtherError "cycle in build actions"])
         (sampleArgs "" "out/module_paths" "" false true false None)
         (sampleConfig None) ∅)
  = Exited 1.
Proof.
  refine (proj1 (preparation_errors_fatal
                   (sampleEngine None [] []
                      [OtherError "cycle in build actions"])
                   (sampleArgs "" "out/module_paths" "" false true false None)
                   (sampleConfig None) ∅ _ _ _ _)).
  - split; intros _; reflexivity.
  - repeat split; try reflexivity; [discriminate | eexists; reflexivity].
  - reflexivity.
  - discriminate.
Defined.

(** X8.  A caller configuration that does not implement [BootstrapConfig]
    makes the run panic at line 127, after the enumeration and before
    anything is registered with the engine.  Unlike a fatal report, the
    panic unwinds the function: the profiling sessions that were started are
    stopped and their files closed. *)
Theorem missing_bootstrap_config_panics env args config fs :
  setupSucceeds env args ->
  ModuleListFile args <> "" ->
  snd (ListModulePaths env (filepath_Dir env (TopFile args))) = None ->
  asBootstrapConfig config = None ->
  fst (RunBlueprint env args config fs) = Panicked /\
  events (snd (RunBlueprint env args config fs))
  = setupLog env args ++
    [EvSetModuleListFile (ModuleListFile args);
     EvListModulePaths (filepath_Dir env (TopFile args))] ++
    map deferredCall (setupDeferred env args) /\
  deferred (snd (RunBlueprint env args config fs)) = [].
Proof.
  intros Hsetup Hm Hl Hb.
  destruct (setup_completes env args fs Hsetup) as (w1 & Hs & Hlog & Hdef).
  unfold RunBlueprint, body. rewrite (bind_eq_Ok _ _ _ _ _ Hs).
  unfold afterSetup.
  rewrite (bind_eq_Panic _ _ _ _ (resolve_panics env args config w1 Hm Hl Hb)).
  split; [reflexivity|]. split; [|reflexivity].
  cbn -[setupLog setupDeferred app map]. rewrite Hlog, Hdef, <- !app_assoc.
  reflexivity.
Qed.

Lemma missing_bootstrap_config_panics_witness :
  fst (RunBlueprint sampleEnv
         (sampleArgs "cpu.prof" "out/module_paths" "" false false false None)
         {| asBootstrapConfig := None;
            asConfigStopBefore := None;
            asConfigRemoveAbandonedFilesUnder := None |} ∅)
  = Panicked /\
  events
    (snd (RunBlueprint sampleEnv
            (sampleArgs "cpu.prof" "out/module_paths" "" false false false
               None)
            {| asBootstrapConfig := None;
               asConfigStopBefore := None;
               asConfigRemoveAbandonedFilesUnder := None |} ∅))
  = [EvGOMAXPROCS 4; EvCreate "/src/cpu.prof";
     EvStartCPUProfile "/src/cpu.prof";
     EvSetModuleListFile "out/module_paths"; EvListModulePaths ".";
     EvStopCPUProfile; EvClose "/src/cpu.prof"].
Proof.
  destruct (missing_bootstrap_config_panics sampleEnv
              (sampleArgs "cpu.prof" "out/module_paths" "" false false false
                 None)
              {| asBootstrapConfig := None;
                 asConfigStopBefore := None;
                 asConfigRemoveAbandonedFilesUnder := None |} ∅)
    as (Hpanic & Hlog & _).
  - split; intros _; reflexivity.
  - discriminate.
  - reflexivity.
  - reflexivity.
  - split; [exact Hpanic | exact Hlog].
Defined.

(** ** The output path and the deferred calls *)

Lemma body_Ok_deferred env args config fs deps w :
  body env args config (start fs) = Ok deps w ->
  deferred w
  = (if stopsBefore config StopBeforePrepareBuildActions
        || stopsBefore config StopBeforeWriteNinja
     then [] else heapProfileDeferred env args) ++
    setupDeferred env args.
Proof.
  intros Hbody.
  apply body_Ok in Hbody as (w1 & r & w2 & Hsetup & Hresolve & Hrest).
  apply setup_Ok in Hsetup as (_ & _ & Hdef). simpl in Hdef.
  rewrite app_nil_r in Hdef.
  apply resolve_Ok in Hresolve as (_ & _ & _ & ->).
  destruct Hrest as [(-> & _ & ->) | (-> & w3 & Hprepare & Hrest)];
    [exact Hdef|].
  apply prepare_Ok in Hprepare as (_ & _ & ->).
  destruct Hrest as [(-> & ->) | (-> & w4 & w5 & Hemit & Hreap & Hmem)];
    [exact Hdef|].
  pose proof (emitOutput_defers_nothing env args (selectStage args)
                (log [EvPrepareBuildActions]
                   (log (resolveLog env args) w1))) as Hd4.
  rewrite Hemit in Hd4. simpl in Hd4.
  pose proof (reap_defers_nothing env args config (snd r) w4) as Hd5.
  rewrite Hreap in Hd5. simpl in Hd5.
  apply writeMemprofile_Ok in Hmem as (_ & _ & ->).
  simpl. rewrite Hd5, Hd4, Hdef. reflexivity.
Qed.

(** X10.  When a run returns, the deferred calls are the last thing it does
    and they run in the reverse order of their registration: first the close
    of the heap-profile file (if the run reached it), then the stop of the
    trace and the close of its file, then the stop of the CPU profile and the
    close of its file; no session is stopped earlier. *)
Theorem deferred_calls_order env args config fs deps :
  fst (RunBlueprint env args config fs) = Returned deps ->
  exists before,
    events (snd (RunBlueprint env args config fs))
    = before ++
      (if stopsBefore config StopBeforePrepareBuildActions
          || stopsBefore config StopBeforeWriteNinja
       then []
       else if nonEmpty (Memprofile args)
            then [EvClose (joinPath env (SrcDir env) (Memprofile args))]
            else []) ++
      (if nonEmpty (TraceFile args)
       then [EvTraceStop;
             EvClose (joinPath env (SrcDir env) (TraceFile args))]
       else []) ++
      (if nonEmpty (Cpuprofile args)
       then [EvStopCPUProfile;
             EvClose (joinPath env (SrcDir env) (Cpuprofile args))]
       else []) /\
    Forall (fun e => isStop e = false) before.
Proof.
  intros Hret. apply RunBlueprint_Returned in Hret as (w & Hbody & ->).
  pose proof (body_Ok_deferred _ _ _ _ _ _ Hbody) as Hdef.
  pose proof (body_obeys env args config (start fs)) as Hobeys.
  rewrite Hbody in Hobeys. destruct Hobeys as [(es & E & F) _].
  exists (events w). split.
  - simpl. rewrite Hdef. unfold heapProfileDeferred, setupDeferred.
    destruct (stopsBefore config StopBeforePrepareBuildActions
              || stopsBefore config StopBeforeWriteNinja),
      (nonEmpty (Memprofile args)), (nonEmpty (TraceFile args)),
      (nonEmpty (Cpuprofile args)); reflexivity.
  - rewrite E. simpl. eapply Forall_impl; [exact F|].
    intros [] He; try reflexivity; discriminate He.
Qed.

Lemma deferred_calls_order_witness :
  exists before,
    events
      (snd (RunBlueprint sampleEnv
              (sampleArgs "cpu.prof" "out/module_paths" "" false false false
                 None)
              (sampleConfig None) ∅))
    = before ++ [] ++ [] ++ [EvStopCPUProfile; EvClose "/src/cpu.prof"] /\
    Forall (fun e => isStop e = false) before.
Proof.
  exact (deferred_calls_order sampleEnv
           (sampleArgs "cpu.prof" "out/module_paths" "" false false false
              None)
           (sampleConfig None) ∅ _ eq_refl).
Defined.

(** ** The files a run touches *)














(** ** The beginning of every run *)

Lemma countWhere_app f l1 l2 :
  countWhere f (l1 ++ l2) = (countWhere f l1 + countWhere f l2)%nat.
Proof. unfold countWhere. rewrite List.filter_app, length_app. reflexivity. Qed.

Lemma countWhere_none (f : Event -> bool) l :
  Forall (fun e => f e = false) l -> countWhere f l = 0%nat.
Proof.
  unfold countWhere. induction 1 as [|e l He _ IH]; simpl; [reflexivity|].
  rewrite He. exact IH.
Qed.

(** What the set-up logs, however it ends: the tuning first, then at most
    one start of each session. *)
Lemma setup_events env args w :
  exists es,
    events (final (setup env args w))
    = events w ++
      (EvGOMAXPROCS (NumCPU env) ::
       if NoGC args then [EvSetGCPercent (-1)] else []) ++ es /\
    Forall (fun e => isTuning e = false) es /\
    (countWhere isStartCPUProfile es <= 1)%nat /\
    (countWhere isTraceStart es <= 1)%nat.
Proof.
  run_setup. all_branches;
    (eexists; split; [rewrite <- ?app_assoc; simpl; reflexivity|]);
    (split; [once (repeat constructor) | unfold countWhere; simpl; lia]).
Qed.

(** What the rest of the body adds to the log of the set-up. *)
Lemma body_events env args config w :
  exists es,
    events (final (body env args config w))
    = events (final (setup env args w)) ++ es /\
    Forall (fun e => inAfterSetup e = true \/ e = EvExit 1) es.
Proof.
  unfold body, bind.
  destruct (setup env args w) as [[] w1|c w1|w1]; simpl;
    try (exists []; rewrite app_nil_r; split; [reflexivity | constructor]).
  pose proof (afterSetup_obeys env args config w1) as Hobeys.
  destruct (afterSetup env args config w1) as [deps w2|c w2|w2]; simpl.
  - destruct Hobeys as [(es & E & F) _]. exists es. split; [exact E|].
    eapply Forall_impl; [exact F|]. auto.
  - destruct Hobeys as (_ & w'' & [(es & E & F) _] & ->).
    exists (es ++ [EvExit 1]). simpl. rewrite E, app_assoc.
    split; [reflexivity|]. apply Forall_app. split.
    + eapply Forall_impl; [exact F|]. auto.
    + constructor; [right; reflexivity | constructor].
  - destruct Hobeys as [[(es & E & F) _] _]. exists es. split; [exact E|].
    eapply Forall_impl; [exact F|]. auto.
Qed.

(** The log of a call: that of the set-up, then events of the later
    phases, the exit or the deferred calls. *)
Lemma RunBlueprint_events env args config fs :
  exists es,
    events (snd (RunBlueprint env args config fs))
    = events (final (setup env args (start fs))) ++ es /\
    Forall (fun e => inAfterSetup e = true \/ e = EvExit 1 \/
                     unwinding e = true) es.
Proof.
  destruct (body_events env args config (start fs)) as (es & E & F).
  unfold RunBlueprint.
  destruct (body env args config (start fs)) as [deps w|c w|w]; simpl in *.
  - exists (es ++ map deferredCall (deferred w)). rewrite E, app_assoc.
    split; [reflexivity|]. apply Forall_app. split.
    + eapply Forall_impl; [exact F|]. intros e [He | He]; auto.
    + apply Forall_deferredCall. intros []; auto.
  - exists es. split; [exact E|]. eapply Forall_impl; [exact F|].
    intros e [He | He]; auto.
  - exists (es ++ map deferredCall (deferred w)). rewrite E, app_assoc.
    split; [reflexivity|]. apply Forall_app. split.
    + eapply Forall_impl; [exact F|]. intros e [He | He]; auto.
    + apply Forall_deferredCall. intros []; auto.
Qed.

(** X13.  Every run, whether it returns, exits or panics, begins by setting
    the process parallelism to the number of CPUs, followed by the switch-off
    of the garbage collector iff [NoGC] is set; neither call is made again
    later. *)
Theorem tuning_first env args config fs :
  exists rest,
    events (snd (RunBlueprint env args config fs))
    = EvGOMAXPROCS (NumCPU env) ::
      (if NoGC args then [EvSetGCPercent (-1)] else []) ++ rest /\
    Forall (fun e => isTuning e = false) rest.
Proof.
  destruct (RunBlueprint_events env args config fs) as (es & E & F).
  destruct (setup_events env args (start fs)) as (es0 & E0 & F0 & _).
  exists (es0 ++ es). split.
  - rewrite E, E0. simpl. rewrite <- app_assoc. reflexivity.
  - apply Forall_app. split; [exact F0|].
    eapply Forall_impl; [exact F|].
    intros e [He | [-> | He]]; [|reflexivity|]; destruct e;
      try reflexivity; discriminate He.
Qed.

(** X14.  No run starts a profiling session twice: its log holds at most one
    start of the CPU profile and at most one start of the trace. *)
Theorem session_started_once env args config fs :
  (countWhere isStartCPUProfile
     (events (snd (RunBlueprint env args config fs))) <= 1)%nat /\
  (countWhere isTraceStart
     (events (snd (RunBlueprint env args config fs))) <= 1)%nat.
Proof.
  destruct (RunBlueprint_events env args config fs) as (es & E & F).
  destruct (setup_events env args (start fs)) as (es0 & E0 & _ & Hcpu & Htr).
  rewrite E, E0. simpl.
  assert (Hnone : forall f,
            (forall e, inAfterSetup e = true \/ e = EvExit 1 \/
                       unwinding e = true -> f e = false) ->
            countWhere f es = 0%nat).
  { intros f Hf. apply countWhere_none. eapply Forall_impl; [exact F|].
    exact Hf. }
  split.
  - change (EvGOMAXPROCS (NumCPU env)
            :: ((if NoGC args then [EvSetGCPercent (-1)] else []) ++ es0)
               ++ es)
      with ([EvGOMAXPROCS (NumCPU env)] ++
            ((if NoGC args then [EvSetGCPercent (-1)] else []) ++ es0) ++ es).
    rewrite !countWhere_app, Hnone.
    + destruct (NoGC args); simpl; unfold countWhere in *; simpl; lia.
    + intros e [He | [-> | He]]; [|reflexivity|]; destruct e;
        try reflexivity; discriminate He.
  - change (EvGOMAXPROCS (NumCPU env)
            :: ((if NoGC args then [EvSetGCPercent (-1)] else []) ++ es0)
               ++ es)
      with ([EvGOMAXPROCS (NumCPU env)] ++
            ((if NoGC args then [EvSetGCPercent (-1)] else []) ++ es0) ++ es).
    rewrite !countWhere_app, Hnone.
    + destruct (NoGC args); simpl; unfold countWhere in *; simpl; lia.
    + intros e [He | [-> | He]]; [|reflexivity|]; destruct e;
        try reflexivity; discriminate He.
Qed.

(** ** The order of the late phases *)

Lemma obeys_final {A : Type} (P Q : Event -> Prop) (mayPanic : Prop)
  (m : M A) w :
  obeys P mayPanic m -> (forall e, P e -> Q e) -> Q (EvExit 1) ->
  Forall Q (events w) -> Forall Q (events (final (m w))).
Proof.
  intros Hobeys HPQ Hexit Hw. specialize (Hobeys w).
  destruct (m w) as [a w'|c w'|w']; simpl.
  - destruct Hobeys as [(es & -> & F) _]. apply Forall_app. split; [exact Hw|].
    eapply Forall_impl; eauto.
  - destruct Hobeys as (_ & w'' & [(es & E & F) _] & ->). simpl. rewrite E.
    apply Forall_app. split; [apply Forall_app; split; [exact Hw|]|].
    + eapply Forall_impl; eauto.
    + repeat constructor. exact Hexit.
  - destruct Hobeys as [[(es & -> & F) _] _]. apply Forall_app.
    split; [exact Hw|]. eapply Forall_impl; eauto.
Qed.

Lemma obeys_extends {A : Type} (P : Event -> Prop) (mayPanic : Prop)
  (m : M A) w :
  obeys P mayPanic m -> exists es, events (final (m w)) = events w ++ es.
Proof.
  intros Hobeys. specialize (Hobeys w).
  destruct (m w) as [a w'|c w'|w']; simpl.
  - destruct Hobeys as [(es & E & _) _]. eauto.
  - destruct Hobeys as (_ & w'' & [(es & E & _) _] & ->). simpl.
    exists (es ++ [EvExit 1]). rewrite E, app_assoc. reflexivity.
  - destruct Hobeys as [[(es & E & _) _] _]. eauto.
Qed.

(** Either the body ends without a call of the reaper or of the heap
    profile, or its emitter completed and the rest of the log follows. *)
Lemma body_reaches_emitter env args config w0 :
  Forall (fun e => afterEmitter e = false) (events w0) ->
  Forall (fun e => afterEmitter e = false)
    (events (final (body env args config w0))) \/
  exists w3 w4 es,
    emitOutput env args (selectStage args) w3 = Ok tt w4 /\
    Forall (fun e => afterEmitter e = false) (events w3) /\
    events (final (body env args config w0)) = events w4 ++ es.
Proof.
  intros H0. unfold body, bind.
  assert (H1 := obeys_final _ (fun e => afterEmitter e = false) _ _ w0
                  (setup_obeys env args)
                  ltac:(intros [] He; try reflexivity; discriminate He)
                  eq_refl H0).
  destruct (setup env args w0) as [[] w1|c w1|w1]; simpl in H1 |- *;
    [|left; exact H1|left; exact H1].
  unfold afterSetup, bind.
  assert (H2 := obeys_final _ (fun e => afterEmitter e = false) _ _ w1
                  (resolve_obeys env args config)
                  ltac:(intros [] He; try reflexivity; discriminate He)
                  eq_refl H1).
  destruct (resolve env args config w1) as [r w2|c w2|w2];
    simpl in H2 |- *; [|left; exact H2|left; exact H2].
  destruct (stopsBefore config StopBeforePrepareBuildActions);
    [left; exact H2|].
  unfold afterCheckpointA, bind.
  assert (H3 := obeys_final _ (fun e => afterEmitter e = false) _ _ w2
                  (prepare_obeys env (fst r))
                  ltac:(intros [] He; try reflexivity; discriminate He)
                  eq_refl H2).
  destruct (prepare env (fst r) w2) as [deps w3|c w3|w3];
    simpl in H3 |- *; [|left; exact H3|left; exact H3].
  destruct (stopsBefore config StopBeforeWriteNinja); [left; exact H3|].
  unfold afterCheckpointB. unfold bind at 1.
  assert (H4 := obeys_final _ (fun e => afterEmitter e = false) _ _ w3
                  (emitOutput_obeys env args (selectStage args))
                  ltac:(intros [] He; try reflexivity; discriminate He)
                  eq_refl H3).
  destruct (emitOutput env args (selectStage args) w3) as [[] w4|c w4|w4]
    eqn:Hemit; simpl in H4 |- *; [|left; exact H4|left; exact H4].
  right. exists w3, w4.
  assert (Htail : obeys (fun _ => True) False
            (reap env args config (snd r) ;;
             writeMemprofile env args ;; ret deps)).
  { apply obeys_bind;
      [eapply obeys_weaken; [| |apply reap_obeys]; auto | intros _].
    apply obeys_bind;
      [eapply obeys_weaken; [| |apply writeMemprofile_obeys]; auto
      | intros _; apply obeys_ret]. }
  destruct (obeys_extends _ _ _ w4 Htail) as (es & E).
  exists es. split; [exact Hemit|]. split; [exact H3|].
  rewrite (bind_eq_Ok _ _ _ _ _ Hemit). exact E.
Qed.

Lemma Forall_Exists_false (f : Event -> bool) l :
  Forall (fun e => f e = false) l -> Exists (fun e => f e = true) l -> False.
Proof.
  intros F E. induction E as [e l He | e l _ IH].
  - apply Forall_cons in F as [Hf _]. congruence.
  - apply Forall_cons in F as [_ F]. auto.
Qed.

(** X15.  The reaper and the heap profile run only after the emitter has
    completed: whenever the log of a run, complete or not, holds one of their
    calls, it holds before it the whole log of a completed emission, and
    nothing of the two before that. *)
Theorem reaper_after_emitter env args config fs :
  Exists (fun e => afterEmitter e = true)
    (events (snd (RunBlueprint env args config fs))) ->
  exists before after,
    events (snd (RunBlueprint env args config fs))
    = before ++ emissionLog env args (selectStage args) ++ after /\
    Forall (fun e => afterEmitter e = false) before.
Proof.
  intros Hex.
  assert (Hrun : exists ds,
            events (snd (RunBlueprint env args config fs))
            = events (final (body env args config (start fs))) ++ ds /\
            Forall (fun e => afterEmitter e = false) ds).
  { unfold RunBlueprint.
    destruct (body env args config (start fs)) as [deps w|c w|w]; simpl.
    - eexists. split; [reflexivity|].
      apply Forall_deferredCall. intros []; reflexivity.
    - exists []. rewrite app_nil_r. split; [reflexivity | constructor].
    - eexists. split; [reflexivity|].
      apply Forall_deferredCall. intros []; reflexivity. }
  destruct Hrun as (ds & Hrun & Hds).
  destruct (body_reaches_emitter env args config (start fs))
    as [Hnone | (w3 & w4 & es & Hemit & H3 & Hlog)]; [constructor | |].
  - exfalso. eapply Forall_Exists_false; [|exact Hex]. rewrite Hrun.
    apply Forall_app. auto.
  - apply emitOutput_Ok in Hemit as [E4 _].
    exists (events w3), (es ++ ds). split; [|exact H3].
    rewrite Hrun, Hlog, E4, <- !app_assoc. reflexivity.
Qed.

Lemma reaper_after_emitter_witness :
  exists before after,
    events
      (snd (RunBlueprint sampleEnv
              (sampleArgs "" "out/module_paths" "" false false false None)
              reapingConfig ∅))
    = before ++
      emissionLog sampleEnv
        (sampleArgs "" "out/module_paths" "" false false false None)
        StageMain ++
      after /\
    Forall (fun e => afterEmitter e = false) before.
Proof.
  apply (reaper_after_emitter sampleEnv
           (sampleArgs "" "out/module_paths" "" false false false None)
           reapingConfig ∅).
  vm_compute.
  repeat (first [apply Exists_cons_hd; reflexivity | apply Exists_cons_tl]).
Defined.

(** ** The synthesized invocation and the fatal messages *)

(** X16.  In the synthesized invocation the arguments agree with the
    declared files: the value that follows ["-o"] is the descriptor's single
    output, and the last argument is its single input. *)
Theorem synthesized_arguments_match env args :
  PrimaryBuilderInvocations args = None ->
  exists inv input output flags rest,
    primaryBuilderInvocations (bootstrapConfig env args) = [inv] /\
    PrimaryBuilderInvocation.Inputs inv = [input] /\
    PrimaryBuilderInvocation.Outputs inv = [output] /\
    PrimaryBuilderInvocation.Args inv
    = flags ++ ["-o"; output] ++ rest ++ [input].
Proof.
  intros Hnil. simpl. unfold invocations. rewrite Hnil.
  eexists. exists (TopFile args), (mainNinjaFile env).
  exists ((if RunGoTests args then ["-t"] else []) ++
          ["-l"; ModuleListFile args]).
  exists ((if EmptyNinjaFile args then ["--empty-ninja-file"] else []) ++
          (if nonEmpty (DelveListen args)
           then ["--delve_listen"; DelveListen args] else []) ++
          (if nonEmpty (DelvePath args)
           then ["--delve_path"; DelvePath args] else [])).
  split; [reflexivity|]. split; [reflexivity|]. split; [reflexivity|].
  simpl. unfold PrimaryBuilderExtraFlags.
  destruct (RunGoTests args), (EmptyNinjaFile args),
    (nonEmpty (DelveListen args)), (nonEmpty (DelvePath args)); reflexivity.
Qed.

Lemma synthesized_arguments_match_witness :
  exists inv input output flags rest,
    primaryBuilderInvocations
      (bootstrapConfig sampleEnv
         (sampleArgs "" "out/module_paths" "" true true false None))
    = [inv] /\
    PrimaryBuilderInvocation.Inputs inv = [input] /\
    PrimaryBuilderInvocation.Outputs inv = [output] /\
    PrimaryBuilderInvocation.Args inv
    = flags ++ ["-o"; output] ++ rest ++ [input].
Proof.
  exact (synthesized_arguments_match sampleEnv
           (sampleArgs "" "out/module_paths" "" true true false None)
           eq_refl).
Defined.

(** ** No silent exit *)

Lemma append_assoc_r (a b c : string) : (a +:+ b) +:+ c = a +:+ (b +:+ c).
Proof.
  induction a as [|x a IH]; [reflexivity|].
  change (String x ((a +:+ b) +:+ c) = String x (a +:+ (b +:+ c))).
  rewrite IH. reflexivity.
Qed.

Lemma reportLine_ends_line (e : error) :
  exists text, reportLine e = text +:+ nl.
Proof.
  unfold reportLine.
  exists (red +:+ (if decide (expected e) then "error:" else "internal error:")
          +:+ unred +:+ " " +:+ Error e).
  rewrite !append_assoc_r. reflexivity.
Qed.

Lemma announced_ret {A : Type} (a : A) : announced (ret a).
Proof. intros w c w' H. discriminate H. Qed.

Lemma announced_panic {A : Type} : announced (@panic A).
Proof. intros w c w' H. discriminate H. Qed.

Lemma announced_call (e : Event) : announced (call e).
Proof. intros w c w' H. discriminate H. Qed.

Lemma announced_defer (d : Deferred) : announced (defer d).
Proof. intros w c w' H. discriminate H. Qed.

Lemma announced_modifyFiles f : announced (modifyFiles f).
Proof. intros w c w' H. discriminate H. Qed.

Lemma announced_actOnFiles {A : Type}
  (f : gmap string string -> gmap string string * A) :
  announced (actOnFiles f).
Proof. intros w c w' H. discriminate H. Qed.

Lemma announced_bind {A B : Type} (m : M A) (k : A -> M B) :
  announced m -> (forall a, announced (k a)) -> announced (bind m k).
Proof.
  intros Hm Hk w c w' H. unfold bind in H.
  destruct (m w) as [a w1|c1 w1|w1] eqn:E.
  - exact (Hk a w1 c w' H).
  - injection H as -> ->. exact (Hm w c w' E).
  - discriminate H.
Qed.

Lemma announced_ifErr err handler :
  (forall e, announced (handler e)) -> announced (ifErr err handler).
Proof. intros H. destruct err; simpl; [apply H | apply announced_ret]. Qed.

Lemma announced_fatalf {A : Type} format a : announced (@fatalf A format a).
Proof.
  intros w c w' H. rewrite fatalf_eq in H. injection H as <- <-.
  exists (events w ++ [EvPrint (Sprintf format a)]), "".
  simpl. rewrite <- app_assoc. reflexivity.
Qed.

(** The guard [len(errs) > 0] is what makes the exit of [fatalErrors] follow
    a printed line. *)
Lemma announced_ifErrs errs : announced (ifErrs errs).
Proof.
  intros w c w' H. destruct (decide (errs = [])) as [->|Hne];
    [discriminate H|].
  rewrite ifErrs_fatal in H by exact Hne. injection H as <- <-.
  destruct (exists_last Hne) as (l & x & ->).
  destruct (reportLine_ends_line x) as (text & Htext).
  exists (events w ++ map (fun e => EvPrint (reportLine e)) l), text.
  simpl. rewrite map_app, <- Htext, <- !app_assoc. reflexivity.
Qed.

Ltac announce_step :=
  cbv zeta;
  match goal with
  | |- announced (ret _) => apply announced_ret
  | |- announced panic => apply announced_panic
  | |- announced (defer _) => apply announced_defer
  | |- announced (modifyFiles _) => apply announced_modifyFiles
  | |- announced (actOnFiles _) => apply announced_actOnFiles
  | |- announced (call _) => apply announced_call
  | |- announced (fatalf _ _) => apply announced_fatalf
  | |- announced (ifErrs _) => apply announced_ifErrs
  | |- announced (bind _ _) => apply announced_bind; [|intros ?]
  | |- announced (ifErr _ _) => apply announced_ifErr; intros ?
  | |- announced (if ?b then _ else _) => destruct b
  | |- announced (match ?x with _ => _ end) => destruct x eqn:?
  | |- announced (osCreate _ _) => unfold osCreate
  | |- announced (ioutilWriteFile _ _ _ _) => unfold ioutilWriteFile
  | |- announced (osOpenFile _ _ _ _) => unfold osOpenFile
  | |- announced (bufFlush _ _ _) => unfold bufFlush
  | |- announced (fileClose _ _) => unfold fileClose
  | |- announced (pprofWriteHeapProfile _ _) => unfold pprofWriteHeapProfile
  | |- announced (ctxListModulePaths _ _) => unfold ctxListModulePaths
  | |- announced (ctxParseFileList _ _ _) => unfold ctxParseFileList
  | |- announced (ctxResolveDependencies _) => unfold ctxResolveDependencies
  | |- announced (ctxPrepareBuildActions _) => unfold ctxPrepareBuildActions
  | |- announced (ctxWriteBuildFile _ _) => unfold ctxWriteBuildFile
  | |- announced (callWriteBuildGlobsNinjaFile _ _) =>
      unfold callWriteBuildGlobsNinjaFile
  | |- announced (callRemoveAbandonedFilesUnder _ _ _ _ _) =>
      unfold callRemoveAbandonedFilesUnder
  | |- announced (startCPUProfile _ _) => unfold startCPUProfile
  | |- announced (startTrace _ _) => unfold startTrace
  | |- announced (register _) => unfold register
  | |- announced (setup _ _) => unfold setup
  | |- announced (resolve _ _ _) => unfold resolve
  | |- announced (prepare _ _) => unfold prepare
  | |- announced (emitOutput _ _ _) => unfold emitOutput
  | |- announced (reap _ _ _ _) => unfold reap
  | |- announced (writeMemprofile _ _) => unfold writeMemprofile
  | |- announced (afterCheckpointB _ _ _ _ _) => unfold afterCheckpointB
  | |- announced (afterCheckpointA _ _ _ _ _) => unfold afterCheckpointA
  | |- announced (afterSetup _ _ _) => unfold afterSetup
  end.

Lemma body_announced env args config : announced (body env args config).
Proof. unfold body. repeat announce_step. Qed.

(** X17.  The process never exits silently: whenever a run ends in
    [os.Exit], the last entry of its log before the exit is a printed text
    that ends with a newline, and nothing follows the exit. *)
Theorem exit_is_announced env args config fs code :
  fst (RunBlueprint env args config fs) = Exited code ->
  exists es text,
    events (snd (RunBlueprint env args config fs))
    = es ++ [EvPrint (text +:+ nl); EvExit code].
Proof.
  unfold RunBlueprint. intros H.
  destruct (body env args config (start fs)) as [deps w|c w|w] eqn:E;
    try discriminate H.
  simpl in H. injection H as ->. simpl.
  exact (body_announced env args config _ _ _ E).
Qed.

Lemma exit_is_announced_witness :
  exists es text,
    events
      (snd (RunBlueprint
              (sampleEngine None [] [ModuleError "a: cycle"; OtherError "eof"]
                 [])
              (sampleArgs "" "out/module_paths" "" false false false None)
              (sampleConfig None) ∅))
    = es ++ [EvPrint (text +:+ nl); EvExit 1].
Proof.
  apply (exit_is_announced
           (sampleEngine None [] [ModuleError "a: cycle"; OtherError "eof"]
              [])
           (sampleArgs "" "out/module_paths" "" false false false None)
           (sampleConfig None) ∅ 1).
  reflexivity.
Defined.

(** ** A failing reaper *)

Lemma resolve_succeeds_at env args config w buildDir :
  asBootstrapConfig config = Some buildDir ->
  resolveSucceeds env args config ->
  resolve env args config w
  = Ok (resolvedDeps env args, buildDir) (log (resolveLog env args) w).
Proof.
  intros Hb (Hm & Hl & _ & Hp & Hr).
  unfold resolvedDeps, parsedFiles, resolveLog, registerLog. run_resolve.
  apply nonEmpty_true in Hm. rewrite Hm. simpl. rewrite Hl. simpl.
  rewrite Hb. simpl. rewrite Hp. simpl. rewrite Hr. simpl.
  rewrite !log_log. reflexivity.
Qed.

Lemma Sprintf_reap e :
  Sprintf "error removing abandoned files: %s" [e]
  = "error removing abandoned files: " +:+ e.
Proof. sprintf_text. Qed.

(** X18.  When the caller's configuration asks for the reaper and the reaper
    returns an error, the run ends in exit code 1 right after that call: the
    reaper is called once, after a completed emission, on the directory of
    the top-level file, the build directory of the configuration and the two
    lists the configuration gives for that build directory; the report names
    the step; no heap profile is written and no deferred call runs. *)
Theorem reaper_failure env args config fs buildDir reaper e :
  setupSucceeds env args ->
  resolveSucceeds env args config ->
  prepareSucceeds env ->
  emitSucceeds env args (selectStage args) ->
  stopsBefore config StopBeforePrepareBuildActions = false ->
  stopsBefore config StopBeforeWriteNinja = false ->
  asBootstrapConfig config = Some buildDir ->
  asConfigRemoveAbandonedFilesUnder config = Some reaper ->
  (forall fs',
     snd (removeAbandonedFilesUnder env (filepath_Dir env (TopFile args))
            buildDir (fst (reaper buildDir)) (snd (reaper buildDir)) fs')
     = Some e) ->
  fst (RunBlueprint env args config fs) = Exited 1 /\
  events (snd (RunBlueprint env args config fs))
  = setupLog env args ++ resolveLog env args ++ [EvPrepareBuildActions] ++
    emissionLog env args (selectStage args) ++
    [EvRemoveAbandonedFilesUnder (filepath_Dir env (TopFile args)) buildDir
       (fst (reaper buildDir)) (snd (reaper buildDir))] ++
    fatalLog ("error removing abandoned files: " +:+ e).
Proof.
  intros Hsetup Hresolve Hprepare Hemit HstopA HstopB Hb Hc Hfail.
  destruct (setup_completes env args fs Hsetup) as (w1 & Hs & Hlog & _).
  pose proof (resolve_succeeds_at env args config w1 buildDir Hb Hresolve)
    as Hr.
  destruct (emitOutput_completes env args (selectStage args)
              (log [EvPrepareBuildActions] (log (resolveLog env args) w1))
              Hemit) as (w4 & He).
  pose proof (emitOutput_Ok _ _ _ _ _ He) as [E4 _].
  erewrite RunBlueprint_exits; [|exact Hs|].
  2: { unfold afterSetup. rewrite (bind_eq_Ok _ _ _ _ _ Hr). cbv zeta.
       rewrite HstopA. unfold afterCheckpointA.
       rewrite (bind_eq_Ok _ _ _ _ _ (prepare_succeeds env _ _ Hprepare)).
       rewrite HstopB. unfold afterCheckpointB. simpl fst. simpl snd.
       rewrite (bind_eq_Ok _ _ _ _ _ He). apply bind_eq_Exit.
       unfold reap. rewrite Hc. cbv zeta.
       unfold callRemoveAbandonedFilesUnder, actOnFiles, call.
       unfold bind at 1 2. rewrite Hfail. unfold ifErr.
       rewrite fatalf_eq, Sprintf_reap. reflexivity. }
  split; [reflexivity|]. unfold snd.
  cbn -[setupLog resolveLog emissionLog fatalLog app String.append].
  rewrite E4. cbn -[setupLog resolveLog emissionLog fatalLog app String.append].
  rewrite Hlog, <- !app_assoc. reflexivity.
Qed.

Lemma reaper_failure_witness :
  fst (RunBlueprint (sampleReaperFails "permission denied")
         (sampleArgs "" "out/module_paths" "" false false false None)
         reapingConfig ∅)
  = Exited 1.
Proof.
  refine (proj1 (reaper_failure (sampleReaperFails "permission denied")
                   (sampleArgs "" "out/module_paths" "" false false false
                      None)
                   reapingConfig ∅ "out" (fun dir => ([dir], []))
                   "permission denied" _ _ _ _ _ _ _ _ _)).
  - split; intros _; reflexivity.
  - repeat split; try reflexivity; [discriminate | eexists; reflexivity].
  - reflexivity.
  - repeat split; try reflexivity; intros H; discriminate H.
  - reflexivity.
  - reflexivity.
  - reflexivity.
  - reflexivity.
  - intros fs'. reflexivity.
Defined.

(** ** The output path *)














(** Why the output path must be the file of no profiler: with the CPU
    profile directed at the output file, the deferred stop writes the profile
    over the empty file the emitter left. *)
Example profile_on_output_path :
  files
    (snd (RunBlueprint sampleEnv
            (sampleArgs "build.ninja" "out/module_paths" "" false true false
               None)
            (sampleConfig None) ∅)) !! "/src/build.ninja"
  = Some "<cpu profile>".
Proof. reflexivity. Qed.





